(** * Survey submission model ([models.py]): validation and PII hashing

    A shallow embedding of [SurveySubmission], [StoredSurveyRecord],
    [hash_pii] and [StoredSurveyRecord.from_submission].

    Python values are modelled as follows.
    - [str] is a list of Unicode code points ([Z]); [len] is [length].
    - [bytes] is a list of octets ([Z] in 0..255).
    - [int] is [Z]; [bool] is [bool]; [Optional[T]] is [option T].
    - [str] on an [int] gives its decimal numeral and, as in Python 3.11
      and later, raises [ValueError] on a number of more than 4300 digits.
    - Model instances are objects in a store, read and assigned to through
      references; [from_submission] is also written as a program on it.
    - A value passed for a field is [None], a [bool], an [int], a [str], or
      an object that no field accepts; floats and byte strings are left out.
    - [hashlib.sha256(..).hexdigest()] is the FIPS 180-4 function written out
      on 32-bit words held in [Z], checked below on the standard vectors.
    - The wall clock read by [datetime.now()] is an explicit argument.
    - The pydantic (1.x) machinery that runs when a model class is called is
      written out: fields are validated in declaration order, every field
      contributes at most one error, errors of all fields are collected, a
      class validator runs after the type and constraint validators of its
      field, and sees in [values] the fields that validated before it.
    - Two library functions are parameters: [EmailStr.validate] (pydantic
      with the email-validator package) and the built-in [int] on text. *)

From Stdlib Require Import String Ascii ZArith List Bool Lia.
Import ListNotations.
Local Open Scope Z_scope.

(* ================================================================== *)
(** * Part I: definitions *)
(* ================================================================== *)

(** ** Python text *)

Module Text.

Definition codepoint := Z.
Definition str := list codepoint.

(** An ASCII literal as a [str]. *)
Definition lit (s : string) : str :=
  map (fun a => Z.of_nat (nat_of_ascii a)) (list_ascii_of_string s).

Definition eqb (a b : str) : bool :=
  if list_eq_dec Z.eq_dec a b then true else false.

(** [str.isspace] on one character: the code points whose bidirectional
    class is WS, B or S, or whose category is Zs. *)
Definition isspace (c : codepoint) : bool :=
  ((0x09 <=? c) && (c <=? 0x0D)) || ((0x1C <=? c) && (c <=? 0x20))
  || (c =? 0x85) || (c =? 0xA0) || (c =? 0x1680)
  || ((0x2000 <=? c) && (c <=? 0x200A))
  || (c =? 0x2028) || (c =? 0x2029) || (c =? 0x202F) || (c =? 0x205F)
  || (c =? 0x3000).

Fixpoint lstrip (s : str) : str :=
  match s with
  | c :: s' => if isspace c then lstrip s' else s
  | [] => []
  end.

Definition rstrip (s : str) : str := rev (lstrip (rev s)).

(** [str.strip()] with no argument. *)
Definition strip (s : str) : str := rstrip (lstrip s).

(** No white space at either end. *)
Definition trimmed (s : str) : bool :=
  match s with
  | [] => true
  | c :: _ => negb (isspace c) && negb (isspace (last s c))
  end.

(** [str.lower] restricted to what [bool_validator] can observe: the only
    characters outside A-Z whose lower case contains an ASCII letter are
    U+212A (to k) and U+0130 (to i followed by U+0307), and neither k nor i
    occurs in the words the validator compares with. *)
Definition lower_char (c : codepoint) : codepoint :=
  if (0x41 <=? c) && (c <=? 0x5A) then c + 32 else c.

Definition lower (s : str) : str := map lower_char s.

Definition digit (d : Z) : codepoint := 48 + d.

(** Decimal digits of a positive number, most significant first; [fuel]
    bounds the number of digits. *)
Fixpoint digits_pos (fuel : nat) (n : Z) (acc : str) : str :=
  match fuel with
  | O => acc
  | S f =>
      if n <? 10 then digit n :: acc
      else digits_pos f (n / 10) (digit (n mod 10) :: acc)
  end.

(** The decimal numeral of an integer. *)
Definition str_of_int (n : Z) : str :=
  if n <? 0 then 45 :: digits_pos (Z.to_nat (Z.log2 (- n)) + 1) (- n) []
  else digits_pos (Z.to_nat (Z.log2 n) + 1) n [].

(** The least number of 4301 digits.  [str] refuses to print an [int] of
    more than 4300 digits, the sign not counted
    ([sys.get_int_max_str_digits()]). *)
Definition max_str_int : Z := Eval vm_compute in 10 ^ 4300.

(** [str(n)] for an [int]: the decimal numeral; [None] is the [ValueError]
    raised beyond the digit limit. *)
Definition py_str_int (n : Z) : option str :=
  if max_str_int <=? Z.abs n then None else Some (str_of_int n).

(** [str(b)] for a [bool]. *)
Definition str_of_bool (b : bool) : str :=
  if b then lit "True" else lit "False".

(** Zero-padded fixed-width decimal, as [strftime] prints a field. *)
Fixpoint zero_pad (width : nat) (n : Z) : str :=
  match width with
  | O => []
  | S w => zero_pad w (n / 10) ++ [digit (n mod 10)]
  end.

End Text.

Import Text.

(** ** [str.encode('utf-8')] *)

Module Utf8.

Definition bytes := list Z.

(** One code point; [None] is [UnicodeEncodeError] (a surrogate, or a value
    that is no code point). *)
Definition encode_char (c : codepoint) : option bytes :=
  if c <? 0 then None
  else if c <? 0x80 then Some [c]
  else if c <? 0x800 then Some [0xC0 + c / 64; 0x80 + c mod 64]
  else if c <? 0x10000 then
    if (0xD800 <=? c) && (c <=? 0xDFFF) then None
    else Some [0xE0 + c / 4096; 0x80 + (c / 64) mod 64; 0x80 + c mod 64]
  else if c <? 0x110000 then
    Some [0xF0 + c / 262144; 0x80 + (c / 4096) mod 64;
          0x80 + (c / 64) mod 64; 0x80 + c mod 64]
  else None.

Fixpoint encode (s : str) : option bytes :=
  match s with
  | [] => Some []
  | c :: s' =>
      match encode_char c, encode s' with
      | Some b, Some bs => Some (b ++ bs)
      | _, _ => None
      end
  end.

(** The code points [encode] accepts: the Unicode range without the
    surrogates. *)
Definition encodable (c : codepoint) : bool :=
  (0 <=? c) && (c <? 0x110000) && negb ((0xD800 <=? c) && (c <=? 0xDFFF)).

End Utf8.

(** ** SHA-256 (FIPS 180-4) and [hexdigest] *)

Module Sha256.

Definition two32 : Z := 4294967296.

Definition add32 (x y : Z) : Z := (x + y) mod two32.

Definition rotr (n x : Z) : Z :=
  Z.lor (Z.shiftr x n) ((Z.shiftl x (32 - n)) mod two32).

Definition shr (n x : Z) : Z := Z.shiftr x n.

Definition not32 (x : Z) : Z := two32 - 1 - x.

Definition Ch (x y z : Z) : Z :=
  Z.lxor (Z.land x y) (Z.land (not32 x) z).

Definition Maj (x y z : Z) : Z :=
  Z.lxor (Z.lxor (Z.land x y) (Z.land x z)) (Z.land y z).

Definition bsig0 (x : Z) : Z :=
  Z.lxor (Z.lxor (rotr 2 x) (rotr 13 x)) (rotr 22 x).

Definition bsig1 (x : Z) : Z :=
  Z.lxor (Z.lxor (rotr 6 x) (rotr 11 x)) (rotr 25 x).

Definition ssig0 (x : Z) : Z :=
  Z.lxor (Z.lxor (rotr 7 x) (rotr 18 x)) (shr 3 x).

Definition ssig1 (x : Z) : Z :=
  Z.lxor (Z.lxor (rotr 17 x) (rotr 19 x)) (shr 10 x).

(** The constants of FIPS 180-4 are the first 32 bits of the fractional
    parts of roots of the first primes: cube roots of the first 64 primes
    for the round constants, square roots of the first 8 for the initial
    chaining value. *)
Definition is_prime (n : nat) : bool :=
  forallb (fun d => negb (Nat.eqb (Nat.modulo n d) 0)) (seq 2 (n - 2)).

Definition primes (count : nat) : list Z :=
  map Z.of_nat (firstn count (filter is_prime (seq 2 400))).

(** The integer part of the [k]-th root of [x], by bisection between [lo]
    and [hi]. *)
Fixpoint root (k : Z) (fuel : nat) (lo hi x : Z) : Z :=
  match fuel with
  | O => lo
  | S f =>
      let mid := (lo + hi) / 2 in
      if mid ^ k <=? x then root k f mid hi x else root k f lo mid x
  end.

Definition root_fraction (k p : Z) : Z :=
  root k 48 0 (2 ^ 40) (p * 2 ^ (32 * k)) mod two32.

Definition K : list Z := Eval vm_compute in map (root_fraction 3) (primes 64).

(** The eight working variables, also the chaining value. *)
Record state := State {
  ha : Z; hb : Z; hc : Z; hd : Z; he : Z; hf : Z; hg : Z; hh : Z
}.

Definition state_of (l : list Z) : state :=
  State (nth 0 l 0) (nth 1 l 0) (nth 2 l 0) (nth 3 l 0)
        (nth 4 l 0) (nth 5 l 0) (nth 6 l 0) (nth 7 l 0).

Definition H0 : state :=
  Eval vm_compute in state_of (map (root_fraction 2) (primes 8)).

(** Padding: a 1 bit, zeros up to 56 modulo 64 octets, then the bit length
    as a 64-bit big-endian number. *)
Definition be_bytes (width : nat) (n : Z) : list Z :=
  map (fun i => (n / 256 ^ Z.of_nat i) mod 256) (rev (seq 0 width)).

Definition pad (msg : list Z) : list Z :=
  let len := Z.of_nat (length msg) in
  msg ++ [0x80] ++ repeat 0 (Z.to_nat ((55 - len) mod 64))
      ++ be_bytes 8 (8 * len).

Fixpoint words (l : list Z) : list Z :=
  match l with
  | a :: b :: c :: d :: r =>
      (a * 16777216 + b * 65536 + c * 256 + d) :: words r
  | _ => []
  end.

Fixpoint blocks (n : nat) (l : list Z) : list (list Z) :=
  match n with
  | O => []
  | S n' => words (firstn 64 l) :: blocks n' (skipn 64 l)
  end.

(** Message schedule; [w] holds the words so far, latest first. *)
Fixpoint schedule (n : nat) (w : list Z) : list Z :=
  match n with
  | O => rev w
  | S n' =>
      let wt := add32 (add32 (ssig1 (nth 1 w 0)) (nth 6 w 0))
                      (add32 (ssig0 (nth 14 w 0)) (nth 15 w 0)) in
      schedule n' (wt :: w)
  end.

Definition round (s : state) (kw : Z * Z) : state :=
  let t1 := add32 (add32 (add32 (hh s) (bsig1 (he s)))
                         (add32 (Ch (he s) (hf s) (hg s)) (fst kw)))
                  (snd kw) in
  let t2 := add32 (bsig0 (ha s)) (Maj (ha s) (hb s) (hc s)) in
  State (add32 t1 t2) (ha s) (hb s) (hc s)
        (add32 (hd s) t1) (he s) (hf s) (hg s).

Definition compress (h : state) (block : list Z) : state :=
  let w := schedule 48 (rev block) in
  let s := fold_left round (combine K w) h in
  State (add32 (ha h) (ha s)) (add32 (hb h) (hb s))
        (add32 (hc h) (hc s)) (add32 (hd h) (hd s))
        (add32 (he h) (he s)) (add32 (hf h) (hf s))
        (add32 (hg h) (hg s)) (add32 (hh h) (hh s)).

Definition digest (msg : list Z) : state :=
  let p := pad msg in
  fold_left compress (blocks (Nat.div (length p) 64) p) H0.

Definition hex_digit (d : Z) : codepoint :=
  if d <? 10 then 48 + d else 87 + d.

(** Eight lowercase hexadecimal digits of a 32-bit word. *)
Definition hex_word (w : Z) : str :=
  map (fun i => hex_digit ((w / 16 ^ Z.of_nat i) mod 16)) (rev (seq 0 8)).

Definition hex_state (s : state) : str :=
  hex_word (ha s) ++ hex_word (hb s) ++ hex_word (hc s) ++ hex_word (hd s)
  ++ hex_word (he s) ++ hex_word (hf s) ++ hex_word (hg s)
  ++ hex_word (hh s).

(** [hashlib.sha256(msg).hexdigest()]. *)
Definition hexdigest (msg : list Z) : str := hex_state (digest msg).

(** A character of a lowercase hexadecimal numeral. *)
Definition is_lower_hex (c : codepoint) : bool :=
  ((48 <=? c) && (c <=? 57)) || ((97 <=? c) && (c <=? 102)).

(** Two different messages with the same digest. *)
Definition collision (m1 m2 : list Z) : Prop :=
  m1 <> m2 /\ hexdigest m1 = hexdigest m2.

End Sha256.

(** ** [datetime] and [strftime('%Y%m%d%H')] *)

Module Datetime.

Record datetime := {
  year : Z; month : Z; day : Z; hour : Z;
  minute : Z; second : Z; microsecond : Z
}.

(** The calendar ranges of a [datetime]; years of fewer than four digits are
    left out, since how [%Y] prints them depends on the C library. *)
Definition in_range (d : datetime) : Prop :=
  1000 <= year d <= 9999 /\ 1 <= month d <= 12 /\ 1 <= day d <= 31
  /\ 0 <= hour d <= 23.

(** [now.strftime('%Y%m%d%H')]. *)
Definition strftime_YmdH (d : datetime) : str :=
  zero_pad 4 (year d) ++ zero_pad 2 (month d) ++ zero_pad 2 (day d)
  ++ zero_pad 2 (hour d).

(** Two instants in the same clock hour. *)
Definition same_hour (d1 d2 : datetime) : Prop :=
  year d1 = year d2 /\ month d1 = month d2 /\ day d1 = day d2
  /\ hour d1 = hour d2.

End Datetime.

Import Datetime.

(** ** PII hashing *)

(** [str(value)], by the type of the value; [None] when it raises. *)
Class PyStr (A : Type) := py_str : A -> option str.

#[export] Instance PyStr_str : PyStr str := fun s => Some s.
#[export] Instance PyStr_int : PyStr Z := py_str_int.

(** [hash_pii]: [hashlib.sha256(str(value).encode('utf-8')).hexdigest()];
    [None] when it raises: the [ValueError] of [str] on an [int] beyond the
    digit limit, or the [UnicodeEncodeError] (a [ValueError] too) of
    [encode]. *)
Definition hash_pii {A : Type} `{PyStr A} (value : A) : option str :=
  match py_str value with
  | Some text => option_map Sha256.hexdigest (Utf8.encode text)
  | None => None
  end.

(** ** The pydantic layer *)

Module Pydantic.

(** The values a caller may pass for a field: [None], a [bool], an [int], a
    [str], or ([PObj]) an object that no field type of these models accepts,
    such as a list or a dict.  Floats and byte strings are not modelled. *)
Inductive pyval :=
| PNone
| PBool (b : bool)
| PInt (z : Z)
| PStr (s : str)
| PObj.

(** What a validator raises; each becomes one entry of the error list. *)
Inductive error_kind :=
| MissingError                       (* field required *)
| NoneIsNotAllowedError              (* none is not an allowed value *)
| StrError
| IntegerError
| BoolError
| AnyStrMinLengthError (limit : Z)
| AnyStrMaxLengthError (limit : Z)
| NumberNotGeError (limit : Z)
| NumberNotLeError (limit : Z)
| EmailError
| ValueError (msg : string)          (* raised by a class validator *)
| UnicodeEncodeError.                (* a ValueError, raised by [encode] *)

Record ErrorWrapper := { loc : string; exc : error_kind }.

(** Exceptions other than [ValidationError]. *)
Inductive exn := ExnUnicodeEncode | ExnValue | ExnAttribute.

(** What calling a model class or a function gives. *)
Inductive outcome (A : Type) :=
| Ok (a : A)
| ValidationError (errors : list ErrorWrapper)
| Raised (e : exn).

Arguments Ok {A} a.
Arguments ValidationError {A} errors.
Arguments Raised {A} e.

(** A validator returns a value or raises. *)
Definition vres (A : Type) : Type := (error_kind + A)%type.

Definition ret {A : Type} (a : A) : vres A := inr a.
Definition raise {A : Type} (e : error_kind) : vres A := inl e.

Definition bind {A B : Type} (r : vres A) (f : A -> vres B) : vres B :=
  match r with
  | inl e => inl e
  | inr a => f a
  end.

Notation "x <- r ;; k" := (bind r (fun x => k))
  (at level 61, r at next level, right associativity).

(** The error list one field contributes. *)
Definition errors_of {A : Type} (field : string) (r : vres A)
  : list ErrorWrapper :=
  match r with
  | inl e => [ {| loc := field; exc := e |} ]
  | inr _ => []
  end.

(** [values.get(field)] for a field validated earlier. *)
Definition validated {A : Type} (r : vres A) : option A :=
  match r with
  | inl _ => None
  | inr a => Some a
  end.

(** The message of the [ValueError] that [str] raises on an [int] beyond
    the digit limit. *)
Definition int_str_limit_message : string :=
  "Exceeds the limit (4300 digits) for integer string conversion; use sys.set_int_max_str_digits() to increase the limit".

Section Validators.

(** The built-in [int(s)] on text, which [int_validator] falls back on. *)
Variable int_of_str : str -> option Z.

Definition str_validator (v : pyval) : vres str :=
  match v with
  | PStr s => ret s
  | PInt z =>
      match py_str_int z with
      | Some s => ret s
      | None => raise (ValueError int_str_limit_message)
      end
  | PBool b => ret (str_of_bool b)
  | PNone | PObj => raise StrError
  end.

Definition int_validator (v : pyval) : vres Z :=
  match v with
  | PInt z => ret z
  | PBool b => ret (if b then 1 else 0)
  | PStr s =>
      match int_of_str s with
      | Some z => ret z
      | None => raise IntegerError
      end
  | PNone | PObj => raise IntegerError
  end.

Definition BOOL_TRUE : list str :=
  [lit "1"; lit "on"; lit "t"; lit "true"; lit "y"; lit "yes"].

Definition BOOL_FALSE : list str :=
  [lit "0"; lit "off"; lit "f"; lit "false"; lit "n"; lit "no"].

Definition bool_validator (v : pyval) : vres bool :=
  match v with
  | PBool b => ret b
  | PInt z =>
      if z =? 1 then ret true
      else if z =? 0 then ret false
      else raise BoolError
  | PStr s =>
      if existsb (Text.eqb (lower s)) BOOL_TRUE then ret true
      else if existsb (Text.eqb (lower s)) BOOL_FALSE then ret false
      else raise BoolError
  | PNone | PObj => raise BoolError
  end.

(** [min_length] / [max_length] of a constrained string. *)
Definition constr_length_validator (min_length : option Z) (max_length : Z)
  (v : str) : vres str :=
  let v_len := Z.of_nat (length v) in
  let min_length := match min_length with Some m => m | None => 0 end in
  if v_len <? min_length then raise (AnyStrMinLengthError min_length)
  else if max_length <? v_len then raise (AnyStrMaxLengthError max_length)
  else ret v.

(** [ge] / [le] of a constrained number. *)
Definition number_size_validator (ge le : Z) (v : Z) : vres Z :=
  if v <? ge then raise (NumberNotGeError ge)
  else if le <? v then raise (NumberNotLeError le)
  else ret v.

(** A required field: the key must be present and not [None]; then the
    field's validators run in order and stop at the first that raises. *)
Definition validate_required {A : Type} (validators : pyval -> vres A)
  (value : option pyval) : vres A :=
  match value with
  | None => raise MissingError
  | Some PNone => raise NoneIsNotAllowedError
  | Some v => validators v
  end.

(** An [Optional] field with default [None].  A missing key takes the default
    without validation unless a class validator has [always=True]; [None]
    skips the type validators and goes to the class validators; any other
    value passes the type validators first. *)
Definition validate_optional {A : Type} (validators : pyval -> vres A)
  (class_validators : option A -> vres (option A)) (validate_always : bool)
  (value : option pyval) : vres (option A) :=
  match value with
  | None => if validate_always then class_validators None else ret None
  | Some PNone => class_validators None
  | Some v => a <- validators v ;; class_validators (Some a)
  end.

End Validators.

(** The number of entries of an error list that name [field]. *)
Definition count_loc (field : string) (errors : list ErrorWrapper) : nat :=
  length (filter (fun e => String.eqb (loc e) field) errors).

(** [a] is [b] with some elements left out, the order kept. *)
Fixpoint in_order (a b : list string) : bool :=
  match a, b with
  | [], _ => true
  | _ :: _, [] => false
  | x :: a', y :: b' =>
      if String.eqb x y then in_order a' b' else in_order a b'
  end.

End Pydantic.

Import Pydantic.

(** ** [class SurveySubmission(BaseModel)] *)

Module SurveySubmission.

(** A constructed instance. *)
Record t := {
  name : str;
  email : str;
  age : Z;
  consent : bool;
  rating : Z;
  comments : option str;
  user_agent : option str;
  submission_id : option str
}.

(** The keyword arguments of a call of the class: for each field, [None]
    when the key is absent.  Other keys are ignored. *)
Record kwargs := {
  raw_name : option pyval;
  raw_email : option pyval;
  raw_age : option pyval;
  raw_consent : option pyval;
  raw_rating : option pyval;
  raw_comments : option pyval;
  raw_user_agent : option pyval;
  raw_submission_id : option pyval
}.

(** The fields validated so far, as a class validator sees them. *)
Record values := {
  v_name : option str;
  v_email : option str;
  v_age : option Z;
  v_consent : option bool;
  v_rating : option Z;
  v_comments : option (option str);
  v_user_agent : option (option str)
}.

(** [@validator("comments")]: [v.strip() if isinstance(v, str) else v]. *)
Definition _strip_comments (v : option str) : vres (option str) :=
  match v with
  | Some s => ret (Some (strip s))
  | None => ret v
  end.

(** [@validator("consent")]. *)
Definition _must_consent (v : bool) : vres bool :=
  if negb (Bool.eqb v true) then raise (ValueError "consent must be true")
  else ret v.

(** [@validator("submission_id", always=True)], with the clock as an
    argument. *)
Definition _compute_submission_id (v : option str) (values : values)
  (now : datetime) : vres (option str) :=
  match v with
  | Some _ => ret v
  | None =>
      match v_email values with
      | None => ret v
      | Some email =>
          let date_hour := strftime_YmdH now in
          let combined := email ++ date_hour in
          match Utf8.encode combined with
          | Some b => ret (Some (Sha256.hexdigest b))
          | None => raise UnicodeEncodeError
          end
      end
  end.

Section Construction.

(** [EmailStr.validate] on text: the normalised address, or [None] for
    [EmailError].  It belongs to pydantic and the email-validator package. *)
Variable EmailStr_validate : str -> option str.
Variable int_of_str : str -> option Z.

Definition validate_name : option pyval -> vres str :=
  validate_required
    (fun v => s <- str_validator v ;; constr_length_validator (Some 1) 100 s).

Definition validate_email : option pyval -> vres str :=
  validate_required
    (fun v => s <- str_validator v ;;
              match EmailStr_validate s with
              | Some e => ret e
              | None => raise EmailError
              end).

Definition validate_age : option pyval -> vres Z :=
  validate_required
    (fun v => n <- int_validator int_of_str v ;; number_size_validator 13 120 n).

Definition validate_consent : option pyval -> vres bool :=
  validate_required (fun v => b <- bool_validator v ;; _must_consent b).

Definition validate_rating : option pyval -> vres Z :=
  validate_required
    (fun v => n <- int_validator int_of_str v ;; number_size_validator 1 5 n).

Definition validate_comments : option pyval -> vres (option str) :=
  validate_optional
    (fun v => s <- str_validator v ;; constr_length_validator None 1000 s)
    _strip_comments false.

Definition validate_user_agent : option pyval -> vres (option str) :=
  validate_optional
    (fun v => s <- str_validator v ;; constr_length_validator None 1000 s)
    ret false.

Definition validate_submission_id (values : values) (now : datetime)
  : option pyval -> vres (option str) :=
  validate_optional str_validator
    (fun v => _compute_submission_id v values now) true.

(** The fields validated before [submission_id], which its validator
    receives as [values]. *)
Definition validated_values (data : kwargs) : values :=
  {| v_name := validated (validate_name (raw_name data));
     v_email := validated (validate_email (raw_email data));
     v_age := validated (validate_age (raw_age data));
     v_consent := validated (validate_consent (raw_consent data));
     v_rating := validated (validate_rating (raw_rating data));
     v_comments := validated (validate_comments (raw_comments data));
     v_user_agent := validated (validate_user_agent (raw_user_agent data)) |}.

(** The errors of all fields, in declaration order. *)
Definition error_list (data : kwargs) (now : datetime) : list ErrorWrapper :=
  errors_of "name" (validate_name (raw_name data))
  ++ errors_of "email" (validate_email (raw_email data))
  ++ errors_of "age" (validate_age (raw_age data))
  ++ errors_of "consent" (validate_consent (raw_consent data))
  ++ errors_of "rating" (validate_rating (raw_rating data))
  ++ errors_of "comments" (validate_comments (raw_comments data))
  ++ errors_of "user_agent" (validate_user_agent (raw_user_agent data))
  ++ errors_of "submission_id"
       (validate_submission_id (validated_values data) now
          (raw_submission_id data)).

(** The call of the class on keyword arguments [data], at clock reading
    [now]: every field is validated, in declaration order; the call raises
    [ValidationError] with the errors of all fields when there is any, and
    otherwise returns the instance holding the validated values. *)
Definition new (data : kwargs) (now : datetime) : outcome t :=
  match validate_name (raw_name data),
        validate_email (raw_email data),
        validate_age (raw_age data),
        validate_consent (raw_consent data),
        validate_rating (raw_rating data),
        validate_comments (raw_comments data),
        validate_user_agent (raw_user_agent data),
        validate_submission_id (validated_values data) now
          (raw_submission_id data) with
  | inr n, inr e, inr a, inr c, inr r, inr cm, inr ua, inr sid =>
      Ok {| name := n; email := e; age := a; consent := c; rating := r;
            comments := cm; user_agent := ua; submission_id := sid |}
  | _, _, _, _, _, _, _, _ => ValidationError (error_list data now)
  end.

(** *** The constraints of the specification, read on the keyword arguments *)

Definition too_long (limit : Z) (value : option pyval) : bool :=
  match value with
  | Some v =>
      match str_validator v with
      | inr s => limit <? Z.of_nat (length s)
      | inl _ => false
      end
  | None => false
  end.

Definition out_of_range (lo hi : Z) (value : option pyval) : bool :=
  match value with
  | Some v =>
      match int_validator int_of_str v with
      | inr n => (n <? lo) || (hi <? n)
      | inl _ => false
      end
  | None => false
  end.

(** name empty or longer than 100. *)
Definition name_violated (data : kwargs) : bool :=
  match raw_name data with
  | Some v =>
      match str_validator v with
      | inr s => Nat.eqb (length s) 0 || (100 <? Z.of_nat (length s))
      | inl _ => false
      end
  | None => false
  end.

(** email syntactically invalid. *)
Definition email_violated (data : kwargs) : bool :=
  match raw_email data with
  | Some v =>
      match str_validator v with
      | inr s =>
          match EmailStr_validate s with
          | Some _ => false
          | None => true
          end
      | inl _ => false
      end
  | None => false
  end.

(** [violates data field]: the value given for [field] breaks the constraint
    of that field. *)
Definition violates (data : kwargs) (field : string) : bool :=
  if String.eqb field "name" then name_violated data
  else if String.eqb field "email" then email_violated data
  else if String.eqb field "age" then out_of_range 13 120 (raw_age data)
  else if String.eqb field "rating" then out_of_range 1 5 (raw_rating data)
  else if String.eqb field "comments" then too_long 1000 (raw_comments data)
  else if String.eqb field "user_agent"
       then too_long 1000 (raw_user_agent data)
  else false.

(** The call raises [ValidationError], and the error list has the entry
    [(field, e)]. *)
Definition raises_with (data : kwargs) (now : datetime) (field : string)
  (e : error_kind) : Prop :=
  exists errors,
    new data now = ValidationError errors
    /\ In {| loc := field; exc := e |} errors.

(** Whatever the call does, it reports nothing for [field]. *)
Definition no_entry (data : kwargs) (now : datetime) (field : string)
  : Prop :=
  forall errors,
    new data now = ValidationError errors -> count_loc field errors = 0%nat.

End Construction.

(** No [submission_id] given: the key is absent or its value is [None]. *)
Definition id_absent (data : kwargs) : Prop :=
  raw_submission_id data = None \/ raw_submission_id data = Some PNone.

(** The values of [consent] that [bool_validator] reads as [True]. *)
Definition reads_as_true (value : option pyval) : bool :=
  match value with
  | Some (PBool b) => b
  | Some (PInt z) => z =? 1
  | Some (PStr s) => existsb (Text.eqb (lower s)) BOOL_TRUE
  | _ => false
  end.

(** The keyword arguments with another value for [comments]. *)
Definition with_comments (data : kwargs) (value : option pyval) : kwargs :=
  {| raw_name := raw_name data; raw_email := raw_email data;
     raw_age := raw_age data; raw_consent := raw_consent data;
     raw_rating := raw_rating data; raw_comments := value;
     raw_user_agent := raw_user_agent data;
     raw_submission_id := raw_submission_id data |}.

(** An instance with another value of [comments]. *)
Definition set_comments (s : t) (value : option str) : t :=
  {| name := name s; email := email s; age := age s; consent := consent s;
     rating := rating s; comments := value; user_agent := user_agent s;
     submission_id := submission_id s |}.

(** The constraints the class declares, read on an instance. *)
Definition constraints_hold (s : t) : Prop :=
  (1 <= length (name s) <= 100)%nat
  /\ 13 <= age s <= 120
  /\ consent s = true
  /\ 1 <= rating s <= 5
  /\ (forall c, comments s = Some c -> (length c <= 1000)%nat)
  /\ (forall u, user_agent s = Some u -> (length u <= 1000)%nat).

(** The fields, in the order the class declares them. *)
Definition field_names : list string :=
  ["name"; "email"; "age"; "consent"; "rating"; "comments"; "user_agent";
   "submission_id"]%string.

(** [data.get(field)] on the keyword arguments. *)
Definition get (data : kwargs) (field : string) : option pyval :=
  if String.eqb field "name" then raw_name data
  else if String.eqb field "email" then raw_email data
  else if String.eqb field "age" then raw_age data
  else if String.eqb field "consent" then raw_consent data
  else if String.eqb field "rating" then raw_rating data
  else if String.eqb field "comments" then raw_comments data
  else if String.eqb field "user_agent" then raw_user_agent data
  else if String.eqb field "submission_id" then raw_submission_id data
  else None.

Definition optional_value (v : option str) : pyval :=
  match v with
  | Some s => PStr s
  | None => PNone
  end.

(** The attributes of an instance as keyword arguments, as [s.dict()] gives
    them: every field is a key, an unset [Optional] field has value [None]. *)
Definition dict (s : t) : kwargs :=
  {| raw_name := Some (PStr (name s));
     raw_email := Some (PStr (email s));
     raw_age := Some (PInt (age s));
     raw_consent := Some (PBool (consent s));
     raw_rating := Some (PInt (rating s));
     raw_comments := Some (optional_value (comments s));
     raw_user_agent := Some (optional_value (user_agent s));
     raw_submission_id := Some (optional_value (submission_id s)) |}.

End SurveySubmission.

(** ** [class StoredSurveyRecord(BaseModel)] *)

Module StoredSurveyRecord.

Record t := {
  name : str;
  hashed_email : str;
  hashed_age : str;
  consent : bool;
  rating : Z;
  comments : option str;
  user_agent : option str;
  received_at : datetime;
  ip : str;
  submission_id : str
}.

(** The keyword arguments of [cls(...)].  [received_at] is kept typed: a
    [datetime] instance passes its field's validator unchanged. *)
Record kwargs := {
  raw_name : option pyval;
  raw_hashed_email : option pyval;
  raw_hashed_age : option pyval;
  raw_consent : option pyval;
  raw_rating : option pyval;
  raw_comments : option pyval;
  raw_user_agent : option pyval;
  raw_received_at : option datetime;
  raw_ip : option pyval;
  raw_submission_id : option pyval
}.

(** An attribute of type [Optional[str]] passed as a keyword argument. *)
Definition of_optional (v : option str) : pyval :=
  match v with
  | Some s => PStr s
  | None => PNone
  end.

Section Construction.

Variable int_of_str : str -> option Z.

Definition validate_name : option pyval -> vres str :=
  validate_required
    (fun v => s <- str_validator v ;; constr_length_validator (Some 1) 100 s).

Definition validate_str : option pyval -> vres str :=
  validate_required str_validator.

Definition validate_consent : option pyval -> vres bool :=
  validate_required bool_validator.

Definition validate_rating : option pyval -> vres Z :=
  validate_required
    (fun v => n <- int_validator int_of_str v ;; number_size_validator 1 5 n).

Definition validate_optional_text : option pyval -> vres (option str) :=
  validate_optional
    (fun v => s <- str_validator v ;; constr_length_validator None 1000 s)
    ret false.

Definition validate_received_at (v : option datetime) : vres datetime :=
  match v with
  | Some d => ret d
  | None => raise MissingError
  end.

(** The call of the class on keyword arguments [data]. *)
Definition new (data : kwargs) : outcome t :=
  let r_name := validate_name (raw_name data) in
  let r_hashed_email := validate_str (raw_hashed_email data) in
  let r_hashed_age := validate_str (raw_hashed_age data) in
  let r_consent := validate_consent (raw_consent data) in
  let r_rating := validate_rating (raw_rating data) in
  let r_comments := validate_optional_text (raw_comments data) in
  let r_user_agent := validate_optional_text (raw_user_agent data) in
  let r_received_at := validate_received_at (raw_received_at data) in
  let r_ip := validate_str (raw_ip data) in
  let r_submission_id := validate_str (raw_submission_id data) in
  match r_name, r_hashed_email, r_hashed_age, r_consent, r_rating,
        r_comments, r_user_agent, r_received_at, r_ip, r_submission_id with
  | inr n, inr he, inr ha, inr c, inr r, inr cm, inr ua, inr ra, inr i,
    inr sid =>
      Ok {| name := n; hashed_email := he; hashed_age := ha; consent := c;
            rating := r; comments := cm; user_agent := ua;
            received_at := ra; ip := i; submission_id := sid |}
  | _, _, _, _, _, _, _, _, _, _ =>
      ValidationError
        (errors_of "name" r_name ++ errors_of "hashed_email" r_hashed_email
         ++ errors_of "hashed_age" r_hashed_age
         ++ errors_of "consent" r_consent ++ errors_of "rating" r_rating
         ++ errors_of "comments" r_comments
         ++ errors_of "user_agent" r_user_agent
         ++ errors_of "received_at" r_received_at ++ errors_of "ip" r_ip
         ++ errors_of "submission_id" r_submission_id)
  end.

(** [StoredSurveyRecord.from_submission(submission, received_at, ip)]: the
    two hashes are computed while the arguments of [cls(...)] are evaluated,
    so an exception of [hash_pii] comes out before any validation: on the
    email, which is text, it is the [UnicodeEncodeError] of [encode]; on the
    age, whose numeral is ASCII, it is the [ValueError] of [str]. *)
Definition from_submission (submission : SurveySubmission.t)
  (received_at : datetime) (ip : str) : outcome t :=
  match hash_pii (SurveySubmission.email submission) with
  | None => Raised ExnUnicodeEncode
  | Some hashed_email =>
      match hash_pii (SurveySubmission.age submission) with
      | None => Raised ExnValue
      | Some hashed_age =>
          new {| raw_name := Some (PStr (SurveySubmission.name submission));
                 raw_hashed_email := Some (PStr hashed_email);
                 raw_hashed_age := Some (PStr hashed_age);
                 raw_consent :=
                   Some (PBool (SurveySubmission.consent submission));
                 raw_rating := Some (PInt (SurveySubmission.rating submission));
                 raw_comments :=
                   Some (of_optional (SurveySubmission.comments submission));
                 raw_user_agent :=
                   Some (of_optional (SurveySubmission.user_agent submission));
                 raw_received_at := Some received_at;
                 raw_ip := Some (PStr ip);
                 raw_submission_id :=
                   Some (of_optional
                           (SurveySubmission.submission_id submission)) |}
      end
  end.

End Construction.

(** The constraints the class declares, read on the attributes that
    [from_submission] passes: the lengths of name, comments and user_agent,
    the range of rating, and a submission_id that is set. *)
Definition short_enough (limit : nat) (v : option str) : bool :=
  match v with
  | Some s => Nat.leb (length s) limit
  | None => true
  end.

Definition storable (s : SurveySubmission.t) : bool :=
  Nat.leb 1 (length (SurveySubmission.name s))
  && Nat.leb (length (SurveySubmission.name s)) 100
  && (1 <=? SurveySubmission.rating s) && (SurveySubmission.rating s <=? 5)
  && short_enough 1000 (SurveySubmission.comments s)
  && short_enough 1000 (SurveySubmission.user_agent s)
  && match SurveySubmission.submission_id s with
     | Some _ => true
     | None => false
     end.

End StoredSurveyRecord.

(** ** Objects in a store

    A Python name holds a reference to an object, and an attribute of a
    model instance can be assigned to.  The store is the list of the model
    instances that exist; a reference is an index into it.  The attributes
    themselves are text, numbers, booleans and [None], which are immutable
    and are held as values. *)

Module Store.

Inductive object :=
| Submission (s : SurveySubmission.t)
| Stored (r : StoredSurveyRecord.t).

Definition store := list object.
Definition ref := nat.

Definition deref (h : store) (r : ref) : option object := nth_error h r.

(** A new object gets the next free index. *)
Definition alloc (h : store) (o : object) : store * ref :=
  (h ++ [o], length h).

(** The store with the object at [r] replaced. *)
Fixpoint assign (h : store) (r : ref) (o : object) : store :=
  match h, r with
  | [], _ => []
  | _ :: h', O => o :: h'
  | x :: h', S r' => x :: assign h' r' o
  end.

(** A piece of Python code: it runs on a store, may change it, and returns
    a value or raises. *)
Definition prog (A : Type) : Type := store -> store * outcome A.

Definition pure {A : Type} (a : A) : prog A := fun h => (h, Ok a).

Definition throw {A : Type} (e : exn) : prog A := fun h => (h, Raised e).

(** Evaluation in sequence; an exception ends it. *)
Definition and_then {A B : Type} (m : prog A) (k : A -> prog B) : prog B :=
  fun h =>
    match m h with
    | (h', Ok a) => k a h'
    | (h', ValidationError errors) => (h', ValidationError errors)
    | (h', Raised e) => (h', Raised e)
    end.

Notation "x <~ m ;; k" := (and_then m (fun x => k))
  (at level 61, m at next level, right associativity).

(** The expression [obj.attr], for an attribute of [SurveySubmission].  On
    an object of the other class the model raises [AttributeError] at once;
    Python does at the first attribute that the object lacks, and leaves the
    store as it is all the same. *)
Definition getattr {A : Type} (obj : ref) (attr : SurveySubmission.t -> A)
  : prog A :=
  fun h =>
    match deref h obj with
    | Some (Submission s) => (h, Ok (attr s))
    | _ => (h, Raised ExnAttribute)
    end.

(** The statement [obj.attr = value]; [update] gives the attributes after
    it.  Model instances are mutable, so the statement writes the store. *)
Definition setattr (obj : ref)
  (update : SurveySubmission.t -> SurveySubmission.t) : prog unit :=
  fun h =>
    match deref h obj with
    | Some (Submission s) => (assign h obj (Submission (update s)), Ok tt)
    | _ => (h, Raised ExnAttribute)
    end.

(** A call of a function that is given values only, as [hash_pii] is;
    [None] is its exception [e]. *)
Definition call {A : Type} (e : exn) (result : option A) : prog A :=
  match result with
  | Some a => pure a
  | None => throw e
  end.

Section Programs.

Variable int_of_str : str -> option Z.

(** [cls(...)]: validation of the keyword arguments and, when it passes, a
    new object. *)
Definition construct (data : StoredSurveyRecord.kwargs) : prog ref :=
  fun h =>
    match StoredSurveyRecord.new int_of_str data with
    | Ok r => let (h', p) := alloc h (Stored r) in (h', Ok p)
    | ValidationError errors => (h, ValidationError errors)
    | Raised e => (h, Raised e)
    end.

(** [StoredSurveyRecord.from_submission] on a reference to the submission:
    the keyword arguments of [cls(...)] are evaluated from left to right, each
    attribute read off the object when its argument is evaluated. *)
Definition from_submission (submission : ref) (received_at : datetime)
  (ip : str) : prog ref :=
  name <~ getattr submission SurveySubmission.name ;;
  email <~ getattr submission SurveySubmission.email ;;
  hashed_email <~ call ExnUnicodeEncode (hash_pii email) ;;
  age <~ getattr submission SurveySubmission.age ;;
  hashed_age <~ call ExnValue (hash_pii age) ;;
  consent <~ getattr submission SurveySubmission.consent ;;
  rating <~ getattr submission SurveySubmission.rating ;;
  comments <~ getattr submission SurveySubmission.comments ;;
  user_agent <~ getattr submission SurveySubmission.user_agent ;;
  submission_id <~ getattr submission SurveySubmission.submission_id ;;
  construct
    {| StoredSurveyRecord.raw_name := Some (PStr name);
       StoredSurveyRecord.raw_hashed_email := Some (PStr hashed_email);
       StoredSurveyRecord.raw_hashed_age := Some (PStr hashed_age);
       StoredSurveyRecord.raw_consent := Some (PBool consent);
       StoredSurveyRecord.raw_rating := Some (PInt rating);
       StoredSurveyRecord.raw_comments :=
         Some (StoredSurveyRecord.of_optional comments);
       StoredSurveyRecord.raw_user_agent :=
         Some (StoredSurveyRecord.of_optional user_agent);
       StoredSurveyRecord.raw_received_at := Some received_at;
       StoredSurveyRecord.raw_ip := Some (PStr ip);
       StoredSurveyRecord.raw_submission_id :=
         Some (StoredSurveyRecord.of_optional submission_id) |}.

End Programs.

(** A program that leaves every object of the store as it is; it may add
    objects. *)
Definition preserves {A : Type} (m : prog A) : Prop :=
  forall h h' result,
    m h = (h', result) ->
    forall p o, deref h p = Some o -> deref h' p = Some o.

End Store.

(** ** Instances of the library parameters

    [EmailStr.validate] and [int] on text are parameters of the model.  These
    two instances, on ASCII text, let the model run on concrete inputs. *)

Module Reference.

Fixpoint split_at (c : codepoint) (s : str) : option (str * str) :=
  match s with
  | [] => None
  | x :: r =>
      if x =? c then Some ([], r)
      else match split_at c r with
           | Some (a, b) => Some (x :: a, b)
           | None => None
           end
  end.

Definition printable (c : codepoint) : bool := (33 <=? c) && (c <=? 126).

(** Printable ASCII, one [@], a non-empty local part and a dotted domain;
    returns the address with its domain in lower case. *)
Definition ascii_email (s : str) : option str :=
  match split_at 64 s with
  | Some (local, domain) =>
      let e := local ++ 64 :: lower domain in
      if forallb printable e && negb (existsb (Z.eqb 64) domain)
         && negb (Nat.eqb (length local) 0) && existsb (Z.eqb 46) domain
      then Some e else None
  | None => None
  end.

Fixpoint parse_digits (acc : Z) (s : str) : option Z :=
  match s with
  | [] => Some acc
  | c :: r =>
      if (48 <=? c) && (c <=? 57) then parse_digits (10 * acc + (c - 48)) r
      else None
  end.

(** An optional minus sign and one or more ASCII digits. *)
Definition ascii_int (s : str) : option Z :=
  match s with
  | [] => None
  | 45 :: r =>
      match r with
      | [] => None
      | _ => option_map Z.opp (parse_digits 0 r)
      end
  | _ => parse_digits 0 s
  end.

(** Keyword arguments for name Jo, email jo@x.com, age 40 and rating 5,
    as in the example of the specification, with the given [consent],
    [comments] and [submission_id]. *)
Definition jo_with (consent : pyval) (comments submission_id : option pyval)
  : SurveySubmission.kwargs :=
  {| SurveySubmission.raw_name := Some (PStr (lit "Jo"));
     SurveySubmission.raw_email := Some (PStr (lit "jo@x.com"));
     SurveySubmission.raw_age := Some (PInt 40);
     SurveySubmission.raw_consent := Some consent;
     SurveySubmission.raw_rating := Some (PInt 5);
     SurveySubmission.raw_comments := comments;
     SurveySubmission.raw_user_agent := None;
     SurveySubmission.raw_submission_id := submission_id |}.

(** The example of the specification. *)
Definition jo : SurveySubmission.kwargs :=
  jo_with (PBool true) (Some (PStr (lit "  great  "))) None.

(** The instance the example constructs, with the given [comments] and
    [submission_id]. *)
Definition jo_instance (comments : option str) (submission_id : str)
  : SurveySubmission.t :=
  {| SurveySubmission.name := lit "Jo";
     SurveySubmission.email := lit "jo@x.com";
     SurveySubmission.age := 40;
     SurveySubmission.consent := true;
     SurveySubmission.rating := 5;
     SurveySubmission.comments := comments;
     SurveySubmission.user_agent := None;
     SurveySubmission.submission_id := Some submission_id |}.

(** sha256 of jo@x.com2024031514, as [hashlib] prints it. *)
Definition jo_id_14 : str :=
  lit "b02945abb8b670afcec112b0ceb1713fe9a7cfb4e58f21dce3f6047b276e7eac".

Definition jo_submission : SurveySubmission.t :=
  jo_instance (Some (lit "great")) jo_id_14.

(** Three constraints broken at once: an empty name, age 200, rating 0. *)
Definition three_violations : SurveySubmission.kwargs :=
  {| SurveySubmission.raw_name := Some (PStr []);
     SurveySubmission.raw_email := Some (PStr (lit "jo@x.com"));
     SurveySubmission.raw_age := Some (PInt 200);
     SurveySubmission.raw_consent := Some (PBool true);
     SurveySubmission.raw_rating := Some (PInt 0);
     SurveySubmission.raw_comments := None;
     SurveySubmission.raw_user_agent := None;
     SurveySubmission.raw_submission_id := None |}.

(** The second example of the specification: email a@b.com, age 30. *)
Definition ab : SurveySubmission.kwargs :=
  {| SurveySubmission.raw_name := Some (PStr (lit "Ann"));
     SurveySubmission.raw_email := Some (PStr (lit "a@b.com"));
     SurveySubmission.raw_age := Some (PInt 30);
     SurveySubmission.raw_consent := Some (PBool true);
     SurveySubmission.raw_rating := Some (PInt 3);
     SurveySubmission.raw_comments := None;
     SurveySubmission.raw_user_agent := None;
     SurveySubmission.raw_submission_id := None |}.

Definition ab_instance (submission_id : str) : SurveySubmission.t :=
  {| SurveySubmission.name := lit "Ann";
     SurveySubmission.email := lit "a@b.com";
     SurveySubmission.age := 30;
     SurveySubmission.consent := true;
     SurveySubmission.rating := 3;
     SurveySubmission.comments := None;
     SurveySubmission.user_agent := None;
     SurveySubmission.submission_id := Some submission_id |}.

(** sha256 of a@b.com2024031514 and of a@b.com2024031515. *)
Definition ab_id_14 : str :=
  lit "b47e47efec86481f53f754286581d767e9f7969a5332a57fe58a9ff105e0937a".

Definition ab_id_15 : str :=
  lit "6121a414c3faa50bd61a4cbeb836a22ce53af8455ff337ffeb508b8287df57ae".

(** The record derived from [jo_submission]. *)
Definition jo_record (received_at : datetime) (ip : str)
  : StoredSurveyRecord.t :=
  {| StoredSurveyRecord.name := lit "Jo";
     StoredSurveyRecord.hashed_email :=
       lit "7979608ae9748b0c8b47edaa1344f6e175cb02a4cecb8d6f2a7ed5e23e65abe9";
     StoredSurveyRecord.hashed_age :=
       lit "d59eced1ded07f84c145592f65bdf854358e009c5cd705f5215bf18697fed103";
     StoredSurveyRecord.consent := true;
     StoredSurveyRecord.rating := 5;
     StoredSurveyRecord.comments := Some (lit "great");
     StoredSurveyRecord.user_agent := None;
     StoredSurveyRecord.received_at := received_at;
     StoredSurveyRecord.ip := ip;
     StoredSurveyRecord.submission_id := jo_id_14 |}.

(** 1000 spaces followed by one letter: 1001 characters, one when stripped. *)
Definition padded_comment : str := repeat 32 1000 ++ lit "x".

Definition hour_2024031514 : datetime :=
  {| year := 2024; month := 3; day := 15; hour := 14;
     minute := 7; second := 30; microsecond := 0 |}.

Definition hour_2024031515 : datetime :=
  {| year := 2024; month := 3; day := 15; hour := 15;
     minute := 0; second := 0; microsecond := 0 |}.

(** Keyword arguments with the given name, email, age and rating, consent
    [True] and nothing else. *)
Definition basic (name email age rating : option pyval)
  : SurveySubmission.kwargs :=
  {| SurveySubmission.raw_name := name;
     SurveySubmission.raw_email := email;
     SurveySubmission.raw_age := age;
     SurveySubmission.raw_consent := Some (PBool true);
     SurveySubmission.raw_rating := rating;
     SurveySubmission.raw_comments := None;
     SurveySubmission.raw_user_agent := None;
     SurveySubmission.raw_submission_id := None |}.

(** An instance that was given no identifier and has derived none. *)
Definition jo_unset : SurveySubmission.t :=
  {| SurveySubmission.name := lit "Jo";
     SurveySubmission.email := lit "jo@x.com";
     SurveySubmission.age := 40;
     SurveySubmission.consent := true;
     SurveySubmission.rating := 5;
     SurveySubmission.comments := None;
     SurveySubmission.user_agent := None;
     SurveySubmission.submission_id := None |}.

(** The example with a user_agent that has white space around it. *)
Definition jo_agent : SurveySubmission.kwargs :=
  {| SurveySubmission.raw_name := Some (PStr (lit "Jo"));
     SurveySubmission.raw_email := Some (PStr (lit "jo@x.com"));
     SurveySubmission.raw_age := Some (PInt 40);
     SurveySubmission.raw_consent := Some (PBool true);
     SurveySubmission.raw_rating := Some (PInt 5);
     SurveySubmission.raw_comments := None;
     SurveySubmission.raw_user_agent := Some (PStr (lit " curl/8.0 "));
     SurveySubmission.raw_submission_id := Some (PStr (lit "id-7")) |}.

Definition jo_agent_instance : SurveySubmission.t :=
  {| SurveySubmission.name := lit "Jo";
     SurveySubmission.email := lit "jo@x.com";
     SurveySubmission.age := 40;
     SurveySubmission.consent := true;
     SurveySubmission.rating := 5;
     SurveySubmission.comments := None;
     SurveySubmission.user_agent := Some (lit " curl/8.0 ");
     SurveySubmission.submission_id := Some (lit "id-7") |}.

End Reference.

Import Reference.

(* ================================================================== *)
(** * Part II: properties *)
(* ================================================================== *)

(** ** Text *)

Lemma lstrip_split (s : str) :
  exists ws, s = ws ++ lstrip s /\ forallb isspace ws = true.
Proof.
  induction s as [|c s IH]; simpl.
  - exists []. auto.
  - destruct (isspace c) eqn:Hc.
    + destruct IH as [ws [Hs Hws]].
      exists (c :: ws). simpl. rewrite Hc, Hws. split; [congruence | reflexivity].
    + exists []. auto.
Qed.

Lemma lstrip_head (s : str) (c : codepoint) (r : str) :
  lstrip s = c :: r -> isspace c = false.
Proof.
  induction s as [|x s IH]; simpl; [discriminate|].
  destruct (isspace x) eqn:Hx; [exact IH|].
  intros H. injection H as -> _. exact Hx.
Qed.

Lemma lstrip_length (s : str) : (length (lstrip s) <= length s)%nat.
Proof.
  destruct (lstrip_split s) as [ws [Hs _]].
  rewrite Hs at 2. rewrite length_app. lia.
Qed.

Lemma lstrip_spaces (s : str) : forallb isspace s = true -> lstrip s = [].
Proof.
  induction s as [|c s IH]; simpl; [reflexivity|].
  intros H. apply andb_true_iff in H as [Hc Hs]. rewrite Hc. auto.
Qed.

Lemma rstrip_split (s : str) :
  exists ws, s = rstrip s ++ ws /\ forallb isspace ws = true.
Proof.
  unfold rstrip. destruct (lstrip_split (rev s)) as [ws [Hs Hws]].
  exists (rev ws). split.
  - apply (f_equal (@rev Z)) in Hs.
    rewrite rev_involutive, rev_app_distr in Hs. exact Hs.
  - rewrite forallb_forall in *. intros x Hx. apply Hws. now apply in_rev.
Qed.

Lemma strip_length (s : str) : (length (strip s) <= length s)%nat.
Proof.
  unfold strip. destruct (rstrip_split (lstrip s)) as [ws [Hs _]].
  pose proof (lstrip_length s) as Hl. rewrite Hs in Hl.
  rewrite length_app in Hl. lia.
Qed.

Lemma strip_spaces (s : str) : forallb isspace s = true -> strip s = [].
Proof.
  intros H. unfold strip. rewrite (lstrip_spaces s H). reflexivity.
Qed.

Lemma strip_first (s : str) (c : codepoint) (r : str) :
  strip s = c :: r -> isspace c = false.
Proof.
  unfold strip. intros H.
  destruct (rstrip_split (lstrip s)) as [ws [Hs _]].
  rewrite H in Hs. simpl in Hs. exact (lstrip_head s c _ Hs).
Qed.

Lemma strip_last (s : str) (c : codepoint) (r : str) :
  strip s = r ++ [c] -> isspace c = false.
Proof.
  unfold strip, rstrip. intros H.
  apply (f_equal (@rev Z)) in H.
  rewrite rev_involutive, rev_app_distr in H. simpl in H.
  exact (lstrip_head _ _ _ H).
Qed.

Lemma strip_trimmed (s : str) : trimmed (strip s) = true.
Proof.
  unfold trimmed. destruct (strip s) as [|c r] eqn:E; [reflexivity|].
  rewrite (strip_first s c r E).
  destruct (exists_last (l := c :: r)) as [r' [c' E']]; [discriminate|].
  rewrite E', last_last. rewrite E' in E.
  now rewrite (strip_last s c' r' E).
Qed.

Lemma digit_ascii (n : Z) : 0 <= n < 10 -> 0 <= digit n < 128.
Proof. unfold digit. lia. Qed.

Lemma digits_pos_ascii (fuel : nat) :
  forall n acc, 0 <= n ->
    Forall (fun c => 0 <= c < 128) acc ->
    Forall (fun c => 0 <= c < 128) (digits_pos fuel n acc).
Proof.
  induction fuel as [|f IH]; intros n acc Hn Hacc; simpl; [exact Hacc|].
  destruct (n <? 10) eqn:E.
  - apply Z.ltb_lt in E. constructor; [apply digit_ascii; lia | exact Hacc].
  - apply IH.
    + apply Z.div_pos; lia.
    + constructor; [|exact Hacc].
      apply digit_ascii. apply Z.mod_pos_bound. lia.
Qed.

Lemma digits_pos_nonempty (fuel : nat) (n : Z) (acc : str) :
  (0 < fuel)%nat \/ acc <> [] -> digits_pos fuel n acc <> [].
Proof.
  revert n acc. induction fuel as [|f IH]; intros n acc H; simpl.
  - destruct H; [lia | assumption].
  - destruct (n <? 10); [discriminate|]. apply IH. right. discriminate.
Qed.

Lemma str_of_int_ascii (n : Z) : Forall (fun c => 0 <= c < 128) (str_of_int n).
Proof.
  unfold str_of_int. destruct (n <? 0) eqn:E.
  - apply Z.ltb_lt in E. constructor; [lia|].
    apply digits_pos_ascii; [lia | constructor].
  - apply Z.ltb_ge in E. apply digits_pos_ascii; [lia | constructor].
Qed.

Lemma str_of_int_nonempty (n : Z) : str_of_int n <> [].
Proof.
  unfold str_of_int. destruct (n <? 0); [discriminate|].
  apply digits_pos_nonempty. left. lia.
Qed.

Example str_of_int_examples :
  str_of_int 0 = lit "0" /\ str_of_int 40 = lit "40"
  /\ str_of_int 120 = lit "120" /\ str_of_int (-5) = lit "-5"
  /\ str_of_int 1234567890 = lit "1234567890".
Proof. vm_compute. repeat split; reflexivity. Qed.

(** On every age a submission can hold, [str_of_int] gives the decimal
    numeral: reading its digits back gives the age. *)
Lemma str_of_int_age (a : Z) :
  13 <= a <= 120 -> ascii_int (str_of_int a) = Some a.
Proof.
  intros H.
  assert (forallb
            (fun k => match ascii_int (str_of_int (Z.of_nat k)) with
                      | Some m => m =? Z.of_nat k
                      | None => false
                      end) (seq 13 108) = true) as Hall
    by (vm_compute; reflexivity).
  rewrite forallb_forall in Hall.
  specialize (Hall (Z.to_nat a)).
  rewrite Z2Nat.id in Hall by lia.
  destruct (ascii_int (str_of_int a)) as [m|].
  - f_equal. apply Z.eqb_eq. apply Hall. apply in_seq. lia.
  - discriminate Hall. apply in_seq. lia.
Qed.

Lemma max_str_int_large : 1000 < max_str_int.
Proof. vm_compute. reflexivity. Qed.

Lemma py_str_int_small (n : Z) :
  Z.abs n < max_str_int -> py_str_int n = Some (str_of_int n).
Proof.
  intros H. unfold py_str_int.
  destruct (max_str_int <=? Z.abs n) eqn:E; [|reflexivity].
  apply Z.leb_le in E. lia.
Qed.

Lemma py_str_int_large (n : Z) :
  max_str_int <= Z.abs n -> py_str_int n = None.
Proof.
  intros H. unfold py_str_int.
  destruct (max_str_int <=? Z.abs n) eqn:E; [reflexivity|].
  apply Z.leb_gt in E. lia.
Qed.

Lemma py_str_int_some (n : Z) (t : str) :
  py_str_int n = Some t -> t = str_of_int n /\ Z.abs n < max_str_int.
Proof.
  unfold py_str_int.
  destruct (max_str_int <=? Z.abs n) eqn:E; [discriminate|].
  apply Z.leb_gt in E. intros H. injection H as <-. auto.
Qed.

Lemma py_str_int_age (a : Z) :
  13 <= a <= 120 -> py_str_int a = Some (str_of_int a).
Proof.
  intros H. apply py_str_int_small. pose proof max_str_int_large. lia.
Qed.

Lemma str_of_bool_nonempty (b : bool) : str_of_bool b <> [].
Proof. destruct b; discriminate. Qed.

Lemma zero_pad_length (w : nat) (n : Z) : length (zero_pad w n) = w.
Proof.
  revert n. induction w as [|w IH]; intros n; simpl; [reflexivity|].
  rewrite length_app, IH. simpl. lia.
Qed.

Lemma zero_pad_ascii (w : nat) (n : Z) :
  Forall (fun c => 0 <= c < 128) (zero_pad w n).
Proof.
  revert n. induction w as [|w IH]; intros n; simpl; [constructor|].
  apply Forall_app. split; [apply IH|].
  constructor; [|constructor].
  apply digit_ascii. apply Z.mod_pos_bound. lia.
Qed.

Lemma zero_pad_inj (w : nat) :
  forall n m, 0 <= n < 10 ^ Z.of_nat w -> 0 <= m < 10 ^ Z.of_nat w ->
    zero_pad w n = zero_pad w m -> n = m.
Proof.
  induction w as [|w IH]; intros n m Hn Hm H.
  - simpl in Hn, Hm. lia.
  - simpl in H. apply app_inj_tail in H as [Hq Hr].
    unfold digit in Hr.
    rewrite Nat2Z.inj_succ, Z.pow_succ_r in Hn, Hm by lia.
    assert (n / 10 = m / 10) as Hdiv.
    { apply IH; [| | exact Hq]; split;
        try (apply Z.div_pos; lia); apply Z.div_lt_upper_bound; lia. }
    rewrite (Z.div_mod n 10), (Z.div_mod m 10) by lia. lia.
Qed.

(** ** UTF-8 *)

Lemma encode_ascii (s : str) :
  Forall (fun c => 0 <= c < 128) s -> Utf8.encode s = Some s.
Proof.
  induction 1 as [|c s Hc _ IH]; simpl; [reflexivity|].
  rewrite IH. unfold Utf8.encode_char.
  destruct (c <? 0) eqn:E0; [apply Z.ltb_lt in E0; lia|].
  destruct (c <? 128) eqn:E1; [reflexivity | apply Z.ltb_ge in E1; lia].
Qed.

Lemma encode_app (a b : str) :
  Utf8.encode (a ++ b) =
  match Utf8.encode a, Utf8.encode b with
  | Some x, Some y => Some (x ++ y)
  | _, _ => None
  end.
Proof.
  induction a as [|c a IH]; simpl.
  - destruct (Utf8.encode b); reflexivity.
  - rewrite IH. destruct (Utf8.encode_char c); [|reflexivity].
    destruct (Utf8.encode a); [|reflexivity].
    destruct (Utf8.encode b); [|reflexivity].
    now rewrite app_assoc.
Qed.

(** ** SHA-256 *)

(** The constants computed from the roots are those the standard prints. *)
Example sha256_constants :
  length Sha256.K = 64%nat
  /\ nth 0 Sha256.K 0 = 0x428a2f98
  /\ nth 1 Sha256.K 0 = 0x71374491
  /\ nth 63 Sha256.K 0 = 0xc67178f2
  /\ Sha256.ha Sha256.H0 = 0x6a09e667
  /\ Sha256.hh Sha256.H0 = 0x5be0cd19.
Proof. vm_compute. repeat split; reflexivity. Qed.

(** The digests of the FIPS 180-4 examples: the one-block message abc, the
    empty message, and the two-block message of 56 octets. *)
Example sha256_abc :
  option_map Sha256.hexdigest (Utf8.encode (lit "abc")) =
  Some (lit "ba7816bf8f01cfea414140de5dae2223b00361a396177a9cb410ff61f20015ad").
Proof. vm_compute. reflexivity. Qed.

Example sha256_empty :
  Sha256.hexdigest [] =
  lit "e3b0c44298fc1c149afbf4c8996fb92427ae41e4649b934ca495991b7852b855".
Proof. vm_compute. reflexivity. Qed.

Example sha256_two_blocks :
  option_map Sha256.hexdigest
    (Utf8.encode
       (lit "abcdbcdecdefdefgefghfghighijhijkijkljklmklmnlmnomnopnopq")) =
  Some (lit "248d6a61d20638b8e5c026930c3e6039a33ce45964ff2167f6ecedd419db06c1").
Proof. vm_compute. reflexivity. Qed.

Lemma hex_digit_lower (d : Z) :
  0 <= d < 16 -> Sha256.is_lower_hex (Sha256.hex_digit d) = true.
Proof.
  intros H. unfold Sha256.is_lower_hex, Sha256.hex_digit.
  destruct (d <? 10) eqn:E; [apply Z.ltb_lt in E | apply Z.ltb_ge in E].
  - apply orb_true_iff. left. apply andb_true_iff. split; apply Z.leb_le; lia.
  - apply orb_true_iff. right. apply andb_true_iff. split; apply Z.leb_le; lia.
Qed.

Lemma hex_word_length (w : Z) : length (Sha256.hex_word w) = 8%nat.
Proof. reflexivity. Qed.

Lemma hex_word_lower (w : Z) :
  forallb Sha256.is_lower_hex (Sha256.hex_word w) = true.
Proof.
  unfold Sha256.hex_word. apply forallb_forall. intros c Hc.
  apply in_map_iff in Hc as [i [<- _]].
  apply hex_digit_lower. apply Z.mod_pos_bound. lia.
Qed.

Lemma hexdigest_length (m : list Z) : length (Sha256.hexdigest m) = 64%nat.
Proof.
  unfold Sha256.hexdigest, Sha256.hex_state.
  repeat rewrite length_app. repeat rewrite hex_word_length. reflexivity.
Qed.

Lemma hexdigest_lower (m : list Z) :
  forallb Sha256.is_lower_hex (Sha256.hexdigest m) = true.
Proof.
  unfold Sha256.hexdigest, Sha256.hex_state.
  repeat rewrite forallb_app. repeat rewrite hex_word_lower. reflexivity.
Qed.

Lemma hexdigest_nonempty (m : list Z) : Sha256.hexdigest m <> [].
Proof.
  intros H. pose proof (hexdigest_length m) as L. rewrite H in L. discriminate.
Qed.

(** ** The clock *)

Lemma strftime_length (d : datetime) : length (strftime_YmdH d) = 10%nat.
Proof.
  unfold strftime_YmdH. repeat rewrite length_app.
  repeat rewrite zero_pad_length. reflexivity.
Qed.

Lemma strftime_ascii (d : datetime) :
  Forall (fun c => 0 <= c < 128) (strftime_YmdH d).
Proof.
  unfold strftime_YmdH.
  do 3 (apply Forall_app; split; [apply zero_pad_ascii|]).
  apply zero_pad_ascii.
Qed.

Lemma app_inj_length {A : Type} (a b c d : list A) :
  length a = length c -> a ++ b = c ++ d -> a = c /\ b = d.
Proof.
  revert c. induction a as [|x a IH]; intros [|y c] L H; simpl in *;
    try discriminate; [auto|].
  injection H as -> H. injection L as L.
  destruct (IH c L H) as [-> ->]. auto.
Qed.

Lemma app_inj_suffix {A : Type} (a b c d : list A) :
  length b = length d -> a ++ b = c ++ d -> a = c /\ b = d.
Proof.
  intros L H. apply app_inj_length; [|exact H].
  apply (f_equal (@length A)) in H. rewrite !length_app in H. lia.
Qed.

Lemma strftime_same_hour (d1 d2 : datetime) :
  same_hour d1 d2 -> strftime_YmdH d1 = strftime_YmdH d2.
Proof.
  intros (Hy & Hm & Hd & Hh). unfold strftime_YmdH. congruence.
Qed.

Lemma strftime_inj (d1 d2 : datetime) :
  in_range d1 -> in_range d2 ->
  strftime_YmdH d1 = strftime_YmdH d2 -> same_hour d1 d2.
Proof.
  intros (Hy1 & Hm1 & Hd1 & Hh1) (Hy2 & Hm2 & Hd2 & Hh2) H.
  unfold strftime_YmdH in H.
  apply app_inj_length in H as [Ey H]; [|now rewrite !zero_pad_length].
  apply app_inj_length in H as [Em H]; [|now rewrite !zero_pad_length].
  apply app_inj_length in H as [Ed Eh]; [|now rewrite !zero_pad_length].
  unfold same_hour. repeat split.
  - apply (zero_pad_inj 4); simpl; try lia; exact Ey.
  - apply (zero_pad_inj 2); simpl; try lia; exact Em.
  - apply (zero_pad_inj 2); simpl; try lia; exact Ed.
  - apply (zero_pad_inj 2); simpl; try lia; exact Eh.
Qed.

(** ** Validators *)

Lemma constr_length_ok (mn : option Z) (mx : Z) (v s : str) :
  constr_length_validator mn mx v = inr s ->
  s = v /\ Z.of_nat (length v) <= mx
  /\ match mn with Some m => m | None => 0 end <= Z.of_nat (length v).
Proof.
  unfold constr_length_validator.
  destruct (Z.of_nat (length v) <? _) eqn:E1; [discriminate|].
  destruct (mx <? Z.of_nat (length v)) eqn:E2; [discriminate|].
  apply Z.ltb_ge in E1, E2. intros H. injection H as <-. auto.
Qed.

Lemma constr_length_too_long (mn : option Z) (mx : Z) (v : str) :
  mx < Z.of_nat (length v) ->
  exists e, constr_length_validator mn mx v = inl e.
Proof.
  intros H. unfold constr_length_validator.
  destruct (Z.of_nat (length v) <? _); [eexists; reflexivity|].
  destruct (mx <? Z.of_nat (length v)) eqn:E; [eexists; reflexivity|].
  apply Z.ltb_ge in E. lia.
Qed.

Lemma constr_length_fits (mx : Z) (v : str) :
  Z.of_nat (length v) <= mx -> constr_length_validator None mx v = inr v.
Proof.
  intros H. unfold constr_length_validator.
  destruct (Z.of_nat (length v) <? 0) eqn:E1; [apply Z.ltb_lt in E1; lia|].
  destruct (mx <? Z.of_nat (length v)) eqn:E2; [apply Z.ltb_lt in E2; lia|].
  reflexivity.
Qed.

Lemma number_size_ok (lo hi v n : Z) :
  number_size_validator lo hi v = inr n -> n = v /\ lo <= v <= hi.
Proof.
  unfold number_size_validator.
  destruct (v <? lo) eqn:E1; [discriminate|].
  destruct (hi <? v) eqn:E2; [discriminate|].
  apply Z.ltb_ge in E1, E2. intros H. injection H as <-. lia.
Qed.

Lemma number_size_out (lo hi v : Z) :
  (v <? lo) || (hi <? v) = true ->
  exists e, number_size_validator lo hi v = inl e.
Proof.
  unfold number_size_validator. intros H.
  destruct (v <? lo); [eexists; reflexivity|].
  destruct (hi <? v); [eexists; reflexivity | discriminate].
Qed.

Lemma str_validator_empty (v : pyval) :
  str_validator v = inr [] -> v = PStr [].
Proof.
  destruct v as [| b | z | s |]; cbn [str_validator]; try discriminate.
  - intros H. injection H as H. now apply str_of_bool_nonempty in H.
  - destruct (py_str_int z) as [t|] eqn:E; [|discriminate].
    apply py_str_int_some in E as [-> _].
    intros H. injection H as H. now apply str_of_int_nonempty in H.
  - intros H. injection H as H. now subst.
Qed.

Lemma pyval_is_none (v : pyval) : v = PNone \/ v <> PNone.
Proof. destruct v; [left; reflexivity | right; discriminate ..]. Qed.

Lemma validate_required_value {A : Type} (f : pyval -> vres A)
  (value : option pyval) (a : A) :
  validate_required f value = inr a ->
  exists v, value = Some v /\ v <> PNone /\ f v = inr a.
Proof.
  destruct value as [v|]; [|discriminate].
  destruct v; simpl; try discriminate; intros H; eexists;
    (split; [reflexivity | split; [discriminate | exact H]]).
Qed.

Lemma validate_required_some {A : Type} (f : pyval -> vres A) (v : pyval) :
  v <> PNone -> validate_required f (Some v) = f v.
Proof. destruct v; simpl; congruence. Qed.

Lemma validate_optional_some {A : Type} (f : pyval -> vres A)
  (g : option A -> vres (option A)) (always : bool) (v : pyval) :
  v <> PNone ->
  validate_optional f g always (Some v) = bind (f v) (fun a => g (Some a)).
Proof. destruct v; simpl; congruence. Qed.

Lemma bind_ok {A B : Type} (r : vres A) (f : A -> vres B) (b : B) :
  bind r f = inr b -> exists a, r = inr a /\ f a = inr b.
Proof. destruct r as [e|a]; simpl; [discriminate | eauto]. Qed.

Lemma bind_err {A B : Type} (r : vres A) (f : A -> vres B) :
  (exists e, r = inl e) -> exists e, bind r f = inl e.
Proof. intros [e ->]. simpl. eauto. Qed.

Lemma count_loc_app (f : string) (a b : list ErrorWrapper) :
  count_loc f (a ++ b) = (count_loc f a + count_loc f b)%nat.
Proof. unfold count_loc. now rewrite filter_app, length_app. Qed.

Lemma count_loc_errors_of {A : Type} (f g : string) (r : vres A) :
  count_loc f (errors_of g r) =
  match r with
  | inl _ => if String.eqb g f then 1%nat else 0%nat
  | inr _ => 0%nat
  end.
Proof.
  destruct r; unfold count_loc; simpl; [|reflexivity].
  destruct (String.eqb g f); reflexivity.
Qed.

(** ** Field validators of [SurveySubmission] *)

Lemma constr_length_within (mn : option Z) (mx : Z) (v : str) :
  match mn with Some m => m | None => 0 end <= Z.of_nat (length v) ->
  Z.of_nat (length v) <= mx ->
  constr_length_validator mn mx v = inr v.
Proof.
  intros H1 H2. unfold constr_length_validator.
  destruct (Z.of_nat (length v) <? _) eqn:E1; [apply Z.ltb_lt in E1; lia|].
  destruct (mx <? Z.of_nat (length v)) eqn:E2; [apply Z.ltb_lt in E2; lia|].
  reflexivity.
Qed.

Lemma number_size_within (lo hi v : Z) :
  lo <= v <= hi -> number_size_validator lo hi v = inr v.
Proof.
  intros H. unfold number_size_validator.
  destruct (v <? lo) eqn:E1; [apply Z.ltb_lt in E1; lia|].
  destruct (hi <? v) eqn:E2; [apply Z.ltb_lt in E2; lia|].
  reflexivity.
Qed.

Lemma must_consent_ok (v c : bool) :
  SurveySubmission._must_consent v = inr c -> v = true /\ c = true.
Proof.
  destruct v; simpl; [|discriminate]. intros H. injection H as <-. auto.
Qed.

Lemma validate_name_inv (value : option pyval) (n : str) :
  SurveySubmission.validate_name value = inr n ->
  exists v, value = Some v /\ v <> PNone /\ str_validator v = inr n
            /\ (1 <= length n <= 100)%nat.
Proof.
  intros H. apply validate_required_value in H as (v & -> & Hv & H).
  apply bind_ok in H as (s & Hs & H).
  apply constr_length_ok in H as (-> & Hmax & Hmin).
  exists v. repeat split; auto; lia.
Qed.

Lemma validate_consent_inv (value : option pyval) (c : bool) :
  SurveySubmission.validate_consent value = inr c ->
  c = true /\ exists v, value = Some v /\ bool_validator v = inr true.
Proof.
  intros H. apply validate_required_value in H as (v & -> & Hv & H).
  apply bind_ok in H as (b & Hb & H).
  apply must_consent_ok in H as [-> ->]. eauto.
Qed.

(** [comments]: absent or [None] stays [None]; text is checked against the
    limit as given, and then stripped. *)
Lemma validate_comments_inv (value : option pyval) (cm : option str) :
  SurveySubmission.validate_comments value = inr cm ->
  (cm = None /\ (value = None \/ value = Some PNone))
  \/ (exists v s, value = Some v /\ v <> PNone /\ str_validator v = inr s
                  /\ (length s <= 1000)%nat /\ cm = Some (strip s)).
Proof.
  unfold SurveySubmission.validate_comments.
  destruct value as [v|]; [|simpl; intros H; injection H as <-; auto].
  destruct (pyval_is_none v) as [-> | Hv].
  - simpl. intros H. injection H as <-. auto.
  - rewrite validate_optional_some by exact Hv. intros H.
    apply bind_ok in H as (s' & H & Hstrip).
    apply bind_ok in H as (s & Hs & H).
    apply constr_length_ok in H as (-> & Hmax & _).
    simpl in Hstrip. injection Hstrip as <-.
    right. exists v, s. repeat split; auto; lia.
Qed.

Lemma validate_user_agent_inv (value : option pyval) (ua : option str) :
  SurveySubmission.validate_user_agent value = inr ua ->
  (ua = None /\ (value = None \/ value = Some PNone))
  \/ (exists v s, value = Some v /\ v <> PNone /\ str_validator v = inr s
                  /\ (length s <= 1000)%nat /\ ua = Some s).
Proof.
  unfold SurveySubmission.validate_user_agent.
  destruct value as [v|]; [|simpl; intros H; injection H as <-; auto].
  destruct (pyval_is_none v) as [-> | Hv].
  - simpl. intros H. injection H as <-. auto.
  - rewrite validate_optional_some by exact Hv. intros H.
    apply bind_ok in H as (s' & H & Hret).
    apply bind_ok in H as (s & Hs & H).
    apply constr_length_ok in H as (-> & Hmax & _).
    injection Hret as <-.
    right. exists v, s. repeat split; auto; lia.
Qed.

(** [submission_id]: text given by the caller is kept; otherwise the
    identifier is the digest of the validated email and the clock hour. *)
Lemma validate_submission_id_inv (values : SurveySubmission.values)
  (now : datetime) (value : option pyval) (sid : option str) (e : str) :
  SurveySubmission.v_email values = Some e ->
  SurveySubmission.validate_submission_id values now value = inr sid ->
  (exists v s, value = Some v /\ v <> PNone /\ str_validator v = inr s
               /\ sid = Some s)
  \/ ((value = None \/ value = Some PNone)
      /\ exists b, Utf8.encode (e ++ strftime_YmdH now) = Some b
                   /\ sid = Some (Sha256.hexdigest b)).
Proof.
  intros He. unfold SurveySubmission.validate_submission_id.
  assert (SurveySubmission._compute_submission_id None values now = inr sid ->
          exists b, Utf8.encode (e ++ strftime_YmdH now) = Some b
                    /\ sid = Some (Sha256.hexdigest b)) as Hnone.
  { unfold SurveySubmission._compute_submission_id. rewrite He.
    destruct (Utf8.encode _) as [b|]; [|discriminate].
    intros H. injection H as <-. eauto. }
  destruct value as [v|]; [|simpl; intros H; right; auto].
  destruct (pyval_is_none v) as [-> | Hv].
  - simpl. intros H. right. auto.
  - rewrite validate_optional_some by exact Hv. intros H.
    apply bind_ok in H as (s & Hs & H). simpl in H. injection H as <-.
    left. exists v, s. auto.
Qed.

(** ** Construction of a [SurveySubmission] *)

Section Properties.

Variable EmailStr_validate : str -> option str.
Variable int_of_str : str -> option Z.

Local Abbreviation new := (SurveySubmission.new EmailStr_validate int_of_str).
Local Abbreviation error_list :=
  (SurveySubmission.error_list EmailStr_validate int_of_str).
Local Abbreviation validated_values :=
  (SurveySubmission.validated_values EmailStr_validate int_of_str).
Local Abbreviation validate_email :=
  (SurveySubmission.validate_email EmailStr_validate).
Local Abbreviation validate_age := (SurveySubmission.validate_age int_of_str).
Local Abbreviation validate_rating :=
  (SurveySubmission.validate_rating int_of_str).
Local Abbreviation violates :=
  (SurveySubmission.violates EmailStr_validate int_of_str).
Local Abbreviation from_submission :=
  (StoredSurveyRecord.from_submission int_of_str).

(** A successful call returns what the field validators returned. *)
Lemma new_ok_inv (data : SurveySubmission.kwargs) (now : datetime)
  (s : SurveySubmission.t) :
  new data now = Ok s ->
  SurveySubmission.validate_name (SurveySubmission.raw_name data)
    = inr (SurveySubmission.name s)
  /\ validate_email (SurveySubmission.raw_email data)
    = inr (SurveySubmission.email s)
  /\ validate_age (SurveySubmission.raw_age data)
    = inr (SurveySubmission.age s)
  /\ SurveySubmission.validate_consent (SurveySubmission.raw_consent data)
    = inr (SurveySubmission.consent s)
  /\ validate_rating (SurveySubmission.raw_rating data)
    = inr (SurveySubmission.rating s)
  /\ SurveySubmission.validate_comments (SurveySubmission.raw_comments data)
    = inr (SurveySubmission.comments s)
  /\ SurveySubmission.validate_user_agent
       (SurveySubmission.raw_user_agent data)
    = inr (SurveySubmission.user_agent s)
  /\ SurveySubmission.validate_submission_id (validated_values data) now
       (SurveySubmission.raw_submission_id data)
    = inr (SurveySubmission.submission_id s)
  /\ SurveySubmission.v_email (validated_values data)
    = Some (SurveySubmission.email s).
Proof.
  unfold SurveySubmission.new.
  destruct (SurveySubmission.validate_name _) eqn:E1; [discriminate|].
  destruct (validate_email _) eqn:E2; [discriminate|].
  destruct (validate_age _) eqn:E3; [discriminate|].
  destruct (SurveySubmission.validate_consent _) eqn:E4; [discriminate|].
  destruct (validate_rating _) eqn:E5; [discriminate|].
  destruct (SurveySubmission.validate_comments _) eqn:E6; [discriminate|].
  destruct (SurveySubmission.validate_user_agent _) eqn:E7; [discriminate|].
  destruct (SurveySubmission.validate_submission_id _ _ _) eqn:E8;
    [discriminate|].
  intros H. injection H as <-. simpl.
  repeat (split; [reflexivity|]).
  unfold SurveySubmission.validated_values. simpl. now rewrite E2.
Qed.

(** When every field validates, the call succeeds. *)
Lemma new_ok_intro (data : SurveySubmission.kwargs) (now : datetime)
  (n e : str) (a r : Z) (c : bool) (cm ua sid : option str) :
  SurveySubmission.validate_name (SurveySubmission.raw_name data) = inr n ->
  validate_email (SurveySubmission.raw_email data) = inr e ->
  validate_age (SurveySubmission.raw_age data) = inr a ->
  SurveySubmission.validate_consent (SurveySubmission.raw_consent data)
    = inr c ->
  validate_rating (SurveySubmission.raw_rating data) = inr r ->
  SurveySubmission.validate_comments (SurveySubmission.raw_comments data)
    = inr cm ->
  SurveySubmission.validate_user_agent (SurveySubmission.raw_user_agent data)
    = inr ua ->
  SurveySubmission.validate_submission_id (validated_values data) now
    (SurveySubmission.raw_submission_id data) = inr sid ->
  new data now =
  Ok {| SurveySubmission.name := n; SurveySubmission.email := e;
        SurveySubmission.age := a; SurveySubmission.consent := c;
        SurveySubmission.rating := r; SurveySubmission.comments := cm;
        SurveySubmission.user_agent := ua;
        SurveySubmission.submission_id := sid |}.
Proof.
  intros E1 E2 E3 E4 E5 E6 E7 E8. unfold SurveySubmission.new.
  now rewrite E1, E2, E3, E4, E5, E6, E7, E8.
Qed.

(** Any field error makes the call raise, with the errors of all fields. *)
Lemma new_error (data : SurveySubmission.kwargs) (now : datetime) :
  error_list data now <> [] ->
  new data now = ValidationError (error_list data now).
Proof.
  unfold SurveySubmission.new, SurveySubmission.error_list.
  destruct (SurveySubmission.validate_name _); [reflexivity|].
  destruct (validate_email _); [reflexivity|].
  destruct (validate_age _); [reflexivity|].
  destruct (SurveySubmission.validate_consent _); [reflexivity|].
  destruct (validate_rating _); [reflexivity|].
  destruct (SurveySubmission.validate_comments _); [reflexivity|].
  destruct (SurveySubmission.validate_user_agent _); [reflexivity|].
  destruct (SurveySubmission.validate_submission_id _ _ _); [reflexivity|].
  simpl. congruence.
Qed.

Lemma new_error_inv (data : SurveySubmission.kwargs) (now : datetime)
  (errors : list ErrorWrapper) :
  new data now = ValidationError errors ->
  errors = error_list data now /\ errors <> [].
Proof.
  unfold SurveySubmission.new.
  destruct (SurveySubmission.validate_name _) eqn:E1;
  [|destruct (validate_email _) eqn:E2;
  [|destruct (validate_age _) eqn:E3;
  [|destruct (SurveySubmission.validate_consent _) eqn:E4;
  [|destruct (validate_rating _) eqn:E5;
  [|destruct (SurveySubmission.validate_comments _) eqn:E6;
  [|destruct (SurveySubmission.validate_user_agent _) eqn:E7;
  [|destruct (SurveySubmission.validate_submission_id _ _ _) eqn:E8;
  [|discriminate]]]]]]]];
  intros H; injection H as <-; (split; [reflexivity|]);
  unfold SurveySubmission.error_list;
  rewrite ?E1, ?E2, ?E3, ?E4, ?E5, ?E6, ?E7, ?E8; simpl;
  repeat match goal with
         | |- context [errors_of ?f ?r] => destruct (errors_of f r); simpl
         end; discriminate.
Qed.

(** A field that fails contributes exactly one entry under its name. *)
Lemma error_list_count (data : SurveySubmission.kwargs) (now : datetime)
  (f : string) :
  count_loc f (error_list data now) =
  (count_loc f (errors_of "name"
      (SurveySubmission.validate_name (SurveySubmission.raw_name data)))
   + (count_loc f (errors_of "email"
      (validate_email (SurveySubmission.raw_email data)))
   + (count_loc f (errors_of "age"
      (validate_age (SurveySubmission.raw_age data)))
   + (count_loc f (errors_of "consent"
      (SurveySubmission.validate_consent (SurveySubmission.raw_consent data)))
   + (count_loc f (errors_of "rating"
      (validate_rating (SurveySubmission.raw_rating data)))
   + (count_loc f (errors_of "comments"
      (SurveySubmission.validate_comments
         (SurveySubmission.raw_comments data)))
   + (count_loc f (errors_of "user_agent"
      (SurveySubmission.validate_user_agent
         (SurveySubmission.raw_user_agent data)))
   + count_loc f (errors_of "submission_id"
      (SurveySubmission.validate_submission_id (validated_values data) now
         (SurveySubmission.raw_submission_id data))))))))))%nat.
Proof.
  unfold SurveySubmission.error_list. now rewrite !count_loc_app.
Qed.

(** What a constructed instance satisfies. *)
Lemma new_constraints (data : SurveySubmission.kwargs) (now : datetime)
  (s : SurveySubmission.t) :
  new data now = Ok s ->
  SurveySubmission.constraints_hold s
  /\ (exists sid, SurveySubmission.submission_id s = Some sid)
  /\ (exists v, EmailStr_validate v = Some (SurveySubmission.email s)).
Proof.
  intros H.
  apply new_ok_inv in H as (Hn & He & Ha & Hc & Hr & Hcm & Hua & Hsid & Hv).
  apply validate_name_inv in Hn as (_ & _ & _ & _ & Hn).
  apply validate_required_value in Ha as (va & _ & _ & Ha).
  apply bind_ok in Ha as (a & _ & Ha). apply number_size_ok in Ha as [Ea Ha].
  rewrite <- Ea in Ha.
  apply validate_consent_inv in Hc as [Hc _].
  apply validate_required_value in Hr as (vr & _ & _ & Hr).
  apply bind_ok in Hr as (r & _ & Hr). apply number_size_ok in Hr as [Er Hr].
  rewrite <- Er in Hr.
  apply validate_required_value in He as (ve & _ & _ & He).
  apply bind_ok in He as (e & _ & He).
  split; [|split].
  - unfold SurveySubmission.constraints_hold. repeat split; try tauto.
    + intros c Ec. rewrite Ec in Hcm.
      apply validate_comments_inv in Hcm
        as [[Hcm _] | (v & t & _ & _ & _ & Hlen & Hcm)]; [discriminate|].
      injection Hcm as ->. pose proof (strip_length t). lia.
    + intros u Eu. rewrite Eu in Hua.
      apply validate_user_agent_inv in Hua
        as [[Hua _] | (v & t & _ & _ & _ & Hlen & Hua)]; [discriminate|].
      injection Hua as ->. exact Hlen.
  - apply (validate_submission_id_inv _ _ _ _ _ Hv) in Hsid
      as [(v & t & _ & _ & _ & ->) | (_ & b & _ & ->)]; eauto.
  - destruct (EmailStr_validate e) as [e'|] eqn:E; [|discriminate].
    injection He as <-. eauto.
Qed.

(** ** Derivation of the stored record *)

(** On an instance that satisfies the constraints and has an identifier and
    an encodable email, [from_submission] returns this record. *)
Lemma from_submission_ok (s : SurveySubmission.t) (received_at : datetime)
  (ip sid : str) (email_bytes : list Z) :
  SurveySubmission.constraints_hold s ->
  SurveySubmission.submission_id s = Some sid ->
  Utf8.encode (SurveySubmission.email s) = Some email_bytes ->
  from_submission s received_at ip =
  Ok {| StoredSurveyRecord.name := SurveySubmission.name s;
        StoredSurveyRecord.hashed_email := Sha256.hexdigest email_bytes;
        StoredSurveyRecord.hashed_age :=
          Sha256.hexdigest (str_of_int (SurveySubmission.age s));
        StoredSurveyRecord.consent := SurveySubmission.consent s;
        StoredSurveyRecord.rating := SurveySubmission.rating s;
        StoredSurveyRecord.comments := SurveySubmission.comments s;
        StoredSurveyRecord.user_agent := SurveySubmission.user_agent s;
        StoredSurveyRecord.received_at := received_at;
        StoredSurveyRecord.ip := ip;
        StoredSurveyRecord.submission_id := sid |}.
Proof.
  intros (Hn & Ha & Hc & Hr & Hcm & Hua) Hsid He.
  unfold StoredSurveyRecord.from_submission, hash_pii.
  unfold py_str, PyStr_str, PyStr_int. rewrite He. cbn [option_map].
  rewrite (py_str_int_age _ Ha).
  rewrite (encode_ascii _ (str_of_int_ascii _)). cbn [option_map].
  unfold StoredSurveyRecord.new. cbn [StoredSurveyRecord.raw_name
    StoredSurveyRecord.raw_hashed_email StoredSurveyRecord.raw_hashed_age
    StoredSurveyRecord.raw_consent StoredSurveyRecord.raw_rating
    StoredSurveyRecord.raw_comments StoredSurveyRecord.raw_user_agent
    StoredSurveyRecord.raw_received_at StoredSurveyRecord.raw_ip
    StoredSurveyRecord.raw_submission_id].
  assert (StoredSurveyRecord.validate_name
            (Some (PStr (SurveySubmission.name s)))
          = inr (SurveySubmission.name s)) as ->.
  { unfold StoredSurveyRecord.validate_name. simpl.
    apply constr_length_within; simpl; lia. }
  assert (StoredSurveyRecord.validate_rating int_of_str
            (Some (PInt (SurveySubmission.rating s)))
          = inr (SurveySubmission.rating s)) as ->.
  { unfold StoredSurveyRecord.validate_rating. simpl.
    now apply number_size_within. }
  assert (forall o : option str,
            (forall t, o = Some t -> (length t <= 1000)%nat) ->
            StoredSurveyRecord.validate_optional_text
              (Some (StoredSurveyRecord.of_optional o)) = inr o) as Hopt.
  { intros [t|] Ht; [|reflexivity].
    unfold StoredSurveyRecord.validate_optional_text. simpl.
    rewrite constr_length_fits; [reflexivity|].
    specialize (Ht t eq_refl). lia. }
  rewrite (Hopt _ Hcm), (Hopt _ Hua), Hsid. reflexivity.
Qed.

(** ** Errors of a failed construction *)

Lemma count_loc_other {A : Type} (f g : string) (r : vres A) :
  String.eqb g f = false -> count_loc f (errors_of g r) = 0%nat.
Proof. intros H. rewrite count_loc_errors_of, H. now destruct r. Qed.

Lemma count_loc_same {A : Type} (f : string) (r : vres A) (e : error_kind) :
  r = inl e -> count_loc f (errors_of f r) = 1%nat.
Proof. intros ->. rewrite count_loc_errors_of. now rewrite String.eqb_refl. Qed.

(** Rewrites the count of the entries of one field in [error_list], given
    that [H] says the validator of that field raised. *)
Ltac count_field H :=
  rewrite error_list_count;
  rewrite (count_loc_same _ _ _ H);
  rewrite !count_loc_other by reflexivity;
  reflexivity.

Lemma name_error_counted (data : SurveySubmission.kwargs) (now : datetime)
  (e : error_kind) :
  SurveySubmission.validate_name (SurveySubmission.raw_name data) = inl e ->
  count_loc "name" (error_list data now) = 1%nat.
Proof. intros H. count_field H. Qed.

Lemma email_error_counted (data : SurveySubmission.kwargs) (now : datetime)
  (e : error_kind) :
  validate_email (SurveySubmission.raw_email data) = inl e ->
  count_loc "email" (error_list data now) = 1%nat.
Proof. intros H. count_field H. Qed.

Lemma age_error_counted (data : SurveySubmission.kwargs) (now : datetime)
  (e : error_kind) :
  validate_age (SurveySubmission.raw_age data) = inl e ->
  count_loc "age" (error_list data now) = 1%nat.
Proof. intros H. count_field H. Qed.

Lemma consent_error_counted (data : SurveySubmission.kwargs) (now : datetime)
  (e : error_kind) :
  SurveySubmission.validate_consent (SurveySubmission.raw_consent data)
    = inl e ->
  count_loc "consent" (error_list data now) = 1%nat.
Proof. intros H. count_field H. Qed.

Lemma rating_error_counted (data : SurveySubmission.kwargs) (now : datetime)
  (e : error_kind) :
  validate_rating (SurveySubmission.raw_rating data) = inl e ->
  count_loc "rating" (error_list data now) = 1%nat.
Proof. intros H. count_field H. Qed.

Lemma comments_error_counted (data : SurveySubmission.kwargs) (now : datetime)
  (e : error_kind) :
  SurveySubmission.validate_comments (SurveySubmission.raw_comments data)
    = inl e ->
  count_loc "comments" (error_list data now) = 1%nat.
Proof. intros H. count_field H. Qed.

Lemma user_agent_error_counted (data : SurveySubmission.kwargs)
  (now : datetime) (e : error_kind) :
  SurveySubmission.validate_user_agent (SurveySubmission.raw_user_agent data)
    = inl e ->
  count_loc "user_agent" (error_list data now) = 1%nat.
Proof. intros H. count_field H. Qed.

Lemma counted_nonempty (f : string) (errors : list ErrorWrapper) :
  count_loc f errors = 1%nat -> errors <> [].
Proof. intros H ->. discriminate. Qed.

(** A counted entry means the call raised with the whole error list. *)
Lemma new_reports (data : SurveySubmission.kwargs) (now : datetime)
  (f : string) :
  count_loc f (error_list data now) = 1%nat ->
  new data now = ValidationError (error_list data now).
Proof. intros H. apply new_error. exact (counted_nonempty f _ H). Qed.

(** Text over the limit makes an [Optional] text field raise. *)
Lemma optional_text_too_long (post : option str -> vres (option str))
  (value : option pyval) :
  SurveySubmission.too_long 1000 value = true ->
  exists e,
    validate_optional
      (fun v => s <- str_validator v ;; constr_length_validator None 1000 s)
      post false value = inl e.
Proof.
  unfold SurveySubmission.too_long.
  destruct value as [v|]; [|discriminate].
  destruct (str_validator v) as [e|t] eqn:Et; [discriminate|].
  intros H. apply Z.ltb_lt in H.
  assert (v <> PNone) as Hv by (intros ->; discriminate).
  rewrite validate_optional_some by exact Hv. rewrite Et. simpl.
  apply bind_err. now apply constr_length_too_long.
Qed.

(** A number outside the range makes a numeric field raise. *)
Lemma number_out_of_range (lo hi : Z) (value : option pyval) :
  SurveySubmission.out_of_range int_of_str lo hi value = true ->
  exists e,
    validate_required
      (fun v => n <- int_validator int_of_str v ;;
                number_size_validator lo hi n) value = inl e.
Proof.
  unfold SurveySubmission.out_of_range.
  destruct value as [v|]; [|discriminate].
  destruct (int_validator int_of_str v) as [e|n] eqn:En; [discriminate|].
  intros H.
  assert (v <> PNone) as Hv by (intros ->; discriminate).
  rewrite validate_required_some by exact Hv. rewrite En. simpl.
  now apply number_size_out.
Qed.

Lemma name_violated_raises (data : SurveySubmission.kwargs) :
  SurveySubmission.name_violated data = true ->
  exists e,
    SurveySubmission.validate_name (SurveySubmission.raw_name data) = inl e.
Proof.
  unfold SurveySubmission.name_violated, SurveySubmission.validate_name.
  destruct (SurveySubmission.raw_name data) as [v|]; [|discriminate].
  destruct (str_validator v) as [e|t] eqn:Et; [discriminate|].
  intros H.
  assert (v <> PNone) as Hv by (intros ->; discriminate).
  rewrite validate_required_some by exact Hv. rewrite Et. simpl.
  unfold constr_length_validator.
  apply orb_true_iff in H as [H|H].
  - apply Nat.eqb_eq in H. rewrite H. simpl. eauto.
  - destruct (Z.of_nat (length t) <? 1); [eauto|]. rewrite H. eauto.
Qed.

Lemma email_violated_raises (data : SurveySubmission.kwargs) :
  SurveySubmission.email_violated EmailStr_validate data = true ->
  exists e, validate_email (SurveySubmission.raw_email data) = inl e.
Proof.
  unfold SurveySubmission.email_violated, SurveySubmission.validate_email.
  destruct (SurveySubmission.raw_email data) as [v|]; [|discriminate].
  destruct (str_validator v) as [e|t] eqn:Et; [discriminate|].
  destruct (EmailStr_validate t) eqn:Ev; [discriminate|]. intros _.
  assert (v <> PNone) as Hv by (intros ->; discriminate).
  rewrite validate_required_some by exact Hv. rewrite Et. simpl.
  rewrite Ev. eauto.
Qed.

(** Every violated constraint has exactly one entry in the error list. *)
Lemma violation_counted (data : SurveySubmission.kwargs) (now : datetime)
  (f : string) :
  violates data f = true -> count_loc f (error_list data now) = 1%nat.
Proof.
  unfold SurveySubmission.violates.
  destruct (String.eqb f "name") eqn:E1;
    [apply String.eqb_eq in E1 as ->; intros H;
     destruct (name_violated_raises _ H) as [e He];
     exact (name_error_counted _ _ _ He)|].
  destruct (String.eqb f "email") eqn:E2;
    [apply String.eqb_eq in E2 as ->; intros H;
     destruct (email_violated_raises _ H) as [e He];
     exact (email_error_counted _ _ _ He)|].
  destruct (String.eqb f "age") eqn:E3;
    [apply String.eqb_eq in E3 as ->; intros H;
     destruct (number_out_of_range _ _ _ H) as [e He];
     exact (age_error_counted _ _ _ He)|].
  destruct (String.eqb f "rating") eqn:E4;
    [apply String.eqb_eq in E4 as ->; intros H;
     destruct (number_out_of_range _ _ _ H) as [e He];
     exact (rating_error_counted _ _ _ He)|].
  destruct (String.eqb f "comments") eqn:E5;
    [apply String.eqb_eq in E5 as ->; intros H;
     destruct (optional_text_too_long SurveySubmission._strip_comments _ H)
       as [e He];
     exact (comments_error_counted _ _ _ He)|].
  destruct (String.eqb f "user_agent") eqn:E6;
    [apply String.eqb_eq in E6 as ->; intros H;
     destruct (optional_text_too_long ret _ H) as [e He];
     exact (user_agent_error_counted _ _ _ He)|].
  discriminate.
Qed.

(** ** The claims about construction *)

(** C2 (amended).  A constructed submission has [consent] equal to [True]
    and a [submission_id] that is not [None]; the identifier is the empty
    string exactly when the caller passed the empty string as
    [submission_id], and has 64 characters when none was passed. *)
Theorem constructed_consent_and_identifier
  (data : SurveySubmission.kwargs) (now : datetime) (s : SurveySubmission.t) :
  new data now = Ok s ->
  SurveySubmission.consent s = true
  /\ exists sid,
       SurveySubmission.submission_id s = Some sid
       /\ (sid = [] <->
           SurveySubmission.raw_submission_id data = Some (PStr []))
       /\ (SurveySubmission.id_absent data -> length sid = 64%nat).
Proof.
  intros H.
  apply new_ok_inv in H as (_ & _ & _ & Hc & _ & _ & _ & Hsid & Hv).
  apply validate_consent_inv in Hc as [Hc _]. split; [exact Hc|].
  apply (validate_submission_id_inv _ _ _ _ _ Hv) in Hsid
    as [(v & t & Hraw & Hnone & Ht & ->) | (Habs & b & _ & ->)].
  - exists t. split; [reflexivity|]. split; [split|].
    + intros ->. rewrite Hraw. now rewrite (str_validator_empty v Ht).
    + intros Hraw'. rewrite Hraw in Hraw'. injection Hraw' as ->.
      simpl in Ht. now injection Ht as <-.
    + intros [Ha | Ha]; rewrite Hraw in Ha; [discriminate|].
      injection Ha as ->. now contradiction Hnone.
  - exists (Sha256.hexdigest b). split; [reflexivity|]. split; [split|].
    + intros E. now apply hexdigest_nonempty in E.
    + intros Hraw. destruct Habs as [Ha | Ha]; rewrite Ha in Hraw;
        discriminate.
    + intros _. apply hexdigest_length.
Qed.

(** C3 (amended).  When the value of [consent] is missing, [None], [False],
    or anything else that [bool_validator] does not read as [True],
    construction fails and the error list has exactly one entry for the field
    consent. *)
Theorem consent_not_true_rejected
  (data : SurveySubmission.kwargs) (now : datetime) :
  SurveySubmission.reads_as_true (SurveySubmission.raw_consent data) = false ->
  exists errors,
    new data now = ValidationError errors
    /\ count_loc "consent" errors = 1%nat.
Proof.
  intros H.
  assert (exists e,
            SurveySubmission.validate_consent
              (SurveySubmission.raw_consent data) = inl e) as [e He].
  { unfold SurveySubmission.validate_consent.
    destruct (SurveySubmission.raw_consent data) as [v|];
      [|simpl; eauto].
    destruct v as [| b | z | t |];
      cbn [SurveySubmission.reads_as_true] in H;
      cbn [validate_required bool_validator]; try rewrite H.
    - eexists. reflexivity.
    - eexists. reflexivity.
    - destruct (z =? 0); eexists; reflexivity.
    - destruct (existsb _ BOOL_FALSE); eexists; reflexivity.
    - eexists. reflexivity. }
  exists (error_list data now).
  pose proof (consent_error_counted data now e He) as Hcount.
  split; [exact (new_reports _ _ _ Hcount) | exact Hcount].
Qed.

(** C5 (amended).  A value given for [comments] is first checked against the
    limit of 1000 characters as given, and then stripped: a constructed
    submission holds the stripped text, which has no white space at either
    end and at most 1000 characters; text longer than 1000 characters is
    rejected with an entry for comments, whatever its stripped length. *)
Theorem comments_checked_then_stripped
  (data : SurveySubmission.kwargs) (now : datetime) (v : pyval) :
  SurveySubmission.raw_comments data = Some v ->
  v <> PNone ->
  (forall s, new data now = Ok s ->
     exists c, str_validator v = inr c
               /\ (length c <= 1000)%nat
               /\ SurveySubmission.comments s = Some (strip c)
               /\ trimmed (strip c) = true
               /\ (length (strip c) <= 1000)%nat)
  /\ (forall c, str_validator v = inr c -> (1000 < length c)%nat ->
        exists errors, new data now = ValidationError errors
                       /\ count_loc "comments" errors = 1%nat).
Proof.
  intros Hraw Hv. split.
  - intros s H.
    apply new_ok_inv in H as (_ & _ & _ & _ & _ & Hcm & _).
    apply validate_comments_inv in Hcm
      as [[_ [Hn | Hn]] | (v' & c & Hraw' & _ & Hc & Hlen & Hcm)].
    + rewrite Hraw in Hn. discriminate.
    + rewrite Hraw in Hn. injection Hn as ->. now contradiction Hv.
    + rewrite Hraw in Hraw'. injection Hraw' as <-.
      exists c. repeat split; auto.
      * apply strip_trimmed.
      * pose proof (strip_length c). lia.
  - intros c Hc Hlen.
    assert (violates data "comments" = true) as Hviol.
    { unfold SurveySubmission.violates. simpl.
      unfold SurveySubmission.too_long. rewrite Hraw, Hc.
      apply Z.ltb_lt. lia. }
    pose proof (violation_counted data now _ Hviol) as Hcount.
    exists (error_list data now).
    split; [exact (new_reports _ _ _ Hcount) | exact Hcount].
Qed.

(** C6.  When the value given for one or more fields breaks the constraint
    of the field (name empty or longer than 100, email not valid, age outside
    13..120, rating outside 1..5, comments or user_agent longer than 1000),
    construction fails with one error list that has exactly one entry for
    each violated field. *)
Theorem all_violations_reported
  (data : SurveySubmission.kwargs) (now : datetime) :
  (exists f, violates data f = true) ->
  exists errors,
    new data now = ValidationError errors
    /\ forall f, violates data f = true -> count_loc f errors = 1%nat.
Proof.
  intros [f0 H0]. exists (error_list data now). split.
  - exact (new_reports _ _ _ (violation_counted data now f0 H0)).
  - intros f. apply violation_counted.
Qed.

(** C4.  Without a [submission_id] from the caller, the identifier of a
    constructed submission is the SHA-256 digest, as 64 lowercase hexadecimal
    characters, of the UTF-8 bytes of the validated email followed by the
    clock reading printed as year, month, day and hour.  Two such submissions
    with the same email in the same clock hour have the same identifier; in
    different clock hours the hashed bytes differ (whatever the emails), so
    the identifiers differ unless those two byte strings collide under
    SHA-256. *)
Theorem derived_submission_id
  (data1 data2 : SurveySubmission.kwargs) (now1 now2 : datetime)
  (s1 s2 : SurveySubmission.t) :
  SurveySubmission.id_absent data1 ->
  SurveySubmission.id_absent data2 ->
  new data1 now1 = Ok s1 ->
  new data2 now2 = Ok s2 ->
  exists b1 b2,
    Utf8.encode (SurveySubmission.email s1 ++ strftime_YmdH now1) = Some b1
    /\ SurveySubmission.submission_id s1 = Some (Sha256.hexdigest b1)
    /\ Utf8.encode (SurveySubmission.email s2 ++ strftime_YmdH now2) = Some b2
    /\ SurveySubmission.submission_id s2 = Some (Sha256.hexdigest b2)
    /\ length (Sha256.hexdigest b1) = 64%nat
    /\ forallb Sha256.is_lower_hex (Sha256.hexdigest b1) = true
    /\ (SurveySubmission.email s1 = SurveySubmission.email s2 ->
        same_hour now1 now2 ->
        SurveySubmission.submission_id s1 = SurveySubmission.submission_id s2)
    /\ (in_range now1 -> in_range now2 -> ~ same_hour now1 now2 ->
        b1 <> b2
        /\ (SurveySubmission.submission_id s1
            = SurveySubmission.submission_id s2 ->
            Sha256.collision b1 b2)).
Proof.
  intros Habs1 Habs2 H1 H2.
  assert (forall data now s,
            SurveySubmission.id_absent data -> new data now = Ok s ->
            exists b,
              Utf8.encode (SurveySubmission.email s ++ strftime_YmdH now)
              = Some b
              /\ SurveySubmission.submission_id s
                 = Some (Sha256.hexdigest b)) as Hderived.
  { intros data now s Habs H.
    apply new_ok_inv in H as (_ & _ & _ & _ & _ & _ & _ & Hsid & Hv).
    apply (validate_submission_id_inv _ _ _ _ _ Hv) in Hsid
      as [(v & t & Hraw & Hnone & _ & _) | (_ & b & Hb & ->)]; [|eauto].
    destruct Habs as [Ha | Ha]; rewrite Hraw in Ha; [discriminate|].
    injection Ha as ->. now contradiction Hnone. }
  destruct (Hderived _ _ _ Habs1 H1) as (b1 & Hb1 & Hs1).
  destruct (Hderived _ _ _ Habs2 H2) as (b2 & Hb2 & Hs2).
  exists b1, b2.
  repeat (split; [assumption|]).
  split; [apply hexdigest_length|]. split; [apply hexdigest_lower|].
  split.
  - intros He Hh. rewrite Hs1, Hs2.
    rewrite He, (strftime_same_hour _ _ Hh), Hb2 in Hb1.
    now injection Hb1 as ->.
  - intros Hr1 Hr2 Hdiff.
    assert (b1 <> b2) as Hne.
    { intros ->. apply Hdiff. apply strftime_inj; [assumption..|].
      rewrite encode_app in Hb1, Hb2.
      rewrite (encode_ascii _ (strftime_ascii now1)) in Hb1.
      rewrite (encode_ascii _ (strftime_ascii now2)) in Hb2.
      destruct (Utf8.encode (SurveySubmission.email s1)) as [be1|];
        [|discriminate].
      destruct (Utf8.encode (SurveySubmission.email s2)) as [be2|];
        [|discriminate].
      injection Hb1 as Hb1. injection Hb2 as Hb2. rewrite <- Hb2 in Hb1.
      apply app_inj_suffix in Hb1; [tauto|].
      now rewrite !strftime_length. }
    split; [exact Hne|].
    intros Heq. rewrite Hs1, Hs2 in Heq.
    split; [exact Hne | congruence].
Qed.

(** ** The store *)

Lemma deref_assign_other (h : Store.store) (r p : Store.ref)
  (o : Store.object) :
  p <> r -> Store.deref (Store.assign h r o) p = Store.deref h p.
Proof.
  unfold Store.deref. revert r p.
  induction h as [|x h IH]; intros r p Hne; [reflexivity|].
  destruct r as [|r]; destruct p as [|p]; simpl; try reflexivity;
    try congruence.
  apply IH. congruence.
Qed.

Lemma deref_assign_same (h : Store.store) (r : Store.ref)
  (o : Store.object) :
  (r < length h)%nat -> Store.deref (Store.assign h r o) r = Some o.
Proof.
  unfold Store.deref. revert r.
  induction h as [|x h IH]; intros r Hlt; simpl in Hlt; [lia|].
  destruct r as [|r]; simpl; [reflexivity|]. apply IH. lia.
Qed.

Lemma deref_alloc_old (h : Store.store) (o' : Store.object) (p : Store.ref)
  (o : Store.object) :
  Store.deref h p = Some o -> Store.deref (h ++ [o']) p = Some o.
Proof.
  unfold Store.deref. intros Hp.
  rewrite nth_error_app1; [exact Hp|].
  apply nth_error_Some. congruence.
Qed.

Lemma deref_alloc_new (h : Store.store) (o : Store.object) :
  Store.deref (h ++ [o]) (length h) = Some o.
Proof.
  unfold Store.deref. rewrite nth_error_app2 by lia.
  now rewrite Nat.sub_diag.
Qed.

(** *** Which programs leave the objects of the store alone *)

Lemma pure_preserves {A : Type} (a : A) : Store.preserves (Store.pure a).
Proof. intros h h' result H. injection H as <- _. auto. Qed.

Lemma throw_preserves {A : Type} (e : exn) :
  Store.preserves (@Store.throw A e).
Proof. intros h h' result H. injection H as <- _. auto. Qed.

Lemma call_preserves {A : Type} (e : exn) (result : option A) :
  Store.preserves (Store.call e result).
Proof.
  destruct result; [apply pure_preserves | apply throw_preserves].
Qed.

Lemma getattr_preserves {A : Type} (obj : Store.ref)
  (attr : SurveySubmission.t -> A) :
  Store.preserves (Store.getattr obj attr).
Proof.
  intros h h' result. unfold Store.getattr.
  destruct (Store.deref h obj) as [[s|r]|]; intros H; injection H as <- _;
    auto.
Qed.

Lemma construct_preserves (data : StoredSurveyRecord.kwargs) :
  Store.preserves (Store.construct int_of_str data).
Proof.
  intros h h' result. unfold Store.construct, Store.alloc.
  destruct (StoredSurveyRecord.new int_of_str data) as [r|errors|e];
    intros H; injection H as <- _; auto.
  intros p o. apply deref_alloc_old.
Qed.

Lemma and_then_preserves {A B : Type} (m : Store.prog A)
  (k : A -> Store.prog B) :
  Store.preserves m -> (forall a, Store.preserves (k a)) ->
  Store.preserves (Store.and_then m k).
Proof.
  intros Hm Hk h h' result. unfold Store.and_then.
  destruct (m h) as [h1 [a|errors|e]] eqn:E; intros H p o Hp.
  - exact (Hk a h1 h' result H p o (Hm h h1 _ E p o Hp)).
  - injection H as <- _. exact (Hm h h1 _ E p o Hp).
  - injection H as <- _. exact (Hm h h1 _ E p o Hp).
Qed.

(** An assignment to an attribute is a program that does not: the object
    assigned to is another one afterwards. *)
Lemma setattr_writes (h : Store.store) (obj : Store.ref)
  (update : SurveySubmission.t -> SurveySubmission.t)
  (s : SurveySubmission.t) :
  Store.deref h obj = Some (Store.Submission s) ->
  Store.setattr obj update h
  = (Store.assign h obj (Store.Submission (update s)), Ok tt)
  /\ Store.deref (Store.assign h obj (Store.Submission (update s))) obj
     = Some (Store.Submission (update s)).
Proof.
  intros Hs. unfold Store.setattr. rewrite Hs. split; [reflexivity|].
  apply deref_assign_same. apply nth_error_Some.
  unfold Store.deref in Hs. congruence.
Qed.

Lemma setattr_not_preserved :
  exists (obj : Store.ref)
         (update : SurveySubmission.t -> SurveySubmission.t),
    ~ Store.preserves (Store.setattr obj update).
Proof.
  pose (s := {| SurveySubmission.name := []; SurveySubmission.email := [];
                SurveySubmission.age := 0; SurveySubmission.consent := true;
                SurveySubmission.rating := 0;
                SurveySubmission.comments := None;
                SurveySubmission.user_agent := None;
                SurveySubmission.submission_id := None |}).
  exists 0%nat, (fun s => SurveySubmission.set_comments s (Some [])).
  intros H.
  specialize (H [Store.Submission s] _ _ eq_refl 0%nat _ eq_refl).
  discriminate H.
Qed.

Lemma from_submission_preserves (submission : Store.ref)
  (received_at : datetime) (ip : str) :
  Store.preserves
    (Store.from_submission int_of_str submission received_at ip).
Proof.
  unfold Store.from_submission.
  repeat (apply and_then_preserves;
          [first [apply getattr_preserves | apply call_preserves] | intros ?]).
  apply construct_preserves.
Qed.

(** *** What [from_submission] computes on a submission object *)

Lemma getattr_run {A B : Type} (h : Store.store) (obj : Store.ref)
  (s : SurveySubmission.t) (attr : SurveySubmission.t -> A)
  (k : A -> Store.prog B) :
  Store.deref h obj = Some (Store.Submission s) ->
  Store.and_then (Store.getattr obj attr) k h = k (attr s) h.
Proof.
  intros Hs. unfold Store.and_then, Store.getattr. now rewrite Hs.
Qed.

(** On a reference to a submission with attributes [s], the program does
    what the function does on [s], and a record it returns is a new object. *)
Lemma from_submission_run (h : Store.store) (submission : Store.ref)
  (s : SurveySubmission.t) (received_at : datetime) (ip : str) :
  Store.deref h submission = Some (Store.Submission s) ->
  Store.from_submission int_of_str submission received_at ip h
  = match from_submission s received_at ip with
    | Ok r => (h ++ [Store.Stored r], Ok (length h))
    | ValidationError errors => (h, ValidationError errors)
    | Raised e => (h, Raised e)
    end.
Proof.
  intros Hs.
  unfold Store.from_submission, StoredSurveyRecord.from_submission.
  do 2 (rewrite (getattr_run h submission s) by exact Hs; cbv beta).
  destruct (hash_pii (SurveySubmission.email s)) as [hashed_email|];
    [|reflexivity].
  unfold Store.call at 1, Store.pure, Store.and_then at 1; cbv beta iota.
  rewrite (getattr_run h submission s) by exact Hs; cbv beta.
  destruct (hash_pii (SurveySubmission.age s)) as [hashed_age|];
    [|reflexivity].
  unfold Store.call, Store.pure, Store.and_then at 1; cbv beta iota.
  do 5 (rewrite (getattr_run h submission s) by exact Hs; cbv beta).
  unfold Store.construct, Store.alloc.
  destruct (StoredSurveyRecord.new int_of_str _); reflexivity.
Qed.

(** C9.  [from_submission] reads the attributes of the submission object
    and assigns to none: after the call the submission object, and every
    other object of the store, is what it was.  When it returns a record, the
    record is a new object, different from the submission, which holds the
    values that the function computes from the attributes; it does not refer
    back to the submission, so that a later assignment to an attribute of the
    submission changes the submission and leaves the record as it is. *)
Theorem from_submission_leaves_submission
  (h h' : Store.store) (submission : Store.ref) (s : SurveySubmission.t)
  (received_at : datetime) (ip : str) (result : outcome Store.ref) :
  Store.deref h submission = Some (Store.Submission s) ->
  Store.from_submission int_of_str submission received_at ip h
    = (h', result) ->
  Store.deref h' submission = Some (Store.Submission s)
  /\ (forall p o, Store.deref h p = Some o -> Store.deref h' p = Some o)
  /\ (forall p, result = Ok p ->
        p <> submission
        /\ Store.deref h p = None
        /\ exists r,
             from_submission s received_at ip = Ok r
             /\ Store.deref h' p = Some (Store.Stored r)
             /\ forall update h'' done,
                  Store.setattr submission update h' = (h'', done) ->
                  Store.deref h'' submission
                  = Some (Store.Submission (update s))
                  /\ Store.deref h'' p = Some (Store.Stored r)).
Proof.
  intros Hs Hrun.
  pose proof (from_submission_preserves _ _ _ _ _ _ Hrun) as Hkeep.
  split; [exact (Hkeep _ _ Hs)|]. split; [exact Hkeep|].
  intros p ->.
  rewrite (from_submission_run h submission s received_at ip Hs) in Hrun.
  assert (submission < length h)%nat as Hlt.
  { apply nth_error_Some. unfold Store.deref in Hs. congruence. }
  destruct (from_submission s received_at ip) as [r | errors | e];
    [|discriminate|discriminate].
  injection Hrun as <- <-.
  split; [lia|]. split; [apply nth_error_None; lia|].
  exists r. split; [reflexivity|]. split; [apply deref_alloc_new|].
  intros update h'' done Hset.
  destruct (setattr_writes (h ++ [Store.Stored r]) submission update s
              (deref_alloc_old _ _ _ _ Hs)) as [Hw Hnew].
  rewrite Hw in Hset. injection Hset as <- _.
  split; [exact Hnew|].
  rewrite deref_assign_other by lia. apply deref_alloc_new.
Qed.

(** The email-validator package accepts only addresses that are Unicode
    text, so that they can be encoded. *)
Hypothesis EmailStr_encodable :
  forall v e, EmailStr_validate v = Some e -> Utf8.encode e <> None.

(** C1.  For a constructed submission [s], a timestamp and an IP string,
    [from_submission] returns a record whose name, consent, rating, comments,
    user_agent and submission_id are those of [s], whose received_at and ip
    are the two arguments, and whose hashed_email and hashed_age are the
    SHA-256 digests, as 64 lowercase hexadecimal characters, of the UTF-8
    bytes of [s.email] and of [str(s.age)], the decimal numeral of
    [s.age]. *)
Theorem from_submission_copies_and_hashes
  (data : SurveySubmission.kwargs) (now : datetime) (s : SurveySubmission.t)
  (received_at : datetime) (ip : str) :
  new data now = Ok s ->
  exists (r : StoredSurveyRecord.t) (email_bytes age_bytes : list Z),
    from_submission s received_at ip = Ok r
    /\ StoredSurveyRecord.name r = SurveySubmission.name s
    /\ StoredSurveyRecord.consent r = SurveySubmission.consent s
    /\ StoredSurveyRecord.rating r = SurveySubmission.rating s
    /\ StoredSurveyRecord.comments r = SurveySubmission.comments s
    /\ StoredSurveyRecord.user_agent r = SurveySubmission.user_agent s
    /\ Some (StoredSurveyRecord.submission_id r)
       = SurveySubmission.submission_id s
    /\ StoredSurveyRecord.received_at r = received_at
    /\ StoredSurveyRecord.ip r = ip
    /\ Utf8.encode (SurveySubmission.email s) = Some email_bytes
    /\ StoredSurveyRecord.hashed_email r = Sha256.hexdigest email_bytes
    /\ Utf8.encode (str_of_int (SurveySubmission.age s)) = Some age_bytes
    /\ StoredSurveyRecord.hashed_age r = Sha256.hexdigest age_bytes
    /\ ascii_int (str_of_int (SurveySubmission.age s))
       = Some (SurveySubmission.age s)
    /\ hash_pii (SurveySubmission.email s)
       = Some (StoredSurveyRecord.hashed_email r)
    /\ hash_pii (SurveySubmission.age s)
       = Some (StoredSurveyRecord.hashed_age r)
    /\ length (StoredSurveyRecord.hashed_email r) = 64%nat
    /\ length (StoredSurveyRecord.hashed_age r) = 64%nat
    /\ forallb Sha256.is_lower_hex (StoredSurveyRecord.hashed_email r) = true
    /\ forallb Sha256.is_lower_hex (StoredSurveyRecord.hashed_age r) = true.
Proof.
  intros H.
  destruct (new_constraints _ _ _ H) as (Hc & [sid Hsid] & [v Hv]).
  destruct (Utf8.encode (SurveySubmission.email s)) as [eb|] eqn:Eb;
    [|exfalso; exact (EmailStr_encodable _ _ Hv Eb)].
  pose proof (encode_ascii _ (str_of_int_ascii (SurveySubmission.age s)))
    as Ea.
  eexists. exists eb, (str_of_int (SurveySubmission.age s)).
  split; [exact (from_submission_ok s received_at ip sid eb Hc Hsid Eb)|].
  cbn [StoredSurveyRecord.name StoredSurveyRecord.hashed_email
       StoredSurveyRecord.hashed_age StoredSurveyRecord.consent
       StoredSurveyRecord.rating StoredSurveyRecord.comments
       StoredSurveyRecord.user_agent StoredSurveyRecord.received_at
       StoredSurveyRecord.ip StoredSurveyRecord.submission_id].
  unfold hash_pii, py_str, PyStr_str, PyStr_int.
  rewrite py_str_int_age by (destruct Hc as (_ & Hage & _); exact Hage).
  rewrite Eb, Ea. cbn [option_map].
  rewrite !hexdigest_length, !hexdigest_lower.
  rewrite str_of_int_age by (destruct Hc as (_ & Hage & _); exact Hage).
  auto 20.
Qed.

(** C8.  A constructed submission satisfies the constraints that
    [StoredSurveyRecord] declares again and has an identifier, so that
    [from_submission] returns a record and never raises a validation
    error. *)
Theorem from_submission_total
  (data : SurveySubmission.kwargs) (now : datetime) (s : SurveySubmission.t)
  (received_at : datetime) (ip : str) :
  new data now = Ok s ->
  (1 <= length (SurveySubmission.name s) <= 100)%nat
  /\ 1 <= SurveySubmission.rating s <= 5
  /\ (forall c, SurveySubmission.comments s = Some c ->
                (length c <= 1000)%nat)
  /\ (forall u, SurveySubmission.user_agent s = Some u ->
                (length u <= 1000)%nat)
  /\ SurveySubmission.submission_id s <> None
  /\ (exists r, from_submission s received_at ip = Ok r)
  /\ (forall errors,
        from_submission s received_at ip <> ValidationError errors).
Proof.
  intros H.
  destruct (new_constraints _ _ _ H) as (Hc & [sid Hsid] & [v Hv]).
  destruct (Utf8.encode (SurveySubmission.email s)) as [eb|] eqn:Eb;
    [|exfalso; exact (EmailStr_encodable _ _ Hv Eb)].
  pose proof (from_submission_ok s received_at ip sid eb Hc Hsid Eb) as Hok.
  destruct Hc as (Hn & _ & _ & Hr & Hcm & Hua).
  repeat split; try tauto; try lia.
  - rewrite Hsid. discriminate.
  - eauto.
  - intros errors. rewrite Hok. discriminate.
Qed.

(** C10 (amended).  When [comments] is text made of white space only, of
    at most 1000 characters as given, and the other fields validate, construction succeeds with
    [comments] the empty string, not [None], and [from_submission] copies
    that empty string into the record. *)
Theorem whitespace_comments_become_empty
  (data : SurveySubmission.kwargs) (now : datetime) (ws : str)
  (s0 : SurveySubmission.t) (received_at : datetime) (ip : str) :
  SurveySubmission.raw_comments data = Some (PStr ws) ->
  forallb isspace ws = true ->
  (length ws <= 1000)%nat ->
  new (SurveySubmission.with_comments data None) now = Ok s0 ->
  new data now = Ok (SurveySubmission.set_comments s0 (Some []))
  /\ SurveySubmission.comments (SurveySubmission.set_comments s0 (Some []))
     = Some []
  /\ exists r,
       from_submission (SurveySubmission.set_comments s0 (Some []))
         received_at ip = Ok r
       /\ StoredSurveyRecord.comments r = Some [].
Proof.
  intros Hraw Hws Hlen H0.
  assert (new data now = Ok (SurveySubmission.set_comments s0 (Some [])))
    as Hnew.
  { apply new_ok_inv in H0 as (Hn & He & Ha & Hc & Hr & _ & Hua & Hsid & Hv).
    cbn [SurveySubmission.with_comments SurveySubmission.raw_name
         SurveySubmission.raw_email SurveySubmission.raw_age
         SurveySubmission.raw_consent SurveySubmission.raw_rating
         SurveySubmission.raw_user_agent SurveySubmission.raw_submission_id]
      in Hn, He, Ha, Hc, Hr, Hua, Hsid.
    unfold SurveySubmission.set_comments.
    apply new_ok_intro; try assumption.
    rewrite Hraw. unfold SurveySubmission.validate_comments. simpl.
    rewrite constr_length_fits by lia. simpl.
    now rewrite (strip_spaces ws Hws). }
  split; [exact Hnew | split; [reflexivity|]].
  destruct (new_constraints _ _ _ Hnew) as (Hc & [sid Hsid] & [v Hv]).
  destruct (Utf8.encode
              (SurveySubmission.email
                 (SurveySubmission.set_comments s0 (Some [])))) as [eb|] eqn:Eb;
    [|exfalso; exact (EmailStr_encodable _ _ Hv Eb)].
  eexists. split;
    [exact (from_submission_ok _ received_at ip sid eb Hc Hsid Eb)|].
  reflexivity.
Qed.

End Properties.

(** ** The model on concrete inputs *)

Lemma printable_ascii (c : codepoint) : printable c = true -> 0 <= c < 128.
Proof.
  unfold printable. intros H. apply andb_true_iff in H as [H1 H2].
  apply Z.leb_le in H1, H2. lia.
Qed.

(** The addresses that [ascii_email] returns can be encoded. *)
Lemma ascii_email_encodable (v e : str) :
  ascii_email v = Some e -> Utf8.encode e <> None.
Proof.
  unfold ascii_email. destruct (split_at 64 v) as [[local domain]|];
    [|discriminate].
  destruct (forallb printable _) eqn:Hp; [|discriminate].
  destruct (_ && _); [|discriminate].
  intros H. injection H as <-.
  rewrite encode_ascii; [discriminate|].
  apply Forall_forall. intros c Hc. apply printable_ascii.
  rewrite forallb_forall in Hp. now apply Hp.
Qed.

(** The example of the specification: comments given with white space around
    validates to the stripped text, and the identifier is the digest that
    [hashlib] gives for the email followed by the hour. *)
Example jo_constructed :
  SurveySubmission.new ascii_email ascii_int jo hour_2024031514
  = Ok jo_submission.
Proof. vm_compute. reflexivity. Qed.

Example jo_stored :
  StoredSurveyRecord.from_submission ascii_int jo_submission hour_2024031515
    (lit "10.0.0.1")
  = Ok (jo_record hour_2024031515 (lit "10.0.0.1")).
Proof. vm_compute. reflexivity. Qed.

(** The example of the specification for the identifier: the same email in
    the same hour gives the same identifier, and another in the next hour. *)
Example ab_constructed :
  SurveySubmission.new ascii_email ascii_int ab hour_2024031514
  = Ok (ab_instance ab_id_14)
  /\ SurveySubmission.new ascii_email ascii_int ab hour_2024031515
     = Ok (ab_instance ab_id_15)
  /\ Utf8.encode (lit "a@b.com2024031514")
     = Some (lit "a@b.com2024031514")
  /\ Sha256.hexdigest (lit "a@b.com2024031514") = ab_id_14
  /\ ab_id_14 <> ab_id_15.
Proof. vm_compute. repeat split; try reflexivity. discriminate. Qed.

(** A consent of [False] is refused with the message of [_must_consent]. *)
Example consent_false_refused :
  SurveySubmission.new ascii_email ascii_int
    (jo_with (PBool false) None None) hour_2024031514
  = ValidationError
      [ {| loc := "consent"; exc := ValueError "consent must be true" |} ].
Proof. vm_compute. reflexivity. Qed.

(** ** Instances of the claims, and inputs on which claims fail *)

(** C1 at the example of the specification. *)
Lemma from_submission_copies_and_hashes_witness :
  exists r,
    StoredSurveyRecord.from_submission ascii_int jo_submission
      hour_2024031515 (lit "10.0.0.1") = Ok r
    /\ StoredSurveyRecord.name r = SurveySubmission.name jo_submission
    /\ hash_pii (SurveySubmission.email jo_submission)
       = Some (StoredSurveyRecord.hashed_email r)
    /\ hash_pii (SurveySubmission.age jo_submission)
       = Some (StoredSurveyRecord.hashed_age r).
Proof.
  destruct (from_submission_copies_and_hashes ascii_email ascii_int
              ascii_email_encodable jo hour_2024031514 jo_submission
              hour_2024031515 (lit "10.0.0.1"))
    as (r & eb & ab & Hr & Hn & _ & _ & _ & _ & _ & _ & _ & _ & _ & _ & _
        & _ & He & Ha & _).
  - vm_compute. reflexivity.
  - exists r. repeat split; assumption.
Defined.

(** C2: the caller passes the empty string as [submission_id]; construction
    succeeds and the identifier is empty. *)
Lemma empty_submission_id_accepted :
  SurveySubmission.new ascii_email ascii_int
    (jo_with (PBool true) None (Some (PStr []))) hour_2024031514
  = Ok (jo_instance None [])
  /\ SurveySubmission.consent (jo_instance None []) = true
  /\ SurveySubmission.submission_id (jo_instance None []) = Some [].
Proof. vm_compute. repeat split; reflexivity. Qed.

(** C2 (amended) at the example of the specification. *)
Lemma constructed_consent_and_identifier_witness :
  SurveySubmission.consent jo_submission = true
  /\ exists sid, SurveySubmission.submission_id jo_submission = Some sid
                 /\ length sid = 64%nat.
Proof.
  destruct (constructed_consent_and_identifier ascii_email ascii_int jo
              hour_2024031514 jo_submission)
    as (Hc & sid & Hsid & _ & Hlen).
  - vm_compute. reflexivity.
  - split; [exact Hc|]. exists sid. split; [exact Hsid|].
    apply Hlen. left. reflexivity.
Defined.

(** C3: the integer 1 and the string true are not the boolean [True], and
    construction succeeds with [consent] equal to [True]. *)
Lemma truthy_consent_accepted :
  SurveySubmission.new ascii_email ascii_int
    (jo_with (PInt 1) None None) hour_2024031514
  = Ok (jo_instance None jo_id_14)
  /\ SurveySubmission.new ascii_email ascii_int
       (jo_with (PStr (lit "true")) None None) hour_2024031514
     = Ok (jo_instance None jo_id_14)
  /\ SurveySubmission.consent (jo_instance None jo_id_14) = true.
Proof. vm_compute. repeat split; reflexivity. Qed.

(** C3 (amended) at a consent of [False]. *)
Lemma consent_not_true_rejected_witness :
  exists errors,
    SurveySubmission.new ascii_email ascii_int
      (jo_with (PBool false) None None) hour_2024031514
    = ValidationError errors
    /\ count_loc "consent" errors = 1%nat.
Proof.
  apply (consent_not_true_rejected ascii_email ascii_int
           (jo_with (PBool false) None None) hour_2024031514).
  reflexivity.
Defined.

(** C4 at the example of the specification: a@b.com at 2024031514 and at
    2024031515. *)
Lemma derived_submission_id_witness :
  exists b1 b2,
    Utf8.encode (lit "a@b.com" ++ strftime_YmdH hour_2024031514) = Some b1
    /\ SurveySubmission.submission_id (ab_instance ab_id_14)
       = Some (Sha256.hexdigest b1)
    /\ SurveySubmission.submission_id (ab_instance ab_id_15)
       = Some (Sha256.hexdigest b2)
    /\ b1 <> b2.
Proof.
  destruct (derived_submission_id ascii_email ascii_int ab ab
              hour_2024031514 hour_2024031515
              (ab_instance ab_id_14) (ab_instance ab_id_15))
    as (b1 & b2 & Hb1 & Hs1 & _ & Hs2 & _ & _ & _ & Hdiff).
  - left. reflexivity.
  - left. reflexivity.
  - vm_compute. reflexivity.
  - vm_compute. reflexivity.
  - destruct Hdiff as [Hne _].
    + unfold in_range. simpl. lia.
    + unfold in_range. simpl. lia.
    + intros (_ & _ & _ & Hh). discriminate Hh.
    + exists b1, b2. split; [exact Hb1|]. split; [exact Hs1|].
      split; [exact Hs2 | exact Hne].
Defined.

(** C5: comments of 1001 characters whose stripped form has one character
    are refused. *)
Lemma long_padded_comments_rejected :
  length (strip padded_comment) = 1%nat
  /\ SurveySubmission.new ascii_email ascii_int
       (jo_with (PBool true) (Some (PStr padded_comment)) None)
       hour_2024031514
     = ValidationError
         [ {| loc := "comments"; exc := AnyStrMaxLengthError 1000 |} ].
Proof. vm_compute. split; reflexivity. Qed.

(** C5 (amended) at the example of the specification. *)
Lemma comments_checked_then_stripped_witness :
  exists c,
    str_validator (PStr (lit "  great  ")) = inr c
    /\ SurveySubmission.comments jo_submission = Some (strip c)
    /\ strip c = lit "great".
Proof.
  destruct (comments_checked_then_stripped ascii_email ascii_int jo
              hour_2024031514 (PStr (lit "  great  ")))
    as [Hok _].
  - reflexivity.
  - discriminate.
  - destruct (Hok jo_submission) as (c & Hc & _ & Hcm & _).
    + vm_compute. reflexivity.
    + exists c. repeat split; try assumption.
      injection Hc as <-. vm_compute. reflexivity.
Defined.

(** C6 at an input that breaks three constraints. *)
Lemma all_violations_reported_witness :
  exists errors,
    SurveySubmission.new ascii_email ascii_int three_violations
      hour_2024031514 = ValidationError errors
    /\ count_loc "name" errors = 1%nat
    /\ count_loc "age" errors = 1%nat
    /\ count_loc "rating" errors = 1%nat.
Proof.
  destruct (all_violations_reported ascii_email ascii_int three_violations
              hour_2024031514) as (errors & Hnew & Hall).
  - exists "name"%string. reflexivity.
  - exists errors. repeat split; try assumption; apply Hall; reflexivity.
Defined.

(** C8 at the example of the specification. *)
Lemma from_submission_total_witness :
  exists r,
    StoredSurveyRecord.from_submission ascii_int jo_submission
      hour_2024031515 (lit "10.0.0.1") = Ok r.
Proof.
  destruct (from_submission_total ascii_email ascii_int ascii_email_encodable
              jo hour_2024031514 jo_submission hour_2024031515
              (lit "10.0.0.1"))
    as (_ & _ & _ & _ & _ & Hr & _).
  - vm_compute. reflexivity.
  - exact Hr.
Defined.

(** C9 on a store that holds the submission of the example. *)
Lemma from_submission_leaves_submission_witness :
  Store.deref
    [Store.Submission jo_submission;
     Store.Stored (jo_record hour_2024031515 (lit "10.0.0.1"))] 0%nat
  = Some (Store.Submission jo_submission)
  /\ exists r,
       StoredSurveyRecord.from_submission ascii_int jo_submission
         hour_2024031515 (lit "10.0.0.1") = Ok r
       /\ Store.deref
            [Store.Submission jo_submission;
             Store.Stored (jo_record hour_2024031515 (lit "10.0.0.1"))] 1%nat
          = Some (Store.Stored r).
Proof.
  destruct (from_submission_leaves_submission ascii_int
              [Store.Submission jo_submission]
              [Store.Submission jo_submission;
               Store.Stored (jo_record hour_2024031515 (lit "10.0.0.1"))]
              0%nat jo_submission hour_2024031515 (lit "10.0.0.1")
              (Ok 1%nat))
    as (Hsame & _ & Hnew).
  - reflexivity.
  - vm_compute. reflexivity.
  - split; [exact Hsame|].
    destruct (Hnew 1%nat eq_refl) as (_ & _ & r & Hr & Hp & _).
    exists r. split; assumption.
Defined.

(** C10: comments of 1001 spaces are white space only, the other fields
    validate, and construction fails on the length of comments. *)
Lemma long_whitespace_comments_rejected :
  forallb isspace (repeat 32 1001) = true
  /\ SurveySubmission.new ascii_email ascii_int
       (jo_with (PBool true) None None) hour_2024031514
     = Ok (jo_instance None jo_id_14)
  /\ SurveySubmission.new ascii_email ascii_int
       (jo_with (PBool true) (Some (PStr (repeat 32 1001))) None)
       hour_2024031514
     = ValidationError
         [ {| loc := "comments"; exc := AnyStrMaxLengthError 1000 |} ].
Proof. vm_compute. repeat split; reflexivity. Qed.

(** C10 (amended) at comments of three spaces. *)
Lemma whitespace_comments_become_empty_witness :
  SurveySubmission.new ascii_email ascii_int
    (jo_with (PBool true) (Some (PStr (lit "   "))) None) hour_2024031514
  = Ok (SurveySubmission.set_comments (jo_instance None jo_id_14) (Some []))
  /\ exists r,
       StoredSurveyRecord.from_submission ascii_int
         (SurveySubmission.set_comments (jo_instance None jo_id_14) (Some []))
         hour_2024031515 (lit "10.0.0.1") = Ok r
       /\ StoredSurveyRecord.comments r = Some [].
Proof.
  destruct (whitespace_comments_become_empty ascii_email ascii_int
              ascii_email_encodable
              (jo_with (PBool true) (Some (PStr (lit "   "))) None)
              hour_2024031514 (lit "   ") (jo_instance None jo_id_14)
              hour_2024031515 (lit "10.0.0.1"))
    as (Hnew & _ & Hr).
  - reflexivity.
  - reflexivity.
  - simpl. lia.
  - vm_compute. reflexivity.
  - split; assumption.
Defined.

(* ================================================================== *)
(** * Part III: further properties of the code *)
(* ================================================================== *)

(** ** [hash_pii] *)

Lemma encode_char_none (c : codepoint) :
  Utf8.encode_char c = None <-> Utf8.encodable c = false.
Proof.
  unfold Utf8.encode_char, Utf8.encodable.
  destruct (c <? 0) eqn:E0, (c <? 0x80) eqn:E1, (c <? 0x800) eqn:E2,
    (c <? 0x10000) eqn:E3, (c <? 0x110000) eqn:E4, (0xD800 <=? c) eqn:E5,
    (c <=? 0xDFFF) eqn:E6, (0 <=? c) eqn:E7; simpl; split; intros H;
    try discriminate; try reflexivity;
    repeat match goal with
           | C : (_ <? _) = true |- _ => apply Z.ltb_lt in C
           | C : (_ <? _) = false |- _ => apply Z.ltb_ge in C
           | C : (_ <=? _) = true |- _ => apply Z.leb_le in C
           | C : (_ <=? _) = false |- _ => apply Z.leb_gt in C
           end; lia.
Qed.

Lemma encode_none (s : str) :
  Utf8.encode s = None <-> forallb Utf8.encodable s = false.
Proof.
  induction s as [|c s IH]; simpl; [split; discriminate|].
  destruct (Utf8.encode_char c) as [b|] eqn:Ec.
  - assert (Utf8.encodable c = true) as ->.
    { destruct (Utf8.encodable c) eqn:E; [reflexivity|].
      apply encode_char_none in E. congruence. }
    simpl. rewrite <- IH. destruct (Utf8.encode s); split; congruence.
  - apply encode_char_none in Ec. rewrite Ec. simpl. tauto.
Qed.

(** X1.  [hash_pii] on text either returns 64 lowercase hexadecimal
    characters, when every character of the text is a Unicode code point
    other than a surrogate, or raises [UnicodeEncodeError], when some
    character is not. *)
Theorem hash_pii_text (s : str) :
  match hash_pii s with
  | Some d =>
      forallb Utf8.encodable s = true /\ length d = 64%nat
      /\ forallb Sha256.is_lower_hex d = true
  | None => forallb Utf8.encodable s = false
  end.
Proof.
  unfold hash_pii, py_str, PyStr_str.
  destruct (Utf8.encode s) as [b|] eqn:E; cbn [option_map].
  - split; [|split; [apply hexdigest_length | apply hexdigest_lower]].
    destruct (forallb Utf8.encodable s) eqn:F; [reflexivity|].
    apply encode_none in F. congruence.
  - now apply encode_none.
Qed.

(** X2.  [hash_pii] on an [int] of at most 4300 digits returns 64
    lowercase hexadecimal characters, the same as for the decimal text of
    the number, so a number and its numeral cannot be told apart by their
    hashes; on an [int] of more digits it raises the [ValueError] of
    [str]. *)
Theorem hash_pii_int (n : Z) :
  match hash_pii n with
  | Some d =>
      Z.abs n < max_str_int /\ hash_pii (str_of_int n) = Some d
      /\ length d = 64%nat /\ forallb Sha256.is_lower_hex d = true
  | None => max_str_int <= Z.abs n
  end.
Proof.
  unfold hash_pii, py_str, PyStr_str, PyStr_int.
  destruct (py_str_int n) as [t|] eqn:E.
  - apply py_str_int_some in E as [-> Hlt].
    rewrite (encode_ascii _ (str_of_int_ascii n)). cbn [option_map].
    split; [exact Hlt|]. split; [reflexivity|].
    split; [apply hexdigest_length | apply hexdigest_lower].
  - unfold py_str_int in E.
    destruct (max_str_int <=? Z.abs n) eqn:C; [|discriminate].
    now apply Z.leb_le.
Qed.

(** ** [strip] *)

(** [strip] removes white space from the two ends and nothing else. *)
Lemma strip_split (s : str) :
  exists ws1 ws2,
    s = ws1 ++ strip s ++ ws2
    /\ forallb isspace ws1 = true /\ forallb isspace ws2 = true.
Proof.
  destruct (lstrip_split s) as [ws1 [H1 W1]].
  destruct (rstrip_split (lstrip s)) as [ws2 [H2 W2]].
  exists ws1, ws2. split; [|auto].
  unfold strip. rewrite <- H2. exact H1.
Qed.

Lemma lstrip_fixed (s : str) :
  (forall c r, s = c :: r -> isspace c = false) -> lstrip s = s.
Proof.
  destruct s as [|c r]; [reflexivity|]. intros H. simpl.
  now rewrite (H c r eq_refl).
Qed.

Lemma lstrip_idempotent (s : str) : lstrip (lstrip s) = lstrip s.
Proof. apply lstrip_fixed. intros c r. apply lstrip_head. Qed.

Lemma strip_idempotent (s : str) : strip (strip s) = strip s.
Proof.
  unfold strip at 1.
  rewrite (lstrip_fixed (strip s)) by (intros c r; apply strip_first).
  unfold strip, rstrip. now rewrite rev_involutive, lstrip_idempotent.
Qed.

Lemma errors_of_cases {A : Type} (f : string) (r : vres A) :
  errors_of f r = [] \/ exists e, errors_of f r = [ {| loc := f; exc := e |} ].
Proof. destruct r; simpl; eauto. Qed.

(** ** Which error each field reports *)

Section Behaviour.

Variable EmailStr_validate : str -> option str.
Variable int_of_str : str -> option Z.

Local Abbreviation new := (SurveySubmission.new EmailStr_validate int_of_str).
Local Abbreviation error_list :=
  (SurveySubmission.error_list EmailStr_validate int_of_str).
Local Abbreviation validated_values :=
  (SurveySubmission.validated_values EmailStr_validate int_of_str).
Local Abbreviation validate_email :=
  (SurveySubmission.validate_email EmailStr_validate).
Local Abbreviation validate_age := (SurveySubmission.validate_age int_of_str).
Local Abbreviation validate_rating :=
  (SurveySubmission.validate_rating int_of_str).
Local Abbreviation raises_with :=
  (SurveySubmission.raises_with EmailStr_validate int_of_str).
Local Abbreviation no_entry :=
  (SurveySubmission.no_entry EmailStr_validate int_of_str).
Local Abbreviation from_submission :=
  (StoredSurveyRecord.from_submission int_of_str).

Lemma in_error_list_raises (data : SurveySubmission.kwargs) (now : datetime)
  (f : string) (e : error_kind) :
  In {| loc := f; exc := e |} (error_list data now) ->
  raises_with data now f e.
Proof.
  intros H. exists (error_list data now). split; [|exact H].
  apply new_error. intros E. rewrite E in H. contradiction.
Qed.

(** Proves that the validator of a field raising [e], as [H] says, puts the
    entry of that field into the error list. *)
Ltac field_raises H :=
  apply in_error_list_raises; unfold SurveySubmission.error_list;
  rewrite H; rewrite ?in_app_iff; simpl; auto 20.

(** Proves that the validator of a field returning, as [H] says, leaves the
    error list without an entry for that field. *)
Ltac field_silent H :=
  let errors := fresh "errors" in
  let Hn := fresh "Hn" in
  intros errors Hn;
  apply new_error_inv in Hn as [-> _];
  rewrite error_list_count, !count_loc_errors_of; rewrite H; simpl;
  repeat match goal with
         | |- context [match ?r with inl _ => _ | inr _ => _ end] =>
             destruct r
         end; reflexivity.

(** X3.  A required field (name, email, age, consent, rating) whose key is
    absent is reported as missing, and one whose value is [None] is reported
    as not allowed to be [None]; construction fails in both cases. *)
Theorem required_field_absent_or_none
  (data : SurveySubmission.kwargs) (now : datetime) (field : string) :
  In field ["name"; "email"; "age"; "consent"; "rating"]%string ->
  (SurveySubmission.get data field = None ->
   raises_with data now field MissingError)
  /\ (SurveySubmission.get data field = Some PNone ->
      raises_with data now field NoneIsNotAllowedError).
Proof.
  intros H. simpl in H.
  destruct H as [<- | [<- | [<- | [<- | [<- | []]]]]];
    unfold SurveySubmission.get; simpl; split; intros Hraw.
  - assert (SurveySubmission.validate_name (SurveySubmission.raw_name data)
            = inl MissingError) as E by (now rewrite Hraw).
    field_raises E.
  - assert (SurveySubmission.validate_name (SurveySubmission.raw_name data)
            = inl NoneIsNotAllowedError) as E by (now rewrite Hraw).
    field_raises E.
  - assert (validate_email (SurveySubmission.raw_email data)
            = inl MissingError) as E by (now rewrite Hraw).
    field_raises E.
  - assert (validate_email (SurveySubmission.raw_email data)
            = inl NoneIsNotAllowedError) as E by (now rewrite Hraw).
    field_raises E.
  - assert (validate_age (SurveySubmission.raw_age data)
            = inl MissingError) as E by (now rewrite Hraw).
    field_raises E.
  - assert (validate_age (SurveySubmission.raw_age data)
            = inl NoneIsNotAllowedError) as E by (now rewrite Hraw).
    field_raises E.
  - assert (SurveySubmission.validate_consent
              (SurveySubmission.raw_consent data)
            = inl MissingError) as E by (now rewrite Hraw).
    field_raises E.
  - assert (SurveySubmission.validate_consent
              (SurveySubmission.raw_consent data)
            = inl NoneIsNotAllowedError) as E by (now rewrite Hraw).
    field_raises E.
  - assert (validate_rating (SurveySubmission.raw_rating data)
            = inl MissingError) as E by (now rewrite Hraw).
    field_raises E.
  - assert (validate_rating (SurveySubmission.raw_rating data)
            = inl NoneIsNotAllowedError) as E by (now rewrite Hraw).
    field_raises E.
Qed.

Lemma int_validator_not_none (v : pyval) (a : Z) :
  int_validator int_of_str v = inr a -> v <> PNone.
Proof. intros H ->. discriminate. Qed.

Lemma str_validator_not_none (v : pyval) (t : str) :
  str_validator v = inr t -> v <> PNone.
Proof. intros H ->. discriminate. Qed.

(** A number field on a value that reads as the number [a]. *)
Lemma number_field (lo hi : Z) (v : pyval) (a : Z) :
  int_validator int_of_str v = inr a ->
  validate_required
    (fun v => n <- int_validator int_of_str v ;; number_size_validator lo hi n)
    (Some v)
  = if a <? lo then inl (NumberNotGeError lo)
    else if hi <? a then inl (NumberNotLeError hi)
    else inr a.
Proof.
  intros H. rewrite validate_required_some
    by exact (int_validator_not_none _ _ H).
  rewrite H. reflexivity.
Qed.

(** X4.  The bounds of age and rating are inclusive, and each side has its
    own error: a value that reads as a number below 13 (1 for rating) is
    reported as not greater than or equal to the bound, one above 120 (5 for
    rating) as not less than or equal to it, and a number within the bounds
    is never reported. *)
Theorem number_bounds_reported
  (data : SurveySubmission.kwargs) (now : datetime) (v : pyval) (a : Z) :
  int_validator int_of_str v = inr a ->
  (SurveySubmission.raw_age data = Some v ->
   (a < 13 -> raises_with data now "age" (NumberNotGeError 13))
   /\ (120 < a -> raises_with data now "age" (NumberNotLeError 120))
   /\ (13 <= a <= 120 -> no_entry data now "age"))
  /\ (SurveySubmission.raw_rating data = Some v ->
      (a < 1 -> raises_with data now "rating" (NumberNotGeError 1))
      /\ (5 < a -> raises_with data now "rating" (NumberNotLeError 5))
      /\ (1 <= a <= 5 -> no_entry data now "rating")).
Proof.
  intros Hv. split; intros Hraw.
  - pose proof (number_field 13 120 v a Hv) as E.
    fold (validate_age (Some v)) in E. rewrite <- Hraw in E.
    split; [|split]; intros Ha.
    + destruct (a <? 13) eqn:C; [|apply Z.ltb_ge in C; lia]. field_raises E.
    + destruct (a <? 13) eqn:C; [apply Z.ltb_lt in C; lia|].
      destruct (120 <? a) eqn:D; [|apply Z.ltb_ge in D; lia]. field_raises E.
    + destruct (a <? 13) eqn:C; [apply Z.ltb_lt in C; lia|].
      destruct (120 <? a) eqn:D; [apply Z.ltb_lt in D; lia|]. field_silent E.
  - pose proof (number_field 1 5 v a Hv) as E.
    fold (validate_rating (Some v)) in E. rewrite <- Hraw in E.
    split; [|split]; intros Ha.
    + destruct (a <? 1) eqn:C; [|apply Z.ltb_ge in C; lia]. field_raises E.
    + destruct (a <? 1) eqn:C; [apply Z.ltb_lt in C; lia|].
      destruct (5 <? a) eqn:D; [|apply Z.ltb_ge in D; lia]. field_raises E.
    + destruct (a <? 1) eqn:C; [apply Z.ltb_lt in C; lia|].
      destruct (5 <? a) eqn:D; [apply Z.ltb_lt in D; lia|]. field_silent E.
Qed.

(** A text field on a value that reads as the text [t]. *)
Lemma text_required (mn : option Z) (mx : Z) (v : pyval) (t : str) :
  str_validator v = inr t ->
  validate_required
    (fun v => s <- str_validator v ;; constr_length_validator mn mx s)
    (Some v)
  = constr_length_validator mn mx t.
Proof.
  intros H. rewrite validate_required_some
    by exact (str_validator_not_none _ _ H).
  rewrite H. reflexivity.
Qed.

Lemma text_optional (post : option str -> vres (option str)) (v : pyval)
  (t : str) :
  str_validator v = inr t ->
  validate_optional
    (fun v => s <- str_validator v ;; constr_length_validator None 1000 s)
    post false (Some v)
  = bind (constr_length_validator None 1000 t) (fun a => post (Some a)).
Proof.
  intros H. rewrite validate_optional_some
    by exact (str_validator_not_none _ _ H).
  rewrite H. reflexivity.
Qed.

Lemma constr_length_long (mn : option Z) (mx : Z) (t : str) :
  match mn with Some m => m | None => 0 end <= Z.of_nat (length t) ->
  mx < Z.of_nat (length t) ->
  constr_length_validator mn mx t = inl (AnyStrMaxLengthError mx).
Proof.
  intros H1 H2. unfold constr_length_validator.
  destruct (Z.of_nat (length t) <? _) eqn:E1; [apply Z.ltb_lt in E1; lia|].
  destruct (mx <? Z.of_nat (length t)) eqn:E2;
    [reflexivity | apply Z.ltb_ge in E2; lia].
Qed.

(** X5.  The length limits are inclusive, and each has its own error: text
    given for name is reported as too short when it is empty and as too long
    when it has more than 100 characters; text given for comments or
    user_agent is reported as too long when it has more than 1000 characters;
    text within the limits is never reported. *)
Theorem length_bounds_reported
  (data : SurveySubmission.kwargs) (now : datetime) (v : pyval) (t : str) :
  str_validator v = inr t ->
  (SurveySubmission.raw_name data = Some v ->
   (length t = 0%nat ->
    raises_with data now "name" (AnyStrMinLengthError 1))
   /\ ((100 < length t)%nat ->
       raises_with data now "name" (AnyStrMaxLengthError 100))
   /\ ((1 <= length t <= 100)%nat -> no_entry data now "name"))
  /\ (SurveySubmission.raw_comments data = Some v ->
      ((1000 < length t)%nat ->
       raises_with data now "comments" (AnyStrMaxLengthError 1000))
      /\ ((length t <= 1000)%nat -> no_entry data now "comments"))
  /\ (SurveySubmission.raw_user_agent data = Some v ->
      ((1000 < length t)%nat ->
       raises_with data now "user_agent" (AnyStrMaxLengthError 1000))
      /\ ((length t <= 1000)%nat -> no_entry data now "user_agent")).
Proof.
  intros Hv. split; [|split]; intros Hraw.
  - pose proof (text_required (Some 1) 100 v t Hv) as E.
    fold (SurveySubmission.validate_name (Some v)) in E. rewrite <- Hraw in E.
    split; [|split]; intros Hlen.
    + assert (constr_length_validator (Some 1) 100 t
              = inl (AnyStrMinLengthError 1)) as C
        by (unfold constr_length_validator; rewrite Hlen; reflexivity).
      rewrite C in E. field_raises E.
    + rewrite constr_length_long in E by (simpl; lia). field_raises E.
    + rewrite constr_length_within in E by (simpl; lia). field_silent E.
  - pose proof (text_optional SurveySubmission._strip_comments v t Hv) as E.
    fold (SurveySubmission.validate_comments (Some v)) in E.
    rewrite <- Hraw in E. split; intros Hlen.
    + rewrite constr_length_long in E by (simpl; lia). simpl in E.
      field_raises E.
    + rewrite constr_length_fits in E by lia. simpl in E. field_silent E.
  - pose proof (text_optional ret v t Hv) as E.
    fold (SurveySubmission.validate_user_agent (Some v)) in E.
    rewrite <- Hraw in E. split; intros Hlen.
    + rewrite constr_length_long in E by (simpl; lia). simpl in E.
      field_raises E.
    + rewrite constr_length_fits in E by lia. simpl in E. field_silent E.
Qed.

Lemma bool_validator_error (v : pyval) (e : error_kind) :
  bool_validator v = inl e -> e = BoolError.
Proof.
  destruct v as [| b | z | t |]; cbn [bool_validator]; unfold ret, raise;
    try congruence.
  - destruct (z =? 1); [discriminate|]. destruct (z =? 0); congruence.
  - destruct (existsb _ BOOL_TRUE); [discriminate|].
    destruct (existsb _ BOOL_FALSE); congruence.
Qed.

(** X6.  What a value given for consent leads to depends on how the bool
    field reads it: read as [True], consent is never reported; read as
    [False], it is reported with the message of [_must_consent], consent must
    be true; not readable as a bool, it is reported as not a valid boolean
    and [_must_consent] does not run. *)
Theorem consent_error_kinds
  (data : SurveySubmission.kwargs) (now : datetime) (v : pyval) :
  SurveySubmission.raw_consent data = Some v ->
  v <> PNone ->
  match bool_validator v with
  | inr true => no_entry data now "consent"
  | inr false =>
      raises_with data now "consent" (ValueError "consent must be true")
  | inl _ => raises_with data now "consent" BoolError
  end.
Proof.
  intros Hraw Hv.
  assert (SurveySubmission.validate_consent
            (SurveySubmission.raw_consent data)
          = bind (bool_validator v) SurveySubmission._must_consent) as E.
  { rewrite Hraw. unfold SurveySubmission.validate_consent.
    now rewrite validate_required_some by exact Hv. }
  destruct (bool_validator v) as [e | [|]] eqn:B; simpl in E.
  - apply bool_validator_error in B. subst e. field_raises E.
  - change (SurveySubmission._must_consent true) with (@inr error_kind bool true)
      in E.
    field_silent E.
  - change (SurveySubmission._must_consent false)
      with (@inl error_kind bool (ValueError "consent must be true")) in E.
    field_raises E.
Qed.

(** ** What construction accepts and returns *)

Lemma reads_as_true_valid (value : option pyval) :
  SurveySubmission.reads_as_true value = true ->
  SurveySubmission.validate_consent value = inr true.
Proof.
  unfold SurveySubmission.validate_consent.
  destruct value as [[| b | z | t |]|];
    cbn [SurveySubmission.reads_as_true validate_required bool_validator];
    try discriminate; intros H.
  - now subst b.
  - now rewrite H.
  - now rewrite H.
Qed.

Lemma optional_comments_valid (value : option pyval) (cm : option str) :
  (value = None /\ cm = None
   \/ value = Some (SurveySubmission.optional_value cm)) ->
  StoredSurveyRecord.short_enough 1000 cm = true ->
  SurveySubmission.validate_comments value = inr (option_map strip cm).
Proof.
  intros [[-> ->] | ->] Hlen; [reflexivity|].
  destruct cm as [c|]; [|reflexivity]. simpl in Hlen.
  apply Nat.leb_le in Hlen.
  unfold SurveySubmission.validate_comments. simpl.
  now rewrite constr_length_fits by lia.
Qed.

Lemma optional_user_agent_valid (value : option pyval) (ua : option str) :
  (value = None /\ ua = None
   \/ value = Some (SurveySubmission.optional_value ua)) ->
  StoredSurveyRecord.short_enough 1000 ua = true ->
  SurveySubmission.validate_user_agent value = inr ua.
Proof.
  intros [[-> ->] | ->] Hlen; [reflexivity|].
  destruct ua as [c|]; [|reflexivity]. simpl in Hlen.
  apply Nat.leb_le in Hlen.
  unfold SurveySubmission.validate_user_agent. simpl.
  now rewrite constr_length_fits by lia.
Qed.

(** [encode] of text followed by the clock hour fails exactly when [encode]
    of the text fails. *)
Lemma encode_with_hour (e : str) (now : datetime) :
  Utf8.encode (e ++ strftime_YmdH now)
  = option_map (fun b => b ++ strftime_YmdH now) (Utf8.encode e).
Proof.
  rewrite encode_app, (encode_ascii _ (strftime_ascii now)).
  now destruct (Utf8.encode e).
Qed.

(** X7.  Input that meets every constraint is accepted: a name of 1 to 100
    characters, an email the email check accepts, an age in 13..120, a
    consent that reads as [True], a rating in 1..5, comments and user_agent
    absent, [None] or of at most 1000 characters, and a submission_id that
    is text, or not given when the validated email can be encoded.  The
    instance holds the name, age and rating as given, the validated email,
    consent [True], the stripped comments, the user_agent as given, and the
    identifier given if one was given. *)
Theorem valid_input_accepted
  (data : SurveySubmission.kwargs) (now : datetime) (n e e' : str) (a r : Z)
  (cm ua : option str) :
  SurveySubmission.raw_name data = Some (PStr n) ->
  (1 <= length n <= 100)%nat ->
  SurveySubmission.raw_email data = Some (PStr e) ->
  EmailStr_validate e = Some e' ->
  SurveySubmission.raw_age data = Some (PInt a) ->
  13 <= a <= 120 ->
  SurveySubmission.reads_as_true (SurveySubmission.raw_consent data) = true ->
  SurveySubmission.raw_rating data = Some (PInt r) ->
  1 <= r <= 5 ->
  (SurveySubmission.raw_comments data = None /\ cm = None
   \/ SurveySubmission.raw_comments data
      = Some (SurveySubmission.optional_value cm)) ->
  StoredSurveyRecord.short_enough 1000 cm = true ->
  (SurveySubmission.raw_user_agent data = None /\ ua = None
   \/ SurveySubmission.raw_user_agent data
      = Some (SurveySubmission.optional_value ua)) ->
  StoredSurveyRecord.short_enough 1000 ua = true ->
  ((exists given,
      SurveySubmission.raw_submission_id data = Some (PStr given))
   \/ (SurveySubmission.id_absent data /\ Utf8.encode e' <> None)) ->
  exists sid,
    new data now =
    Ok {| SurveySubmission.name := n; SurveySubmission.email := e';
          SurveySubmission.age := a; SurveySubmission.consent := true;
          SurveySubmission.rating := r;
          SurveySubmission.comments := option_map strip cm;
          SurveySubmission.user_agent := ua;
          SurveySubmission.submission_id := Some sid |}
    /\ (forall given,
          SurveySubmission.raw_submission_id data = Some (PStr given) ->
          sid = given).
Proof.
  intros Hn Hlen He Hev Ha Hage Hc Hr Hrat Hcm Hcml Hua Hual Hid.
  assert (SurveySubmission.validate_name (SurveySubmission.raw_name data)
          = inr n) as E1.
  { rewrite Hn. unfold SurveySubmission.validate_name. simpl.
    apply constr_length_within; simpl; lia. }
  assert (validate_email (SurveySubmission.raw_email data) = inr e') as E2.
  { rewrite He. unfold SurveySubmission.validate_email. simpl.
    now rewrite Hev. }
  assert (validate_age (SurveySubmission.raw_age data) = inr a) as E3.
  { rewrite Ha. unfold SurveySubmission.validate_age. simpl.
    now apply number_size_within. }
  pose proof (reads_as_true_valid _ Hc) as E4.
  assert (validate_rating (SurveySubmission.raw_rating data) = inr r) as E5.
  { rewrite Hr. unfold SurveySubmission.validate_rating. simpl.
    now apply number_size_within. }
  pose proof (optional_comments_valid _ _ Hcm Hcml) as E6.
  pose proof (optional_user_agent_valid _ _ Hua Hual) as E7.
  assert (SurveySubmission.v_email (validated_values data) = Some e') as Hv.
  { unfold SurveySubmission.validated_values. simpl. now rewrite E2. }
  assert (exists sid,
            SurveySubmission.validate_submission_id (validated_values data)
              now (SurveySubmission.raw_submission_id data) = inr (Some sid)
            /\ (forall given,
                  SurveySubmission.raw_submission_id data
                  = Some (PStr given) -> sid = given)) as (sid & E8 & Hsid).
  { destruct Hid as [[given Hg] | [Habs Henc]].
    - exists given. rewrite Hg. split; [reflexivity|]. congruence.
    - destruct (Utf8.encode e') as [b|] eqn:Eb; [|congruence].
      exists (Sha256.hexdigest (b ++ strftime_YmdH now)). split.
      + assert (SurveySubmission._compute_submission_id None
                  (validated_values data) now
                = inr (Some (Sha256.hexdigest (b ++ strftime_YmdH now))))
          as C.
        { unfold SurveySubmission._compute_submission_id.
          rewrite Hv, encode_with_hour, Eb. reflexivity. }
        destruct Habs as [-> | ->]; exact C.
      + intros given Hg. destruct Habs as [H | H]; rewrite H in Hg;
          discriminate. }
  exists sid. split; [|exact Hsid].
  now apply new_ok_intro.
Qed.

(** X8.  user_agent is stored as given, white space included, and an
    [Optional] field that is absent or [None] is [None] in the instance. *)
Theorem optional_fields_pass_through
  (data : SurveySubmission.kwargs) (now : datetime) (s : SurveySubmission.t) :
  new data now = Ok s ->
  (forall u, SurveySubmission.raw_user_agent data = Some (PStr u) ->
             SurveySubmission.user_agent s = Some u)
  /\ (SurveySubmission.raw_user_agent data = None
      \/ SurveySubmission.raw_user_agent data = Some PNone ->
      SurveySubmission.user_agent s = None)
  /\ (SurveySubmission.raw_comments data = None
      \/ SurveySubmission.raw_comments data = Some PNone ->
      SurveySubmission.comments s = None).
Proof.
  intros H.
  apply new_ok_inv in H as (_ & _ & _ & _ & _ & Hcm & Hua & _).
  split; [|split].
  - intros u Hu. rewrite Hu in Hua.
    apply validate_user_agent_inv in Hua
      as [[_ [Hn | Hn]] | (v & t & Hv & _ & Ht & _ & ->)]; try discriminate.
    injection Hv as <-. simpl in Ht. unfold ret in Ht. congruence.
  - intros Hn.
    apply validate_user_agent_inv in Hua
      as [[-> _] | (v & t & Hv & Hnone & _)]; [reflexivity|].
    destruct Hn as [Hn | Hn]; rewrite Hn in Hv; [discriminate|].
    injection Hv as <-. now contradiction Hnone.
  - intros Hn.
    apply validate_comments_inv in Hcm
      as [[-> _] | (v & t & Hv & Hnone & _)]; [reflexivity|].
    destruct Hn as [Hn | Hn]; rewrite Hn in Hv; [discriminate|].
    injection Hv as <-. now contradiction Hnone.
Qed.

(** X9.  The comments of a constructed submission are the text given with
    white space taken off its two ends and nothing else changed: the text
    given is white space, then the stored comments, then white space. *)
Theorem comments_lose_only_outer_space
  (data : SurveySubmission.kwargs) (now : datetime) (s : SurveySubmission.t)
  (c : str) :
  new data now = Ok s ->
  SurveySubmission.raw_comments data = Some (PStr c) ->
  exists ws1 cm ws2,
    SurveySubmission.comments s = Some cm
    /\ c = ws1 ++ cm ++ ws2
    /\ forallb isspace ws1 = true /\ forallb isspace ws2 = true
    /\ trimmed cm = true.
Proof.
  intros H Hraw.
  apply new_ok_inv in H as (_ & _ & _ & _ & _ & Hcm & _).
  rewrite Hraw in Hcm.
  apply validate_comments_inv in Hcm
    as [[_ [Hn | Hn]] | (v & t & Hv & _ & Ht & _ & Hcm)]; try discriminate.
  injection Hv as <-. simpl in Ht. unfold ret in Ht. injection Ht as <-.
  destruct (strip_split c) as (ws1 & ws2 & Hsplit & W1 & W2).
  exists ws1, (strip c), ws2.
  repeat split; auto. apply strip_trimmed.
Qed.

(** X10.  The error list of a failed construction is not empty and names
    fields in the order the class declares them, each at most once. *)
Theorem errors_in_declaration_order
  (data : SurveySubmission.kwargs) (now : datetime)
  (errors : list ErrorWrapper) :
  new data now = ValidationError errors ->
  errors <> []
  /\ in_order (map loc errors) SurveySubmission.field_names = true.
Proof.
  intros H. apply new_error_inv in H as [-> Hne]. split; [exact Hne|].
  unfold SurveySubmission.error_list.
  repeat match goal with
         | |- context [errors_of ?f ?r] =>
             destruct (errors_of_cases f r) as [E | [? E]]; rewrite E; clear E
         end; reflexivity.
Qed.

(** ** The clock and the identifier *)

(** The validator of submission_id at two clock readings: it raises the same
    error at both or returns at both, and returns the same when an identifier
    was given. *)
Lemma validate_submission_id_clock (values : SurveySubmission.values)
  (now1 now2 : datetime) (value : option pyval) :
  match SurveySubmission.validate_submission_id values now1 value,
        SurveySubmission.validate_submission_id values now2 value with
  | inl e1, inl e2 => e1 = e2
  | inr i1, inr i2 =>
      value <> None -> value <> Some PNone -> i1 = i2
  | _, _ => False
  end.
Proof.
  assert (match SurveySubmission._compute_submission_id None values now1,
                SurveySubmission._compute_submission_id None values now2 with
          | inl e1, inl e2 => e1 = e2
          | inr _, inr _ => True
          | _, _ => False
          end) as Hnone.
  { unfold SurveySubmission._compute_submission_id.
    destruct (SurveySubmission.v_email values) as [e|]; simpl; [|exact I].
    rewrite !encode_with_hour. now destruct (Utf8.encode e). }
  unfold SurveySubmission.validate_submission_id.
  destruct value as [[| b | z | t |]|];
    cbn [validate_optional str_validator];
    try destruct (py_str_int z);
    try (simpl; intros; reflexivity);
    destruct (SurveySubmission._compute_submission_id None values now1),
      (SurveySubmission._compute_submission_id None values now2);
    try exact Hnone; congruence.
Qed.

(** X11.  The clock decides nothing but the derived identifier: at two clock
    readings construction either fails at both, with the same error list, or
    succeeds at both, with the same name, email, age, consent, rating,
    comments and user_agent, and with the same submission_id when one was
    given. *)
Theorem clock_only_sets_identifier
  (data : SurveySubmission.kwargs) (now1 now2 : datetime) :
  match new data now1, new data now2 with
  | Ok s1, Ok s2 =>
      SurveySubmission.name s1 = SurveySubmission.name s2
      /\ SurveySubmission.email s1 = SurveySubmission.email s2
      /\ SurveySubmission.age s1 = SurveySubmission.age s2
      /\ SurveySubmission.consent s1 = SurveySubmission.consent s2
      /\ SurveySubmission.rating s1 = SurveySubmission.rating s2
      /\ SurveySubmission.comments s1 = SurveySubmission.comments s2
      /\ SurveySubmission.user_agent s1 = SurveySubmission.user_agent s2
      /\ (~ SurveySubmission.id_absent data -> s1 = s2)
  | ValidationError errors1, ValidationError errors2 => errors1 = errors2
  | _, _ => False
  end.
Proof.
  pose proof (validate_submission_id_clock (validated_values data) now1 now2
                (SurveySubmission.raw_submission_id data)) as Hid.
  unfold SurveySubmission.new, SurveySubmission.error_list.
  destruct (SurveySubmission.validate_submission_id _ now1 _) as [e1|i1],
    (SurveySubmission.validate_submission_id _ now2 _) as [e2|i2];
    try contradiction;
    destruct (SurveySubmission.validate_name _),
      (validate_email _), (validate_age _),
      (SurveySubmission.validate_consent _), (validate_rating _),
      (SurveySubmission.validate_comments _),
      (SurveySubmission.validate_user_agent _);
    simpl; try congruence.
  repeat (split; [reflexivity|]).
  intros Hgiven. rewrite Hid; [reflexivity | |];
    intros E; apply Hgiven; [left | right]; exact E.
Qed.

(** X12.  When the email fails validation and no submission_id is given,
    construction fails with the error of the email and nothing is reported
    for submission_id: without a validated email the identifier is left
    unset, not derived. *)
Theorem failed_email_leaves_identifier_unset
  (data : SurveySubmission.kwargs) (now : datetime) (e : error_kind) :
  validate_email (SurveySubmission.raw_email data) = inl e ->
  SurveySubmission.id_absent data ->
  raises_with data now "email" e
  /\ no_entry data now "submission_id"
  /\ SurveySubmission.validate_submission_id (validated_values data) now
       (SurveySubmission.raw_submission_id data) = inr None.
Proof.
  intros He Habs.
  assert (SurveySubmission.validate_submission_id (validated_values data) now
            (SurveySubmission.raw_submission_id data) = inr None) as Hid.
  { unfold SurveySubmission.validate_submission_id,
      SurveySubmission._compute_submission_id,
      SurveySubmission.validated_values.
    cbn [SurveySubmission.v_email]. rewrite He.
    destruct Habs as [-> | ->]; reflexivity. }
  split; [field_raises He | split; [|exact Hid]].
  field_silent Hid.
Qed.


(** X16.  Validation is idempotent: the attributes of a constructed
    submission, passed again as keyword arguments, construct the same
    submission at any clock reading, provided the email check returns
    addresses that it accepts unchanged. *)
Theorem revalidation_is_identity
  (data : SurveySubmission.kwargs) (now now' : datetime)
  (s : SurveySubmission.t) :
  (forall v e, EmailStr_validate v = Some e -> EmailStr_validate e = Some e) ->
  new data now = Ok s ->
  new (SurveySubmission.dict s) now' = Ok s.
Proof.
  intros Hidem H.
  destruct (new_constraints _ _ _ _ _ H)
    as ((Hn & Ha & Hc & Hr & Hcm & Hua) & [sid Hsid] & [v Hv]).
  pose proof H as Hinv.
  apply new_ok_inv in Hinv as (_ & _ & _ & _ & _ & Hstrip & _).
  apply validate_comments_inv in Hstrip.
  destruct s as [n e a c r cm ua i]. simpl in *. subst c i.
  apply new_ok_intro; cbn [SurveySubmission.dict SurveySubmission.raw_name
    SurveySubmission.raw_email SurveySubmission.raw_age
    SurveySubmission.raw_consent SurveySubmission.raw_rating
    SurveySubmission.raw_comments SurveySubmission.raw_user_agent
    SurveySubmission.raw_submission_id SurveySubmission.name
    SurveySubmission.email SurveySubmission.age SurveySubmission.consent
    SurveySubmission.rating SurveySubmission.comments
    SurveySubmission.user_agent SurveySubmission.submission_id].
  - unfold SurveySubmission.validate_name. simpl.
    apply constr_length_within; simpl; lia.
  - unfold SurveySubmission.validate_email. simpl.
    now rewrite (Hidem _ _ Hv).
  - unfold SurveySubmission.validate_age. simpl.
    now apply number_size_within.
  - reflexivity.
  - unfold SurveySubmission.validate_rating. simpl.
    now apply number_size_within.
  - destruct Hstrip as [[-> _] | (v0 & t & _ & _ & _ & Hlen & ->)];
      [reflexivity|].
    unfold SurveySubmission.validate_comments. simpl.
    pose proof (strip_length t).
    rewrite constr_length_fits by lia. simpl.
    now rewrite strip_idempotent.
  - destruct ua as [u|]; [|reflexivity].
    unfold SurveySubmission.validate_user_agent. simpl.
    specialize (Hua u eq_refl).
    now rewrite constr_length_fits by lia.
  - reflexivity.
Qed.

(** ** [from_submission] on any instance *)

Lemma constr_length_nat (m x : nat) (v : str) :
  constr_length_validator (Some (Z.of_nat m)) (Z.of_nat x) v
  = if Nat.leb m (length v) && Nat.leb (length v) x then inr v
    else inl (if Nat.leb m (length v)
              then AnyStrMaxLengthError (Z.of_nat x)
              else AnyStrMinLengthError (Z.of_nat m)).
Proof.
  unfold constr_length_validator.
  destruct (Nat.leb m (length v)) eqn:E1;
    [apply Nat.leb_le in E1 | apply Nat.leb_gt in E1];
    (destruct (Z.of_nat (length v) <? Z.of_nat m) eqn:C1;
     [apply Z.ltb_lt in C1 | apply Z.ltb_ge in C1]); try lia;
    [|reflexivity].
  destruct (Nat.leb (length v) x) eqn:E2;
    [apply Nat.leb_le in E2 | apply Nat.leb_gt in E2];
    (destruct (Z.of_nat x <? Z.of_nat (length v)) eqn:C2;
     [apply Z.ltb_lt in C2 | apply Z.ltb_ge in C2]); try lia; reflexivity.
Qed.

Lemma number_size_cases (lo hi r : Z) :
  number_size_validator lo hi r
  = if (lo <=? r) && (r <=? hi) then inr r
    else inl (if lo <=? r then NumberNotLeError hi else NumberNotGeError lo).
Proof.
  unfold number_size_validator.
  destruct (lo <=? r) eqn:E1; [apply Z.leb_le in E1 | apply Z.leb_gt in E1];
    (destruct (r <? lo) eqn:C1;
     [apply Z.ltb_lt in C1 | apply Z.ltb_ge in C1]); try lia;
    [|reflexivity].
  destruct (r <=? hi) eqn:E2; [apply Z.leb_le in E2 | apply Z.leb_gt in E2];
    (destruct (hi <? r) eqn:C2;
     [apply Z.ltb_lt in C2 | apply Z.ltb_ge in C2]); try lia; reflexivity.
Qed.

Lemma stored_name (n : str) :
  StoredSurveyRecord.validate_name (Some (PStr n))
  = if Nat.leb 1 (length n) && Nat.leb (length n) 100 then inr n
    else inl (if Nat.leb 1 (length n) then AnyStrMaxLengthError 100
              else AnyStrMinLengthError 1).
Proof. exact (constr_length_nat 1 100 n). Qed.

Lemma stored_rating (r : Z) :
  StoredSurveyRecord.validate_rating int_of_str (Some (PInt r))
  = if (1 <=? r) && (r <=? 5) then inr r
    else inl (if 1 <=? r then NumberNotLeError 5 else NumberNotGeError 1).
Proof. exact (number_size_cases 1 5 r). Qed.

Lemma stored_optional_text (o : option str) :
  StoredSurveyRecord.validate_optional_text
    (Some (StoredSurveyRecord.of_optional o))
  = if StoredSurveyRecord.short_enough 1000 o then inr o
    else inl (AnyStrMaxLengthError 1000).
Proof.
  destruct o as [t|]; [|reflexivity].
  unfold StoredSurveyRecord.validate_optional_text. simpl.
  destruct (Nat.leb (length t) 1000) eqn:E;
    [apply Nat.leb_le in E | apply Nat.leb_gt in E].
  - now rewrite constr_length_fits by lia.
  - now rewrite constr_length_long by (simpl; lia).
Qed.

Lemma stored_submission_id (o : option str) :
  StoredSurveyRecord.validate_str (Some (StoredSurveyRecord.of_optional o))
  = match o with
    | Some sid => inr sid
    | None => inl NoneIsNotAllowedError
    end.
Proof. destruct o; reflexivity. Qed.

(** The call of [StoredSurveyRecord] that [from_submission] makes, with the
    field validators replaced by what they give on these arguments. *)
Lemma stored_new (s : SurveySubmission.t) (received_at : datetime)
  (ip hashed_email hashed_age : str) :
  StoredSurveyRecord.new int_of_str
    {| StoredSurveyRecord.raw_name := Some (PStr (SurveySubmission.name s));
       StoredSurveyRecord.raw_hashed_email := Some (PStr hashed_email);
       StoredSurveyRecord.raw_hashed_age := Some (PStr hashed_age);
       StoredSurveyRecord.raw_consent :=
         Some (PBool (SurveySubmission.consent s));
       StoredSurveyRecord.raw_rating :=
         Some (PInt (SurveySubmission.rating s));
       StoredSurveyRecord.raw_comments :=
         Some (StoredSurveyRecord.of_optional (SurveySubmission.comments s));
       StoredSurveyRecord.raw_user_agent :=
         Some (StoredSurveyRecord.of_optional
                 (SurveySubmission.user_agent s));
       StoredSurveyRecord.raw_received_at := Some received_at;
       StoredSurveyRecord.raw_ip := Some (PStr ip);
       StoredSurveyRecord.raw_submission_id :=
         Some (StoredSurveyRecord.of_optional
                 (SurveySubmission.submission_id s)) |}
  = match StoredSurveyRecord.validate_name
            (Some (PStr (SurveySubmission.name s))),
          StoredSurveyRecord.validate_rating int_of_str
            (Some (PInt (SurveySubmission.rating s))),
          StoredSurveyRecord.validate_optional_text
            (Some (StoredSurveyRecord.of_optional
                     (SurveySubmission.comments s))),
          StoredSurveyRecord.validate_optional_text
            (Some (StoredSurveyRecord.of_optional
                     (SurveySubmission.user_agent s))),
          StoredSurveyRecord.validate_str
            (Some (StoredSurveyRecord.of_optional
                     (SurveySubmission.submission_id s))) with
    | inr n, inr r, inr cm, inr ua, inr sid =>
        Ok {| StoredSurveyRecord.name := n;
              StoredSurveyRecord.hashed_email := hashed_email;
              StoredSurveyRecord.hashed_age := hashed_age;
              StoredSurveyRecord.consent := SurveySubmission.consent s;
              StoredSurveyRecord.rating := r;
              StoredSurveyRecord.comments := cm;
              StoredSurveyRecord.user_agent := ua;
              StoredSurveyRecord.received_at := received_at;
              StoredSurveyRecord.ip := ip;
              StoredSurveyRecord.submission_id := sid |}
    | rn, rr, rcm, rua, rsid =>
        ValidationError
          (errors_of "name" rn ++ errors_of "rating" rr
           ++ errors_of "comments" rcm ++ errors_of "user_agent" rua
           ++ errors_of "submission_id" rsid)
    end.
Proof.
  unfold StoredSurveyRecord.new.
  cbn [StoredSurveyRecord.raw_name StoredSurveyRecord.raw_hashed_email
       StoredSurveyRecord.raw_hashed_age StoredSurveyRecord.raw_consent
       StoredSurveyRecord.raw_rating StoredSurveyRecord.raw_comments
       StoredSurveyRecord.raw_user_agent StoredSurveyRecord.raw_received_at
       StoredSurveyRecord.raw_ip StoredSurveyRecord.raw_submission_id].
  destruct (StoredSurveyRecord.validate_name _),
    (StoredSurveyRecord.validate_rating _ _),
    (StoredSurveyRecord.validate_optional_text
       (Some (StoredSurveyRecord.of_optional (SurveySubmission.comments s)))),
    (StoredSurveyRecord.validate_optional_text
       (Some (StoredSurveyRecord.of_optional
                (SurveySubmission.user_agent s)))),
    (StoredSurveyRecord.validate_str
       (Some (StoredSurveyRecord.of_optional
                (SurveySubmission.submission_id s))));
    reflexivity.
Qed.

(** X14.  What [from_submission] does on any instance, constructed or not:
    it raises [UnicodeEncodeError] when the email cannot be encoded;
    otherwise it raises the [ValueError] of [str] when the age has more than
    4300 digits; otherwise it returns the record with the copied fields and
    the two hashes when the name has 1 to 100 characters, the rating is in
    1..5, comments and user_agent have at most 1000 characters and
    submission_id is set, and raises a validation error when one of these
    fails.  The range of age and the value of consent are not checked again:
    any age that [str] prints is hashed and any consent is copied. *)
Theorem from_submission_outcome
  (s : SurveySubmission.t) (received_at : datetime) (ip : str) :
  match Utf8.encode (SurveySubmission.email s) with
  | None => from_submission s received_at ip = Raised ExnUnicodeEncode
  | Some email_bytes =>
      if max_str_int <=? Z.abs (SurveySubmission.age s) then
        from_submission s received_at ip = Raised ExnValue
      else if StoredSurveyRecord.storable s then
        exists sid,
          SurveySubmission.submission_id s = Some sid
          /\ from_submission s received_at ip =
             Ok {| StoredSurveyRecord.name := SurveySubmission.name s;
                   StoredSurveyRecord.hashed_email :=
                     Sha256.hexdigest email_bytes;
                   StoredSurveyRecord.hashed_age :=
                     Sha256.hexdigest (str_of_int (SurveySubmission.age s));
                   StoredSurveyRecord.consent := SurveySubmission.consent s;
                   StoredSurveyRecord.rating := SurveySubmission.rating s;
                   StoredSurveyRecord.comments := SurveySubmission.comments s;
                   StoredSurveyRecord.user_agent :=
                     SurveySubmission.user_agent s;
                   StoredSurveyRecord.received_at := received_at;
                   StoredSurveyRecord.ip := ip;
                   StoredSurveyRecord.submission_id := sid |}
      else
        exists errors,
          from_submission s received_at ip = ValidationError errors
          /\ errors <> []
  end.
Proof.
  unfold StoredSurveyRecord.from_submission, hash_pii.
  unfold py_str, PyStr_str, PyStr_int, py_str_int.
  destruct (Utf8.encode (SurveySubmission.email s)) as [eb|];
    cbn [option_map]; [|reflexivity].
  destruct (max_str_int <=? Z.abs (SurveySubmission.age s)); [reflexivity|].
  rewrite (encode_ascii _ (str_of_int_ascii _)). cbn [option_map].
  rewrite stored_new, stored_name, stored_rating, !stored_optional_text,
    stored_submission_id.
  unfold StoredSurveyRecord.storable.
  destruct (Nat.leb 1 (length (SurveySubmission.name s))),
    (Nat.leb (length (SurveySubmission.name s)) 100),
    (1 <=? SurveySubmission.rating s), (SurveySubmission.rating s <=? 5),
    (StoredSurveyRecord.short_enough 1000 (SurveySubmission.comments s)),
    (StoredSurveyRecord.short_enough 1000 (SurveySubmission.user_agent s)),
    (SurveySubmission.submission_id s) as [sid|];
    cbn [andb];
    try (eexists; split; [reflexivity | discriminate]).
  exists sid. split; reflexivity.
Qed.

(** X15.  An instance whose submission_id is unset cannot be stored: when
    its email can be encoded and its age printed, so that the two hashes are
    computed, [from_submission] raises a validation error that reports
    submission_id as [None] where a value is required. *)
Theorem unset_identifier_not_stored
  (s : SurveySubmission.t) (received_at : datetime) (ip : str) :
  SurveySubmission.submission_id s = None ->
  Utf8.encode (SurveySubmission.email s) <> None ->
  Z.abs (SurveySubmission.age s) < max_str_int ->
  exists errors,
    from_submission s received_at ip = ValidationError errors
    /\ In {| loc := "submission_id"; exc := NoneIsNotAllowedError |} errors.
Proof.
  intros Hsid Henc Hage.
  unfold StoredSurveyRecord.from_submission, hash_pii.
  unfold py_str, PyStr_str, PyStr_int.
  destruct (Utf8.encode (SurveySubmission.email s)) as [eb|];
    [|congruence]. cbn [option_map].
  rewrite (py_str_int_small _ Hage).
  rewrite (encode_ascii _ (str_of_int_ascii _)). cbn [option_map].
  rewrite stored_new, stored_submission_id, Hsid.
  destruct (StoredSurveyRecord.validate_name _),
    (StoredSurveyRecord.validate_rating _ _),
    (StoredSurveyRecord.validate_optional_text
       (Some (StoredSurveyRecord.of_optional (SurveySubmission.comments s)))),
    (StoredSurveyRecord.validate_optional_text
       (Some (StoredSurveyRecord.of_optional
                (SurveySubmission.user_agent s))));
    eexists; (split; [reflexivity|]); rewrite ?in_app_iff; simpl; auto 20.
Qed.

End Behaviour.

(** ** Equal hashes *)

Lemma cons_inj {A : Type} (x y : A) (l l' : list A) :
  x :: l = y :: l' -> x = y /\ l = l'.
Proof. intros H. injection H. auto. Qed.

(** The four forms of an encoded code point. *)
Lemma encode_char_shape (c : codepoint) (b : list Z) :
  Utf8.encode_char c = Some b ->
  (0 <= c < 0x80 /\ b = [c])
  \/ (0x80 <= c < 0x800 /\ b = [0xC0 + c / 64; 0x80 + c mod 64])
  \/ (0x800 <= c < 0x10000
      /\ b = [0xE0 + c / 4096; 0x80 + (c / 64) mod 64; 0x80 + c mod 64])
  \/ (0x10000 <= c < 0x110000
      /\ b = [0xF0 + c / 262144; 0x80 + (c / 4096) mod 64;
              0x80 + (c / 64) mod 64; 0x80 + c mod 64]).
Proof.
  unfold Utf8.encode_char.
  destruct (c <? 0) eqn:E0; [discriminate|]. apply Z.ltb_ge in E0.
  destruct (c <? 0x80) eqn:E1;
    [apply Z.ltb_lt in E1; intros H; injection H as <-; auto|].
  apply Z.ltb_ge in E1.
  destruct (c <? 0x800) eqn:E2;
    [apply Z.ltb_lt in E2; intros H; injection H as <-; auto|].
  apply Z.ltb_ge in E2.
  destruct (c <? 0x10000) eqn:E3.
  - apply Z.ltb_lt in E3. destruct (_ && _); [discriminate|].
    intros H. injection H as <-. auto 6.
  - apply Z.ltb_ge in E3. destruct (c <? 0x110000) eqn:E4; [|discriminate].
    apply Z.ltb_lt in E4. intros H. injection H as <-. auto 6.
Qed.

Lemma encode_char_prefix (c1 c2 : codepoint) (b1 b2 r1 r2 : list Z) :
  Utf8.encode_char c1 = Some b1 -> Utf8.encode_char c2 = Some b2 ->
  b1 ++ r1 = b2 ++ r2 -> c1 = c2.
Proof.
  intros H1 H2 H.
  apply encode_char_shape in H1, H2.
  destruct H1 as [[R1 ->] | [[R1 ->] | [[R1 ->] | [R1 ->]]]];
  destruct H2 as [[R2 ->] | [[R2 ->] | [[R2 ->] | [R2 ->]]]];
  cbn [app] in H;
  repeat match goal with
         | E : _ :: _ = _ :: _ |- _ => apply cons_inj in E; destruct E
         end;
  Z.div_mod_to_equations; lia.
Qed.

Lemma encode_char_nonempty (c : codepoint) (b : list Z) :
  Utf8.encode_char c = Some b -> b <> [].
Proof.
  unfold Utf8.encode_char.
  repeat match goal with
         | |- context [if ?t then _ else _] => destruct t
         end; intros H; try discriminate; injection H as <-; discriminate.
Qed.

(** [encode] is one to one. *)
Lemma encode_inj (s1 : str) :
  forall s2 b, Utf8.encode s1 = Some b -> Utf8.encode s2 = Some b -> s1 = s2.
Proof.
  induction s1 as [|c1 s1 IH]; intros [|c2 s2] b; simpl.
  - reflexivity.
  - intros H. injection H as <-.
    destruct (Utf8.encode_char c2) as [b2|] eqn:E2; [|discriminate].
    destruct (Utf8.encode s2); [|discriminate].
    intros H. injection H as H. apply app_eq_nil in H as [H _].
    now apply encode_char_nonempty in E2.
  - destruct (Utf8.encode_char c1) as [b1|] eqn:E1; [|discriminate].
    destruct (Utf8.encode s1); [|discriminate].
    intros H H'. injection H' as <-. injection H as H.
    apply app_eq_nil in H as [H _].
    now apply encode_char_nonempty in E1.
  - destruct (Utf8.encode_char c1) as [b1|] eqn:E1; [|discriminate].
    destruct (Utf8.encode s1) as [r1|] eqn:R1; [|discriminate].
    destruct (Utf8.encode_char c2) as [b2|] eqn:E2; [|discriminate].
    destruct (Utf8.encode s2) as [r2|] eqn:R2; [|discriminate].
    intros H H'. injection H as <-. injection H' as H.
    symmetry in H.
    pose proof (encode_char_prefix _ _ _ _ _ _ E1 E2 H) as ->.
    rewrite E1 in E2. injection E2 as <-.
    apply app_inv_head in H. subst r2.
    now rewrite (IH s2 r1 eq_refl R2).
Qed.

(** X17.  Two texts with the same hash are the same text, unless their
    UTF-8 encodings are two different byte strings with the same SHA-256
    digest: the hash has no salt, so equal values always meet in equal
    hashes, and only a collision lets different values meet. *)
Theorem equal_hashes_equal_texts (a b d : str) :
  hash_pii a = Some d -> hash_pii b = Some d ->
  a = b
  \/ exists m1 m2,
       Utf8.encode a = Some m1 /\ Utf8.encode b = Some m2
       /\ Sha256.collision m1 m2.
Proof.
  unfold hash_pii, py_str, PyStr_str.
  destruct (Utf8.encode a) as [m1|] eqn:Ea; [|discriminate].
  destruct (Utf8.encode b) as [m2|] eqn:Eb; [|discriminate].
  cbn [option_map]. intros Ha Hb.
  destruct (list_eq_dec Z.eq_dec m1 m2) as [-> | Hne].
  - left. exact (encode_inj a b m2 Ea Eb).
  - right. exists m1, m2. repeat split; auto. congruence.
Qed.

(** ** Instances of the further properties *)



(** X3 with the name left out. *)
Lemma required_field_absent_or_none_witness :
  SurveySubmission.raises_with ascii_email ascii_int
    (basic None (Some (PStr (lit "jo@x.com"))) (Some (PInt 40))
       (Some (PInt 5)))
    hour_2024031514 "name" MissingError.
Proof.
  destruct (required_field_absent_or_none ascii_email ascii_int
              (basic None (Some (PStr (lit "jo@x.com"))) (Some (PInt 40))
                 (Some (PInt 5)))
              hour_2024031514 "name") as [Habsent _].
  - simpl. auto.
  - apply Habsent. reflexivity.
Defined.

(** X4 at age 12. *)
Lemma number_bounds_reported_witness :
  SurveySubmission.raises_with ascii_email ascii_int
    (basic (Some (PStr (lit "Jo"))) (Some (PStr (lit "jo@x.com")))
       (Some (PInt 12)) (Some (PInt 5)))
    hour_2024031514 "age" (NumberNotGeError 13).
Proof.
  destruct (number_bounds_reported ascii_email ascii_int
              (basic (Some (PStr (lit "Jo"))) (Some (PStr (lit "jo@x.com")))
                 (Some (PInt 12)) (Some (PInt 5)))
              hour_2024031514 (PInt 12) 12) as [Hage _].
  - reflexivity.
  - destruct Hage as [Hlow _]; [reflexivity|]. apply Hlow. lia.
Defined.

(** X5 at an empty name. *)
Lemma length_bounds_reported_witness :
  SurveySubmission.raises_with ascii_email ascii_int
    (basic (Some (PStr [])) (Some (PStr (lit "jo@x.com")))
       (Some (PInt 40)) (Some (PInt 5)))
    hour_2024031514 "name" (AnyStrMinLengthError 1).
Proof.
  destruct (length_bounds_reported ascii_email ascii_int
              (basic (Some (PStr [])) (Some (PStr (lit "jo@x.com")))
                 (Some (PInt 40)) (Some (PInt 5)))
              hour_2024031514 (PStr []) []) as [Hname _].
  - reflexivity.
  - destruct Hname as [Hempty _]; [reflexivity|]. apply Hempty. reflexivity.
Defined.

(** X6 at a consent of 0, which reads as [False]. *)
Lemma consent_error_kinds_witness :
  SurveySubmission.raises_with ascii_email ascii_int
    (jo_with (PInt 0) None None) hour_2024031514 "consent"
    (ValueError "consent must be true").
Proof.
  apply (consent_error_kinds ascii_email ascii_int
           (jo_with (PInt 0) None None) hour_2024031514 (PInt 0)).
  - reflexivity.
  - discriminate.
Defined.

(** X7 at the example of the specification. *)
Lemma valid_input_accepted_witness :
  exists sid,
    SurveySubmission.new ascii_email ascii_int jo hour_2024031514
    = Ok (jo_instance (Some (lit "great")) sid).
Proof.
  destruct (valid_input_accepted ascii_email ascii_int jo hour_2024031514
              (lit "Jo") (lit "jo@x.com") (lit "jo@x.com") 40 5
              (Some (lit "  great  ")) None)
    as (sid & Hnew & _).
  - reflexivity.
  - simpl. lia.
  - reflexivity.
  - reflexivity.
  - reflexivity.
  - lia.
  - reflexivity.
  - reflexivity.
  - lia.
  - right. reflexivity.
  - reflexivity.
  - left. split; reflexivity.
  - reflexivity.
  - right. split; [left; reflexivity|]. vm_compute. discriminate.
  - exists sid. exact Hnew.
Defined.

(** X8 at a user_agent with white space around it. *)
Lemma optional_fields_pass_through_witness :
  SurveySubmission.user_agent jo_agent_instance = Some (lit " curl/8.0 ")
  /\ SurveySubmission.comments jo_agent_instance = None.
Proof.
  destruct (optional_fields_pass_through ascii_email ascii_int jo_agent
              hour_2024031514 jo_agent_instance) as (Hua & _ & Hcm).
  - vm_compute. reflexivity.
  - split; [apply Hua; reflexivity | apply Hcm; left; reflexivity].
Defined.

(** X9 at the example of the specification. *)
Lemma comments_lose_only_outer_space_witness :
  exists ws1 cm ws2,
    SurveySubmission.comments jo_submission = Some cm
    /\ lit "  great  " = ws1 ++ cm ++ ws2
    /\ forallb isspace ws1 = true /\ forallb isspace ws2 = true
    /\ trimmed cm = true.
Proof.
  apply (comments_lose_only_outer_space ascii_email ascii_int jo
           hour_2024031514 jo_submission (lit "  great  ")).
  - vm_compute. reflexivity.
  - reflexivity.
Defined.

(** X10 at an input that breaks three constraints. *)
Lemma errors_in_declaration_order_witness :
  in_order ["name"; "age"; "rating"]%string SurveySubmission.field_names
  = true.
Proof.
  destruct (errors_in_declaration_order ascii_email ascii_int
              three_violations hour_2024031514
              [ {| loc := "name"; exc := AnyStrMinLengthError 1 |};
                {| loc := "age"; exc := NumberNotLeError 120 |};
                {| loc := "rating"; exc := NumberNotGeError 1 |} ])
    as [_ Horder].
  - vm_compute. reflexivity.
  - exact Horder.
Defined.

(** X12 at text that is no address. *)
Lemma failed_email_leaves_identifier_unset_witness :
  SurveySubmission.raises_with ascii_email ascii_int
    (basic (Some (PStr (lit "Jo"))) (Some (PStr (lit "nobody")))
       (Some (PInt 40)) (Some (PInt 5)))
    hour_2024031514 "email" EmailError
  /\ SurveySubmission.no_entry ascii_email ascii_int
       (basic (Some (PStr (lit "Jo"))) (Some (PStr (lit "nobody")))
          (Some (PInt 40)) (Some (PInt 5)))
       hour_2024031514 "submission_id".
Proof.
  destruct (failed_email_leaves_identifier_unset ascii_email ascii_int
              (basic (Some (PStr (lit "Jo"))) (Some (PStr (lit "nobody")))
                 (Some (PInt 40)) (Some (PInt 5)))
              hour_2024031514 EmailError) as (Hemail & Hid & _).
  - reflexivity.
  - left. reflexivity.
  - split; assumption.
Defined.

(** X15 at an instance without identifier. *)
Lemma unset_identifier_not_stored_witness :
  exists errors,
    StoredSurveyRecord.from_submission ascii_int jo_unset hour_2024031515
      (lit "10.0.0.1") = ValidationError errors
    /\ In {| loc := "submission_id"; exc := NoneIsNotAllowedError |} errors.
Proof.
  apply (unset_identifier_not_stored ascii_int jo_unset hour_2024031515
           (lit "10.0.0.1")).
  - reflexivity.
  - vm_compute. discriminate.
  - vm_compute. reflexivity.
Defined.

Lemma split_at_spec (c : codepoint) (s : str) :
  forall a b,
    split_at c s = Some (a, b) ->
    s = a ++ c :: b /\ existsb (Z.eqb c) a = false.
Proof.
  induction s as [|x s IH]; intros a b; simpl; [discriminate|].
  destruct (x =? c) eqn:E.
  - intros H. injection H as <- <-. apply Z.eqb_eq in E. subst. auto.
  - destruct (split_at c s) as [[a' b']|]; [|discriminate].
    intros H. injection H as <- <-.
    destruct (IH a' b' eq_refl) as [-> Hno].
    split; [reflexivity|]. simpl. now rewrite Z.eqb_sym, E.
Qed.

Lemma split_at_app (c : codepoint) (a b : str) :
  existsb (Z.eqb c) a = false -> split_at c (a ++ c :: b) = Some (a, b).
Proof.
  induction a as [|x a IH]; simpl; intros H.
  - now rewrite Z.eqb_refl.
  - apply orb_false_iff in H as [H1 H2].
    now rewrite Z.eqb_sym, H1, (IH H2).
Qed.

Lemma lower_char_idempotent (c : codepoint) :
  lower_char (lower_char c) = lower_char c.
Proof.
  unfold lower_char.
  destruct ((0x41 <=? c) && (c <=? 0x5A)) eqn:E; [|now rewrite E].
  apply andb_true_iff in E as [E1 E2]. apply Z.leb_le in E1, E2.
  destruct ((0x41 <=? c + 32) && (c + 32 <=? 0x5A)) eqn:F; [|reflexivity].
  apply andb_true_iff in F as [F1 F2]. apply Z.leb_le in F1, F2. lia.
Qed.

Lemma lower_idempotent (s : str) : lower (lower s) = lower s.
Proof.
  unfold lower. rewrite map_map. apply map_ext. apply lower_char_idempotent.
Qed.

(** Lower case neither makes nor removes a character below the letters. *)
Lemma existsb_lower (k : codepoint) (s : str) :
  k < 0x41 -> existsb (Z.eqb k) (lower s) = existsb (Z.eqb k) s.
Proof.
  intros Hk. induction s as [|c s IH]; simpl; [reflexivity|].
  rewrite IH. f_equal. unfold lower_char.
  destruct ((0x41 <=? c) && (c <=? 0x5A)) eqn:E; [|reflexivity].
  apply andb_true_iff in E as [E1 E2]. apply Z.leb_le in E1, E2.
  destruct (k =? c + 32) eqn:A; [apply Z.eqb_eq in A; lia|].
  destruct (k =? c) eqn:B; [apply Z.eqb_eq in B; lia | reflexivity].
Qed.

(** [ascii_email] accepts the addresses it returns, unchanged. *)
Lemma ascii_email_fixed (v e : str) :
  ascii_email v = Some e -> ascii_email e = Some e.
Proof.
  unfold ascii_email.
  destruct (split_at 64 v) as [[local domain]|] eqn:S; [|discriminate].
  apply split_at_spec in S as [_ Hlocal].
  destruct (_ && _) eqn:C; [|discriminate].
  intros H. injection H as <-.
  pose proof (split_at_app 64 local (lower domain) Hlocal) as S.
  pose proof (lower_idempotent domain) as L.
  pose proof (existsb_lower 64 domain ltac:(lia)) as A.
  pose proof (existsb_lower 46 domain ltac:(lia)) as D.
  cbv [str codepoint] in *.
  rewrite S, L, A, D, C. reflexivity.
Qed.

(** X16 at the example of the specification. *)
Lemma revalidation_is_identity_witness :
  SurveySubmission.new ascii_email ascii_int
    (SurveySubmission.dict jo_submission) hour_2024031515
  = Ok jo_submission.
Proof.
  apply (revalidation_is_identity ascii_email ascii_int jo hour_2024031514
           hour_2024031515 jo_submission).
  - exact ascii_email_fixed.
  - vm_compute. reflexivity.
Defined.

(** X17 at the email of the example. *)
Lemma equal_hashes_equal_texts_witness :
  lit "jo@x.com" = lit "jo@x.com"
  \/ exists m1 m2,
       Utf8.encode (lit "jo@x.com") = Some m1
       /\ Utf8.encode (lit "jo@x.com") = Some m2
       /\ Sha256.collision m1 m2.
Proof.
  apply (equal_hashes_equal_texts (lit "jo@x.com") (lit "jo@x.com")
           (StoredSurveyRecord.hashed_email
              (jo_record hour_2024031515 (lit "10.0.0.1")))).
  - vm_compute. reflexivity.
  - vm_compute. reflexivity.
Defined.
